(** * OceanGuard: the ingestion, classification and fusion pipeline

    A shallow embedding of [backend/services/nlp.py], [credibility.py],
    [dedupe.py], [fusion.py], [ingest.py] and of the administrator hook of
    [backend/app.py], followed by the properties of the specification that
    were checked against it.

    Conventions of the embedding:
    - a Python [float] is a real number ([R]): arithmetic is exact, there is
      no rounding, no NaN and no infinity;
    - a Python [str] is a [string] of ASCII characters; [str.lower], [\w],
      [\s] and [str.split] are the ASCII restrictions of the Python ones;
    - a Python [dict] whose iteration order is observed is an association
      list in insertion order;
    - a Python [int] is an integer of [Z]; the limits of [datetime] and of
      the keys of the store are written out where the code meets them;
    - Python's [None] is the [None] of an option: a nullable column and a
      dictionary value that may be [None] are options;
    - a Python exception is a value of [exn], and code that can raise
      returns a [result]. *)

From Stdlib Require Import Reals Lra Lia ZArith List String Ascii Bool Arith.
From Stdlib Require Import Permutation DecimalString.
Import ListNotations.

Open Scope string_scope.
Open Scope R_scope.

(** ** Python values shared by all services *)

Module Py.

Inductive exn : Type :=
| ValueError
| ZeroDivisionError
| AttributeError
| TypeError
| OverflowError
| UnboundLocalError
| HTTPException (status_code : nat).

Inductive result (A : Type) : Type :=
| Ok (a : A)
| Raise (e : exn).

Arguments Ok {A} a.
Arguments Raise {A} e.

Definition bind {A B : Type} (m : result A) (k : A -> result B) : result B :=
  match m with
  | Ok a => k a
  | Raise e => Raise e
  end.

Definition is_ok {A : Type} (m : result A) : bool :=
  match m with
  | Ok _ => true
  | Raise _ => false
  end.

(** [x / y] on floats. *)
Definition truediv (x y : R) : result R :=
  if Req_dec_T y 0 then Raise ZeroDivisionError else Ok (x / y).

(** Characters. *)

Definition in_range (lo hi : nat) (c : ascii) : bool :=
  let n := nat_of_ascii c in (lo <=? n)%nat && (n <=? hi)%nat.

Definition is_upper (c : ascii) : bool := in_range 65 90 c.
Definition is_lower_alpha (c : ascii) : bool := in_range 97 122 c.
Definition is_digit (c : ascii) : bool := in_range 48 57 c.

(** [str.isspace] on one ASCII character: tab, line feed, vertical tab, form
    feed, carriage return, the four separators 28..31 and the blank. *)
Definition is_space (c : ascii) : bool :=
  in_range 9 13 c || in_range 28 32 c.

(** The class [\w]. *)
Definition is_word (c : ascii) : bool :=
  is_upper c || is_lower_alpha c || is_digit c || Ascii.eqb c "_".

Definition lower_char (c : ascii) : ascii :=
  if is_upper c then ascii_of_nat (nat_of_ascii c + 32) else c.

(** Strings. *)

Fixpoint map_str (f : ascii -> ascii) (s : string) : string :=
  match s with
  | EmptyString => EmptyString
  | String c s' => String (f c) (map_str f s')
  end.

Fixpoint filter_str (f : ascii -> bool) (s : string) : string :=
  match s with
  | EmptyString => EmptyString
  | String c s' => if f c then String c (filter_str f s') else filter_str f s'
  end.

Fixpoint rev_str (s : string) : string :=
  match s with
  | EmptyString => EmptyString
  | String c s' => rev_str s' ++ String c EmptyString
  end.

Definition is_empty (s : string) : bool :=
  match s with
  | EmptyString => true
  | String _ _ => false
  end.

(** [s.lower()] *)
Definition lower (s : string) : string := map_str lower_char s.

Fixpoint lstrip (s : string) : string :=
  match s with
  | EmptyString => EmptyString
  | String c s' => if is_space c then lstrip s' else s
  end.

(** [s.strip()] *)
Definition strip (s : string) : string :=
  rev_str (lstrip (rev_str (lstrip s))).

(** [not text or not text.strip()] *)
Definition is_blank (text : string) : bool :=
  is_empty text || is_empty (strip text).

Fixpoint split_from (s cur : string) : list string :=
  match s with
  | EmptyString => if is_empty cur then [] else [cur]
  | String c s' =>
      if is_space c
      then (if is_empty cur then split_from s' "" else cur :: split_from s' "")
      else split_from s' (cur ++ String c "")
  end.

(** [s.split()] *)
Definition split (s : string) : list string := split_from s "".

(** [sep.join(l)] *)
Fixpoint join (sep : string) (l : list string) : string :=
  match l with
  | [] => ""
  | [w] => w
  | w :: l' => w ++ sep ++ join sep l'
  end.

(** [sub in s] *)
Fixpoint contains (sub s : string) : bool :=
  prefix sub s ||
  match s with
  | EmptyString => false
  | String _ s' => contains sub s'
  end.

Fixpoint count_from (sub s : string) (skip : nat) : nat :=
  match s with
  | EmptyString => 0
  | String _ s' =>
      match skip with
      | S k => count_from sub s' k
      | O => if prefix sub s
             then S (count_from sub s' (String.length sub - 1))
             else count_from sub s' 0
      end
  end.

(** [s.count(sub)]: the number of non-overlapping occurrences. *)
Definition count (s sub : string) : nat :=
  if is_empty sub then S (String.length s) else count_from sub s 0.

Definition mem_str (x : string) (l : list string) : bool :=
  existsb (String.eqb x) l.

(** [dict.get(key, default)] on an association list. *)
Fixpoint get {V : Type} (d : list (string * V)) (key : string) (default : V) : V :=
  match d with
  | [] => default
  | (k, v) :: d' => if String.eqb k key then v else get d' key default
  end.

(** [max(d, key=d.get)]: the first key, in iteration order, whose value is
    not exceeded; [gt best v] tells whether [v > best]. *)
Fixpoint max_from {V : Type} (gt : V -> V -> bool)
         (best : string * V) (d : list (string * V)) : string * V :=
  match d with
  | [] => best
  | kv :: d' => max_from gt (if gt (snd best) (snd kv) then kv else best) d'
  end.

Definition max_by_value {V : Type} (gt : V -> V -> bool)
           (d : list (string * V)) : option (string * V) :=
  match d with
  | [] => None
  | kv :: d' => Some (max_from gt kv d')
  end.

Definition Rgtb (best v : R) : bool :=
  if Rlt_dec best v then true else false.

(** [set(l)] keeps one copy of every element; Python leaves the iteration
    order of a set unspecified, the order of [nodup] is taken here. *)
Definition set_of (l : list string) : list string := nodup string_dec l.

(** The [math] module: [sqrt] and [asin] raise [ValueError] outside their
    domains. *)
Definition math_radians (x : R) : R := x * (PI / 180).

Definition math_sqrt (x : R) : result R :=
  if Rlt_dec x 0 then Raise ValueError else Ok (sqrt x).

Definition math_asin (x : R) : result R :=
  if Rlt_dec x (-1) then Raise ValueError
  else if Rlt_dec 1 x then Raise ValueError
  else Ok (asin x).

Definition log10 (x : R) : R := ln x / ln 10.

End Py.

Notation "x <- m ;; k" := (Py.bind m (fun x => k))
  (at level 61, m at next level, right associativity).

(** ** services/nlp.py *)

Module NLP.

Record NLPResult : Type := mkNLPResult {
  hazard_type : string;
  confidence : R;
  severity_boost : nat;
  keywords_found : list string
}.

(** [self.hazard_keywords], in the order of the dictionary literal. *)
Definition hazard_keywords : list (string * list string) :=
  [ ("flood",
     [ "flood"; "flooding"; "water level"; "overflow"; "inundation";
       "waterlogged"; "submerg"; "drain"; "sewage"; "rain"; "monsoon";
       "deluge"; "torrent"; "heavy rain"; "downpour"; "cloudburst";
       "river overflow"; "flash flood"; "urban flooding"; "street flooding";
       "water rising"; "high water";
       "baarish"; "paani"; "sel"; "jal"; "baadh" ]);
    ("tsunami",
     [ "tsunami"; "tidal wave"; "sea surge"; "ocean wave"; "seismic wave";
       "underwater earthquake"; "sea level rise"; "giant wave";
       "wall of water"; "abnormal wave"; "huge wave"; "tidal surge";
       "sea wall"; "marine surge"; "oceanic wave"; "mega wave"; "killer wave";
       "harbor wave";
       "sunami"; "samudri lahar"; "samudri toofan" ]);
    ("tides",
     [ "high tide"; "low tide"; "tidal surge"; "tidal flooding";
       "abnormal tide"; "spring tide"; "neap tide"; "tide level"; "tidal bore";
       "tidal wave"; "unusual tide"; "extreme tide"; "king tide"; "storm tide";
       "tidal current"; "tide height"; "tidal inundation"; "coastal surge";
       "tidal overflow";
       "jowar"; "bhata"; "samudri lehren" ]);
    ("earthquake",
     [ "earthquake"; "tremor"; "quake"; "seismic"; "ground shaking";
       "earth tremor"; "shaking"; "vibration"; "ground movement"; "fault";
       "epicenter"; "aftershock"; "richter"; "magnitude"; "building shake";
       "ground shake"; "seismic activity"; "tectonic"; "trembling";
       "earth movement"; "foreshock"; "mainshock";
       "bhukamp"; "zameen hilna"; "kampan"; "dharti hilna" ]);
    ("landslide",
     [ "landslide"; "landslip"; "mudslide"; "rockslide"; "slope failure";
       "mass wasting"; "debris flow"; "rock fall"; "cliff collapse";
       "soil erosion"; "hill collapse"; "mountain slide";
       "embankment failure"; "slope instability"; "avalanche"; "mudflow";
       "earth movement"; "ground collapse"; "subsidence";
       "bhooskalan"; "pahad girna"; "mitti ka khisakna"; "zameen dhansna" ]) ].

(** [self.severity_keywords] *)
Definition severity_high : list string :=
  [ "emergency"; "urgent"; "critical"; "severe"; "dangerous"; "trapped";
    "injured"; "casualties"; "death"; "rescue"; "evacuate"; "siren" ].

Definition severity_medium : list string :=
  [ "warning"; "alert"; "caution"; "moderate"; "rising"; "increasing" ].

(** [self.stopwords], both languages. *)
Definition all_stopwords : list string :=
  [ "the"; "a"; "an"; "and"; "or"; "but"; "in"; "on"; "at"; "to"; "for";
    "of"; "with"; "by"; "is"; "are"; "was"; "were"; "be"; "been"; "have";
    "has"; "had"; "do"; "does"; "did"; "will"; "would"; "could"; "should";
    "aur"; "ka"; "ki"; "ke"; "mein"; "se"; "par"; "ko"; "hai"; "hain"; "tha";
    "thi" ].

(** [re.sub(r'[^\w\s\-\.]', ' ', text)] *)
Definition keep_char (c : ascii) : bool :=
  Py.is_word c || Py.is_space c || Ascii.eqb c "-" || Ascii.eqb c ".".

Definition sub_special (text : string) : string :=
  Py.map_str (fun c => if keep_char c then c else " "%char) text.

(** [re.sub(r'\s+', ' ', text)] *)
Fixpoint sub_spaces (text : string) (in_run : bool) : string :=
  match text with
  | EmptyString => EmptyString
  | String c s' =>
      if Py.is_space c
      then (if in_run then sub_spaces s' true
            else String " " (sub_spaces s' true))
      else String c (sub_spaces s' false)
  end.

Definition preprocess_text (text : string) : string :=
  if Py.is_empty text then "" else
  let text := Py.lower text in
  let text := sub_special text in
  let text := Py.strip (sub_spaces text false) in
  let words := Py.split text in
  let filtered_words :=
    filter (fun word => negb (Py.mem_str word all_stopwords)
                        && (2 <? String.length word)%nat) words in
  Py.join " " filtered_words.

(** The inner loop of [extract_hazard_type]: the score and the matched
    keywords of one hazard type. *)
Fixpoint score_keywords (preprocessed_text : string) (keywords : list string)
         (score : nat) (found : list string) : nat * list string :=
  match keywords with
  | [] => (score, found)
  | keyword :: rest =>
      let exact_matches := Py.count preprocessed_text keyword in
      if (0 <? exact_matches)%nat
      then score_keywords preprocessed_text rest
             (score + exact_matches * 2) (found ++ [keyword])
      else if Py.contains keyword preprocessed_text
      then score_keywords preprocessed_text rest (score + 1) (found ++ [keyword])
      else score_keywords preprocessed_text rest score found
  end.

(** The outer loop: [hazard_scores] and [found_keywords], which share their
    keys, in insertion order. *)
Fixpoint hazard_scores_of (preprocessed_text : string)
         (table : list (string * list string))
  : list (string * (nat * list string)) :=
  match table with
  | [] => []
  | (hazard, keywords) :: rest =>
      let sf := score_keywords preprocessed_text keywords 0 [] in
      if (0 <? fst sf)%nat
      then (hazard, sf) :: hazard_scores_of preprocessed_text rest
      else hazard_scores_of preprocessed_text rest
  end.

Definition hazard_scores (text : string) : list (string * (nat * list string)) :=
  hazard_scores_of (preprocess_text text) hazard_keywords.

Definition score_gt (best v : nat * list string) : bool :=
  (fst best <? fst v)%nat.

Definition extract_hazard_type (text : string) : string * R * list string :=
  match Py.max_by_value score_gt (hazard_scores text) with
  | None => ("unknown", 0.3, [])
  | Some (best_hazard, (max_score, found)) =>
      (best_hazard, Rmin (0.4 + INR max_score * 0.05) 0.7, found)
  end.

Definition extract_severity_boost (text : string) : nat :=
  let preprocessed_text := preprocess_text text in
  let boost := 0%nat in
  let boost :=
    if existsb (fun keyword => Py.contains keyword preprocessed_text) severity_high
    then (boost + 2)%nat else boost in
  let boost :=
    if existsb (fun keyword => Py.contains keyword preprocessed_text) severity_medium
    then (boost + 1)%nat else boost in
  Nat.min boost 2.

Definition source_scaling : list (string * R) :=
  [ ("citizen", 0.25); ("social_media", 0.20); ("incois", 0.80);
    ("lora_sos", 0.95) ].

Definition _apply_progressive_confidence (base_confidence : R) (source : string) : R :=
  let scaling_factor := Py.get source_scaling (Py.lower source) 0.25 in
  let scaled_confidence := base_confidence * scaling_factor in
  if Py.mem_str (Py.lower source) ["citizen"; "social_media"]
  then Rmax 0.08 (Rmin 0.35 scaled_confidence)
  else if String.eqb (Py.lower source) "incois"
  then Rmax 0.50 (Rmin 0.85 scaled_confidence)
  else scaled_confidence.

Definition _apply_media_verification_boost
           (base_confidence : R) (has_media media_verified : bool) : R :=
  if negb has_media then base_confidence
  else if media_verified then Rmin 0.95 (base_confidence + 0.6)
  else Rmin 0.7 (base_confidence + 0.15).

Definition classify_text (text source : string) (has_media media_verified : bool)
  : NLPResult :=
  if Py.is_blank text
  then mkNLPResult "unknown" 0.1 0 []
  else
    let '(hazard_type, base_confidence, keywords) := extract_hazard_type text in
    let confidence := _apply_progressive_confidence base_confidence source in
    let confidence :=
      _apply_media_verification_boost confidence has_media media_verified in
    let severity_boost := extract_severity_boost text in
    mkNLPResult hazard_type confidence severity_boost keywords.

End NLP.

(** ** datetime values

    A [datetime] is a wall-clock reading in microseconds, with the offset of
    its time zone from UTC when it is aware and [None] when it is naive. *)

Module DT.

Record datetime : Type := mkdatetime {
  wall : Z;
  tzoffset : option Z
}.

Definition is_naive (t : datetime) : bool :=
  match tzoffset t with
  | None => true
  | Some _ => false
  end.

(** [t.replace(tzinfo=timezone.utc)] *)
Definition replace_utc (t : datetime) : datetime := mkdatetime (wall t) (Some 0%Z).

(** The instant of an aware value, in microseconds since the epoch. *)
Definition instant (t : datetime) : Z :=
  match tzoffset t with
  | None => wall t
  | Some off => (wall t - off)%Z
  end.

(** The readings of [datetime.min], 0001-01-01 00:00:00, and of
    [datetime.max], 9999-12-31 23:59:59.999999. *)
Definition min_wall : Z := (-62135596800000000)%Z.
Definition max_wall : Z := 253402300799999999%Z.

(** A reading that a [datetime] can hold. *)
Definition representable (w : Z) : bool :=
  (min_wall <=? w)%Z && (w <=? max_wall)%Z.

(** [t.tzinfo != timezone.utc] on an aware value: time zones compare by
    their offsets. *)
Definition is_utc (t : datetime) : bool :=
  match tzoffset t with
  | Some off => Z.eqb off 0
  | None => false
  end.

(** [t.astimezone(timezone.utc)] on an aware value: the offset is
    subtracted from the reading, which raises [OverflowError] when the
    result is not a reading that a [datetime] can hold. *)
Definition astimezone_utc (t : datetime) : Py.result datetime :=
  if representable (instant t)
  then Py.Ok (mkdatetime (instant t) (Some 0%Z))
  else Py.Raise Py.OverflowError.

(** [t2 - t1], in microseconds: naive values subtract their readings, aware
    values their instants, and mixing them raises [TypeError]. *)
Definition sub (t2 t1 : datetime) : Py.result Z :=
  match tzoffset t2, tzoffset t1 with
  | None, None => Py.Ok (wall t2 - wall t1)%Z
  | Some _, Some _ => Py.Ok (instant t2 - instant t1)%Z
  | _, _ => Py.Raise Py.TypeError
  end.

(** [t1 < t2], with the same rule. *)
Definition lt (t1 t2 : datetime) : Py.result bool :=
  match tzoffset t1, tzoffset t2 with
  | None, None => Py.Ok (wall t1 <? wall t2)%Z
  | Some _, Some _ => Py.Ok (instant t1 <? instant t2)%Z
  | _, _ => Py.Raise Py.TypeError
  end.

(** [timedelta.total_seconds()] *)
Definition total_seconds (delta : Z) : R := IZR delta / 1000000.

End DT.

(** ** services/credibility.py *)

Module Credibility.

Record CredibilityResult : Type := mkCredibilityResult {
  score : R;
  features : list (string * R);
  explanation : string
}.

Definition source_weights : list (string * R) :=
  [ ("incois", 1.0); ("lora", 0.95); ("citizen", 0.6); ("social", 0.4) ].

Definition feature_weights : list (string * R) :=
  [ ("source_reliability", 0.4); ("has_media", 0.15); ("gps_accuracy", 0.15);
    ("text_quality", 0.15); ("temporal_consistency", 0.1);
    ("past_accuracy", 0.05) ].

Definition score_source_reliability (source : string) : R :=
  let source := if Py.is_empty source then "unknown" else Py.lower source in
  Py.get source_weights source 0.3.

Definition score_media_presence (media_path : option string) : R :=
  match media_path with
  | Some media_path => if negb (Py.is_blank media_path) then 0.8 else 0.2
  | None => 0.2
  end.

(** [s.split('.')[-1]]: what follows the last dot. *)
Fixpoint after_last_dot (s cur : string) : string :=
  match s with
  | EmptyString => cur
  | String c s' =>
      if Ascii.eqb c "." then after_last_dot s' ""
      else after_last_dot s' (cur ++ String c "")
  end.

(** [len(str(x).split('.')[-1]) if '.' in str(x) else 0] *)
Definition precision_of (repr : string) : nat :=
  if Py.contains "." repr then String.length (after_last_dot repr "") else 0%nat.

Section Scorer.

(** [str(x)] of a float [x] is Python's own; the scorer only reads the number
    of characters after its decimal point. *)
Variable float_str : R -> string.

Definition score_gps_accuracy (lat lon : R) (gps_accuracy : option R) : R :=
  if negb ((if Rle_dec (-90) lat then true else false)
           && (if Rle_dec lat 90 then true else false)
           && (if Rle_dec (-180) lon then true else false)
           && (if Rle_dec lon 180 then true else false))
  then 0.0
  else
    let lat_precision := precision_of (float_str lat) in
    let lon_precision := precision_of (float_str lon) in
    if (8 <? lat_precision)%nat || (8 <? lon_precision)%nat then 0.3
    else if (lat_precision <? 2)%nat || (lon_precision <? 2)%nat then 0.4
    else match gps_accuracy with
         | Some acc =>
             if Rle_dec acc 20 then 1.0
             else if Rle_dec acc 50 then 0.8
             else if Rle_dec acc 100 then 0.6
             else 0.3
         | None => 0.7
         end.

End Scorer.

(** The maximal runs of [\w] characters of a string. *)
Fixpoint word_runs_from (s cur : string) : list string :=
  match s with
  | EmptyString => if Py.is_empty cur then [] else [cur]
  | String c s' =>
      if Py.is_word c then word_runs_from s' (cur ++ String c "")
      else if Py.is_empty cur then word_runs_from s' ""
      else cur :: word_runs_from s' ""
  end.

Definition word_runs (s : string) : list string := word_runs_from s "".

(** [re.search(r'\b(w1|w2|...)\b', text)]: some maximal run is one of the
    words. *)
Definition search_whole_word (words : list string) (text : string) : bool :=
  existsb (fun run => Py.mem_str run words) (word_runs text).

(** [re.search(r'\b\d+\b', text)]: some maximal run is made of digits. *)
Definition all_digits (s : string) : bool :=
  Py.is_empty (Py.filter_str (fun c => negb (Py.is_digit c)) s).

Definition search_number (text : string) : bool :=
  existsb all_digits (word_runs text).

(** [re.search(r'(.)\1{4,}', text)]: a character other than the line feed
    five times in a row; [run] is the length of the run that ends at [prev]. *)
Fixpoint search_repeated_char (s : string) (prev : option ascii) (run : nat) : bool :=
  match s with
  | EmptyString => false
  | String c s' =>
      if Nat.eqb (nat_of_ascii c) 10 then search_repeated_char s' None 0
      else
        let run' := match prev with
                    | Some p => if Ascii.eqb p c then S run else 1%nat
                    | None => 1%nat
                    end in
        (5 <=? run')%nat || search_repeated_char s' (Some c) run'
  end.

(** [re.search(r'\b(\w+)\s+\1\b', text)]: two equal maximal runs with only
    white space between them; [prev] is the last completed run when nothing
    but white space followed it. *)
Fixpoint search_repeated_word (s : string) (prev : option string) (cur : string) : bool :=
  let same := match prev with
              | Some p => negb (Py.is_empty cur) && String.eqb p cur
              | None => false
              end in
  match s with
  | EmptyString => same
  | String c s' =>
      if Py.is_word c then search_repeated_word s' prev (cur ++ String c "")
      else if Py.is_empty cur
      then search_repeated_word s' (if Py.is_space c then prev else None) ""
      else same || search_repeated_word s' (if Py.is_space c then Some cur else None) ""
  end.

(** [re.search(r'[A-Z]{10,}', text)] *)
Fixpoint search_caps (s : string) (run : nat) : bool :=
  match s with
  | EmptyString => false
  | String c s' =>
      if Py.is_upper c then (10 <=? S run)%nat || search_caps s' (S run)
      else search_caps s' 0
  end.

Definition spam_patterns : list (string -> bool) :=
  [ (fun text => search_repeated_char text None 0);
    (fun text => search_repeated_word text None "");
    Py.contains "!!!";
    (fun text => search_caps text 0) ].

Definition info_indicators : list (string -> bool) :=
  [ search_number;
    search_whole_word ["morning"; "evening"; "afternoon"; "night"; "am"; "pm"];
    search_whole_word ["near"; "at"; "in"; "around"; "beside"];
    search_whole_word ["level"; "height"; "depth"; "speed"] ].

(** [for pattern in patterns: if re.search(pattern, text): acc += step] *)
Fixpoint accumulate (patterns : list (string -> bool)) (text : string)
         (step acc : R) : R :=
  match patterns with
  | [] => acc
  | p :: rest => accumulate rest text step (if p text then acc + step else acc)
  end.

Definition score_text_quality (text : string) : R :=
  if Py.is_blank text then 0.0 else
  let text := Py.strip text in
  let text_length := String.length text in
  let word_count := List.length (Py.split text) in
  let length_score := 0.0 in
  let length_score := if (30 <=? text_length)%nat then 0.5 else length_score in
  let length_score := if (50 <=? text_length)%nat then 0.7 else length_score in
  let length_score := if (100 <=? text_length)%nat then 0.9 else length_score in
  let length_score := if (500 <? text_length)%nat then 0.6 else length_score in
  let unique_words := List.length (Py.set_of (Py.split (Py.lower text))) in
  let diversity_score := Rmin (INR unique_words / INR (Nat.max word_count 1)) 1.0 in
  let spam_penalty := accumulate spam_patterns text 0.1 0.0 in
  let info_bonus := accumulate info_indicators (Py.lower text) 0.05 0.0 in
  Rmin (Rmax (length_score * 0.6 + diversity_score * 0.4 + info_bonus - spam_penalty) 0.0)
       1.0.

(** [now] is the reading of [datetime.now(timezone.utc)], in microseconds. *)
Definition score_temporal_consistency (now : Z) (timestamp : option DT.datetime)
  : Py.result R :=
  match timestamp with
  | None => Py.Ok 0.5
  | Some timestamp =>
      timestamp <- (if DT.is_naive timestamp then Py.Ok (DT.replace_utc timestamp)
                    else if negb (DT.is_utc timestamp) then DT.astimezone_utc timestamp
                    else Py.Ok timestamp) ;;
      let time_diff := Rabs (DT.total_seconds (now - DT.instant timestamp)) in
      if (now <? DT.instant timestamp)%Z then Py.Ok 0.1
      else if Rle_dec time_diff 3600 then Py.Ok 1.0
      else if Rle_dec time_diff 86400 then Py.Ok 0.9
      else if Rle_dec time_diff 604800 then Py.Ok 0.7
      else if Rle_dec time_diff 2592000 then Py.Ok 0.4
      else Py.Ok 0.2
  end.

Definition score_past_accuracy (reporter_id : option string) : R := 0.5.

(** The loop over [features.items()]. *)
Fixpoint weighted_totals (features : list (string * R)) (total_score total_weight : R)
  : R * R :=
  match features with
  | [] => (total_score, total_weight)
  | (feature, score) :: rest =>
      let weight := Py.get feature_weights feature 0 in
      weighted_totals rest (total_score + score * weight) (total_weight + weight)
  end.

Definition Rgeb (x y : R) : bool := if Rle_dec y x then true else false.
Definition Rleb (x y : R) : bool := if Rle_dec x y then true else false.

Definition explain (features : list (string * R)) : string :=
  let f := fun name => Py.get features name 0 in
  let parts : list string :=
    ((if Rgeb (f "source_reliability") 0.8 then ["Reliable source"]
     else if Rleb (f "source_reliability") 0.4 then ["Unreliable source"] else [])
    ++ (if Rgeb (f "has_media") 0.7 then ["has media evidence"] else [])
    ++ (if Rgeb (f "gps_accuracy") 0.8 then ["accurate location"]
        else if Rleb (f "gps_accuracy") 0.4 then ["poor location data"] else [])
    ++ (if Rgeb (f "text_quality") 0.7 then ["detailed description"]
        else if Rleb (f "text_quality") 0.4 then ["poor description quality"] else [])
    ++ (if Rgeb (f "temporal_consistency") 0.8 then ["recent report"]
        else if Rleb (f "temporal_consistency") 0.4 then ["outdated report"] else []))%list in
  match parts with
  | [] => "Average credibility"
  | _ => Py.join "; " parts
  end.

Section Calculate.

Variable float_str : R -> string.
Variable now : Z.

Definition feature_scores (source text : string) (lat lon : R)
           (timestamp : option DT.datetime) (media_path : option string)
           (gps_accuracy : option R) (reporter_id : option string)
  : Py.result (list (string * R)) :=
  let source_reliability := score_source_reliability source in
  let has_media := score_media_presence media_path in
  let gps_accuracy := score_gps_accuracy float_str lat lon gps_accuracy in
  let text_quality := score_text_quality text in
  temporal_consistency <- score_temporal_consistency now timestamp ;;
  Py.Ok [ ("source_reliability", source_reliability);
          ("has_media", has_media);
          ("gps_accuracy", gps_accuracy);
          ("text_quality", text_quality);
          ("temporal_consistency", temporal_consistency);
          ("past_accuracy", score_past_accuracy reporter_id) ].

Definition calculate_credibility (source text : string) (lat lon : R)
           (timestamp : option DT.datetime) (media_path : option string)
           (gps_accuracy : option R) (reporter_id : option string)
  : Py.result CredibilityResult :=
  features <-
    feature_scores source text lat lon timestamp media_path gps_accuracy reporter_id ;;
  let '(total_score, total_weight) := weighted_totals features 0.0 0.0 in
  let final_score :=
    if Rlt_dec 0 total_weight then total_score / total_weight else 0.0 in
  Py.Ok (mkCredibilityResult final_score features (explain features)).

End Calculate.

End Credibility.

(** ** Report dictionaries

    The services exchange reports as dictionaries.  [t] has every key that
    the clusterer and the fusion engine read; the two keys that may be
    missing, ['severity'] and ['group_id'], are options.  The value of
    ['group_id'] is an integer or Python's [None], itself an option: the
    key is missing ([None]), bound to [None] ([Some None]) or bound to an
    integer. *)

Module Report.

Record t : Type := mk {
  id : Z;
  text : string;
  lat : R;
  lon : R;
  timestamp : option DT.datetime;
  source : string;
  nlp_type : string;
  nlp_conf : R;
  credibility : R;
  has_media : bool;
  media_verified : bool;
  keywords_found : list string;
  severity_boost : Z;
  severity : option Z;
  group_id : option (option Z)
}.

End Report.

(** ** services/dedupe.py *)

Module Dedupe.

Inductive explanation_part : Type :=
| SameLocation (distance : R)
| SimilarTime (time_diff : R)
| SimilarDescription (textual_sim : R).

Inductive explanation_text : Type :=
| FirstReport
| UniqueReport
| Parts (parts : list explanation_part).

(** [explanation] keeps the parts of the message and the numbers they
    print, before Python formats them. *)
Record DedupeResult : Type := mkDedupeResult {
  group_id : option Z;
  is_duplicate : bool;
  similarity_score : R;
  matched_reports : list Z;
  explanation : explanation_text
}.

Definition spatial_threshold_km : R := 5.0.
Definition temporal_threshold_minutes : R := 30.
Definition combined_threshold : R := 0.6.
Definition weight_spatial : R := 0.4.
Definition weight_temporal : R := 0.3.
Definition weight_textual : R := 0.3.

Definition haversine_distance (lat1 lon1 lat2 lon2 : R) : Py.result R :=
  let lat1_rad := Py.math_radians lat1 in
  let lon1_rad := Py.math_radians lon1 in
  let lat2_rad := Py.math_radians lat2 in
  let lon2_rad := Py.math_radians lon2 in
  let dlat := lat2_rad - lat1_rad in
  let dlon := lon2_rad - lon1_rad in
  let a := sin (dlat / 2) ^ 2 + cos lat1_rad * cos lat2_rad * sin (dlon / 2) ^ 2 in
  root <- Py.math_sqrt a ;;
  angle <- Py.math_asin root ;;
  let c := 2 * angle in
  let r := 6371 in
  Py.Ok (r * c).

Definition spatial_similarity (lat1 lon1 lat2 lon2 : R) : Py.result R :=
  distance_km <- haversine_distance lat1 lon1 lat2 lon2 ;;
  if Rlt_dec spatial_threshold_km distance_km then Py.Ok 0.0
  else
    let similarity := 1.0 - distance_km / spatial_threshold_km in
    Py.Ok (Rmax 0.0 similarity).

Definition make_aware (t : DT.datetime) : DT.datetime :=
  if DT.is_naive t then DT.replace_utc t else t.

Definition temporal_similarity (time1 time2 : option DT.datetime) : Py.result R :=
  match time1, time2 with
  | Some time1, Some time2 =>
      let time1 := make_aware time1 in
      let time2 := make_aware time2 in
      delta <- DT.sub time2 time1 ;;
      let time_diff_minutes := Rabs (DT.total_seconds delta) / 60 in
      if Rlt_dec temporal_threshold_minutes time_diff_minutes then Py.Ok 0.0
      else
        let similarity := 1.0 - time_diff_minutes / temporal_threshold_minutes in
        Py.Ok (Rmax 0.0 similarity)
  | _, _ => Py.Ok 0.5
  end.

(** [re.sub(r'[^\w\s]', '', text)], [split] and the length filter. *)
Definition _tokenize (text : string) : list string :=
  let text := Py.filter_str (fun c => Py.is_word c || Py.is_space c) text in
  let tokens := Py.split text in
  filter (fun token => (2 <? String.length token)%nat) tokens.

Definition intersection (s1 s2 : list string) : list string :=
  filter (fun x => Py.mem_str x s2) s1.

Definition union (s1 s2 : list string) : list string :=
  (s1 ++ filter (fun x => negb (Py.mem_str x s1)) s2)%list.

Definition is_nil {A : Type} (l : list A) : bool :=
  match l with
  | [] => true
  | _ => false
  end.

Definition jaccard_similarity (text1 text2 : string) : R :=
  if Py.is_empty text1 || Py.is_empty text2 then 0.0 else
  let tokens1 := Py.set_of (_tokenize (Py.lower text1)) in
  let tokens2 := Py.set_of (_tokenize (Py.lower text2)) in
  if is_nil tokens1 && is_nil tokens2 then 1.0
  else if is_nil tokens1 || is_nil tokens2 then 0.0
  else
    let intersection := List.length (intersection tokens1 tokens2) in
    let union := List.length (union tokens1 tokens2) in
    if (0 <? union)%nat then INR intersection / INR union else 0.0.

Definition textual_similarity (text1 text2 : string) : R :=
  jaccard_similarity text1 text2.

Definition combined_similarity (report1 report2 : Report.t) : Py.result R :=
  spatial_sim <- spatial_similarity (Report.lat report1) (Report.lon report1)
                                    (Report.lat report2) (Report.lon report2) ;;
  temporal_sim <- temporal_similarity (Report.timestamp report1)
                                      (Report.timestamp report2) ;;
  let textual_sim := textual_similarity (Report.text report1) (Report.text report2) in
  let combined_score :=
    spatial_sim * weight_spatial +
    temporal_sim * weight_temporal +
    textual_sim * weight_textual in
  Py.Ok combined_score.

(** [r.get('group_id', r['id'])]: the value of the key when it is there,
    be it [None], and the key of the report when it is missing. *)
Definition group_of (r : Report.t) : option Z :=
  match Report.group_id r with
  | Some g => g
  | None => Some (Report.id r)
  end.

(** The comparison loop of [find_duplicates]; the state is
    [(best_match, best_score, matched_reports)]. *)
Fixpoint scan (new_report : Report.t) (existing_reports : list Report.t)
         (best_match : option Report.t) (best_score : R) (matched_reports : list Z)
  : Py.result (option Report.t * R * list Z) :=
  match existing_reports with
  | [] => Py.Ok (best_match, best_score, matched_reports)
  | existing_report :: rest =>
      similarity <- combined_similarity new_report existing_report ;;
      if Rle_dec combined_threshold similarity
      then
        let matched_reports := (matched_reports ++ [Report.id existing_report])%list in
        if Rlt_dec best_score similarity
        then scan new_report rest (Some existing_report) similarity matched_reports
        else scan new_report rest best_match best_score matched_reports
      else scan new_report rest best_match best_score matched_reports
  end.

(** The message built for a duplicate. *)
Definition explain (new_report best_match : Report.t) : Py.result (list explanation_part) :=
  spatial_sim <- spatial_similarity (Report.lat new_report) (Report.lon new_report)
                                    (Report.lat best_match) (Report.lon best_match) ;;
  temporal_sim <- temporal_similarity (Report.timestamp new_report)
                                      (Report.timestamp best_match) ;;
  let textual_sim := textual_similarity (Report.text new_report) (Report.text best_match) in
  parts1 <- (if Rlt_dec 0.7 spatial_sim
             then distance <- haversine_distance
                                (Report.lat new_report) (Report.lon new_report)
                                (Report.lat best_match) (Report.lon best_match) ;;
                  Py.Ok [SameLocation distance]
             else Py.Ok []) ;;
  parts2 <- (if Rlt_dec 0.7 temporal_sim
             then match Report.timestamp new_report, Report.timestamp best_match with
                  | Some t_new, Some t_best =>
                      delta <- DT.sub t_new t_best ;;
                      Py.Ok [SimilarTime (Rabs (DT.total_seconds delta / 60))]
                  | _, _ => Py.Raise Py.TypeError
                  end
             else Py.Ok []) ;;
  let parts3 := if Rlt_dec 0.4 textual_sim then [SimilarDescription textual_sim] else [] in
  Py.Ok (parts1 ++ parts2 ++ parts3)%list.

(** [max(l, default=0)] *)
Definition max_default0 (l : list Z) : Z :=
  match l with
  | [] => 0%Z
  | x :: l' => fold_left Z.max l' x
  end.

(** [max(l, default=0)] on a list whose items are integers or [None]: the
    items after the first are compared with the greatest so far, and a
    comparison with [None] raises [TypeError]. *)
Fixpoint max_items (max_item : option Z) (l : list (option Z)) : Py.result (option Z) :=
  match l with
  | [] => Py.Ok max_item
  | item :: l' =>
      match item, max_item with
      | Some v, Some m => max_items (Some (Z.max m v)) l'
      | _, _ => Py.Raise Py.TypeError
      end
  end.

Definition max_or_none (l : list (option Z)) : Py.result (option Z) :=
  match l with
  | [] => Py.Ok (Some 0%Z)
  | item :: l' => max_items item l'
  end.

(** [x + 1] on an integer or [None]. *)
Definition add_one (x : option Z) : Py.result Z :=
  match x with
  | Some v => Py.Ok (v + 1)%Z
  | None => Py.Raise Py.TypeError
  end.

Definition find_duplicates (new_report : Report.t) (existing_reports : list Report.t)
  : Py.result DedupeResult :=
  if is_nil existing_reports
  then Py.Ok (mkDedupeResult (Some 1%Z) false 0.0 [] FirstReport)
  else
    found <- scan new_report existing_reports None 0.0 [] ;;
    let '(best_match, best_score, matched_reports) := found in
    match best_match with
    | Some best_match =>
        parts <- explain new_report best_match ;;
        Py.Ok (mkDedupeResult (group_of best_match) true best_score
                              matched_reports (Parts parts))
    | None =>
        max_group_id <- max_or_none (map group_of existing_reports) ;;
        new_group_id <- add_one max_group_id ;;
        Py.Ok (mkDedupeResult (Some new_group_id) false best_score [] UniqueReport)
    end.

(** [get_group_statistics]: the dictionary it returns, [None] standing for
    the empty dictionary. *)
Record GroupStats : Type := mkGroupStats {
  count : nat;
  centroid_lat : R;
  centroid_lon : R;
  earliest_time : option DT.datetime;
  latest_time : option DT.datetime;
  source_distribution : list (string * Z);
  unique_descriptions : list string;
  report_ids : list Z
}.

(** [min(timestamps)] and [max(timestamps)]: each element is compared with
    the best one so far. *)
Fixpoint min_from (best : DT.datetime) (l : list DT.datetime) : Py.result DT.datetime :=
  match l with
  | [] => Py.Ok best
  | t :: l' =>
      smaller <- DT.lt t best ;;
      min_from (if smaller then t else best) l'
  end.

Fixpoint max_from (best : DT.datetime) (l : list DT.datetime) : Py.result DT.datetime :=
  match l with
  | [] => Py.Ok best
  | t :: l' =>
      larger <- DT.lt best t ;;
      max_from (if larger then t else best) l'
  end.

Definition min_time (timestamps : list DT.datetime) : Py.result (option DT.datetime) :=
  match timestamps with
  | [] => Py.Ok None
  | t :: l => m <- min_from t l ;; Py.Ok (Some m)
  end.

Definition max_time (timestamps : list DT.datetime) : Py.result (option DT.datetime) :=
  match timestamps with
  | [] => Py.Ok None
  | t :: l => m <- max_from t l ;; Py.Ok (Some m)
  end.

(** [source_counts[source] = source_counts.get(source, 0) + 1] *)
Fixpoint increment (counts : list (string * Z)) (source : string) : list (string * Z) :=
  match counts with
  | [] => [(source, 1%Z)]
  | (k, n) :: rest =>
      if String.eqb k source then (k, (n + 1)%Z) :: rest
      else (k, n) :: increment rest source
  end.

Fixpoint sum_R (l : list R) : R :=
  match l with
  | [] => 0
  | x :: l' => x + sum_R l'
  end.

Fixpoint some_values {A : Type} (l : list (option A)) : list A :=
  match l with
  | [] => []
  | Some x :: l' => x :: some_values l'
  | None :: l' => some_values l'
  end.

Definition get_group_statistics (group_reports : list Report.t)
  : Py.result (option GroupStats) :=
  if is_nil group_reports then Py.Ok None else
  let n := INR (List.length group_reports) in
  let avg_lat := sum_R (map Report.lat group_reports) / n in
  let avg_lon := sum_R (map Report.lon group_reports) / n in
  let timestamps := some_values (map Report.timestamp group_reports) in
  earliest_time <- min_time timestamps ;;
  latest_time <- max_time timestamps ;;
  let source_counts := fold_left increment (map Report.source group_reports) [] in
  let unique_texts :=
    Py.set_of (filter (fun t => negb (Py.is_empty t)) (map Report.text group_reports)) in
  Py.Ok (Some (mkGroupStats (List.length group_reports) avg_lat avg_lon
                            earliest_time latest_time source_counts
                            (firstn 5 unique_texts)
                            (map Report.id group_reports))).

End Dedupe.

(** ** json.dumps

    The part of [json.dumps] that the evidence blob uses: the default
    separators and ASCII strings.  The text of a float is Python's
    [float.__repr__], taken as [float_repr]. *)

Module Json.

#[local] Unset Elimination Schemes.

Inductive value : Type :=
| Null
| Int (n : Z)
| Float (x : R)
| Str (s : string)
| List (items : list value)
| Dict (items : list (string * value)).

#[local] Set Elimination Schemes.

(** [str(n)] *)
Definition str_of_Z (n : Z) : string := NilEmpty.string_of_int (Z.to_int n).

Definition hex_digit (n : nat) : ascii :=
  if (n <? 10)%nat then ascii_of_nat (48 + n) else ascii_of_nat (87 + n).

Definition dquote : ascii := ascii_of_nat 34.
Definition backslash : ascii := ascii_of_nat 92.

Definition escape_char (c : ascii) : string :=
  let n := nat_of_ascii c in
  if Nat.eqb n 34 then String backslash (String dquote "")
  else if Nat.eqb n 92 then String backslash (String backslash "")
  else if Nat.eqb n 10 then String backslash "n"
  else if Nat.eqb n 13 then String backslash "r"
  else if Nat.eqb n 9 then String backslash "t"
  else if Nat.eqb n 8 then String backslash "b"
  else if Nat.eqb n 12 then String backslash "f"
  else if (n <? 32)%nat || (126 <? n)%nat
  then String backslash "u00"
       ++ String (hex_digit (n / 16)) (String (hex_digit (n mod 16)) "")
  else String c "".

Fixpoint escape (s : string) : string :=
  match s with
  | EmptyString => ""
  | String c s' => escape_char c ++ escape s'
  end.

Definition quote (s : string) : string :=
  String dquote (escape s) ++ String dquote "".

Section Dumps.

Variable float_repr : R -> string.

Fixpoint dumps (v : value) : string :=
  match v with
  | Null => "null"
  | Int n => str_of_Z n
  | Float x => float_repr x
  | Str s => quote s
  | List items =>
      "[" ++ Py.join ", " (map dumps items) ++ "]"
  | Dict items =>
      "{" ++ Py.join ", "
               (map (fun kv => quote (fst kv) ++ ": " ++ dumps (snd kv)) items)
          ++ "}"
  end.

End Dumps.

End Json.

(** ** services/fusion.py *)

Module Fusion.

Record FusionResult : Type := mkFusionResult {
  hazard_type : string;
  confidence : R;
  severity : Z;
  status : string;
  centroid_lat : R;
  centroid_lon : R;
  evidence_json : string;
  priority_score : R
}.

Definition source_weights : list (string * R) :=
  [ ("incois", 0.9); ("lora", 0.95); ("citizen", 0.6); ("social", 0.4) ].

Definition threshold_auto_alert : R := 0.85.
Definition threshold_emergency : R := 0.9.
Definition threshold_review_required : R := 0.3.

Definition hazard_priorities : list (string * R) :=
  [ ("emergency", 1.0); ("tsunami", 0.95); ("earthquake", 0.9);
    ("landslide", 0.85); ("flood", 0.8); ("tides", 0.7); ("unknown", 0.3) ].

(** The confidence of one report after the media boost. *)
Definition media_boosted_confidence (report : Report.t) : R :=
  let base_report_confidence := Report.nlp_conf report * Report.credibility report in
  if Report.has_media report && Report.media_verified report
  then Rmin 0.95 (base_report_confidence + 0.4)
  else if Report.has_media report
  then Rmin 0.7 (base_report_confidence + 0.15)
  else base_report_confidence.

(** [source_groups[source].append(c)], creating the list when the source is
    new. *)
Fixpoint append_to (source_groups : list (string * list R)) (source : string) (c : R)
  : list (string * list R) :=
  match source_groups with
  | [] => [(source, [c])]
  | (k, l) :: rest =>
      if String.eqb k source then (k, (l ++ [c])%list) :: rest
      else (k, l) :: append_to rest source c
  end.

(** One turn of the first loop of [calculate_weighted_confidence]; the
    state is [(source_groups, verified_media_count, total_media_count)]. *)
Definition collect_step (st : list (string * list R) * nat * nat) (report : Report.t)
  : list (string * list R) * nat * nat :=
  let '(source_groups, verified_media_count, total_media_count) := st in
  let source := Py.lower (Report.source report) in
  let total_media_count :=
    if Report.has_media report then S total_media_count else total_media_count in
  let verified_media_count :=
    if Report.has_media report && Report.media_verified report
    then S verified_media_count else verified_media_count in
  (append_to source_groups source (media_boosted_confidence report),
   verified_media_count, total_media_count).

Definition collect (reports : list Report.t) : list (string * list R) * nat * nat :=
  fold_left collect_step reports ([], 0%nat, 0%nat).

(** The arguments of [log10] and [sqrt] are [volume + 1] and a quotient of
    [volume], with [volume] a length: they are in the domains. *)
Definition _calculate_volume_factor (volume : nat) (source : string) : R :=
  if (volume <=? 0)%nat then 0.0
  else if Py.mem_str source ["incois"; "lora"]
  then Rmin 1.0 (0.8 + 0.1 * Py.log10 (INR volume + 1))
  else if String.eqb source "citizen"
  then
    let base := 0.25 in
    let growth := 0.25 * Py.log10 (INR volume + 1) in
    let bonus := Rmin 0.45 (0.1 * sqrt (INR volume / 10)) in
    Rmin 0.95 (base + growth + bonus)
  else if String.eqb source "social"
  then
    let base := 0.15 in
    let growth := 0.2 * Py.log10 (INR volume + 1) in
    let bonus := Rmin 0.35 (0.08 * sqrt (INR volume / 5)) in
    Rmin 0.8 (base + growth + bonus)
  else
    let base := 0.1 in
    let growth := 0.15 * Py.log10 (INR volume + 1) in
    Rmin 0.5 (base + growth).

(** With no source at all [boost] is read before it is bound. *)
Definition _calculate_source_diversity_boost (unique_sources : list string)
           (num_sources : nat) : Py.result R :=
  if Nat.eqb num_sources 1 then Py.Ok 1.0
  else
    boost <- (if Nat.eqb num_sources 2 then Py.Ok 1.5
              else if Nat.eqb num_sources 3 then Py.Ok 2.0
              else if (4 <=? num_sources)%nat then Py.Ok 2.5
              else Py.Raise Py.UnboundLocalError) ;;
    let boost :=
      if Py.mem_str "incois" unique_sources
      then
        let boost := if Py.mem_str "citizen" unique_sources then boost + 0.3 else boost in
        if Py.mem_str "lora" unique_sources then boost + 0.4 else boost
      else boost in
    let boost :=
      if Py.mem_str "lora" unique_sources && Py.mem_str "citizen" unique_sources
      then boost + 0.2 else boost in
    Py.Ok (Rmin 3.0 boost).

Definition _calculate_media_evidence_boost (verified_media_count total_media_count : nat)
  : R :=
  if Nat.eqb total_media_count 0 then 1.0
  else
    let base_media_boost := 1.2 in
    let verification_ratio := INR verified_media_count / INR total_media_count in
    let verification_boost := 1.0 + verification_ratio * 0.5 in
    let volume_boost :=
      if (3 <=? verified_media_count)%nat then 1.3
      else if (2 <=? verified_media_count)%nat then 1.2
      else 1.0 in
    let total_boost := base_media_boost * verification_boost * volume_boost in
    Rmin 2.5 total_boost.

(** The second loop: [(total_confidence, total_weight)] over the sources. *)
Fixpoint source_totals (source_groups : list (string * list R))
         (total_confidence total_weight : R) : R * R :=
  match source_groups with
  | [] => (total_confidence, total_weight)
  | (source, report_confidences) :: rest =>
      let source_weight := Py.get source_weights source 0.3 in
      let avg_confidence :=
        Dedupe.sum_R report_confidences / INR (List.length report_confidences) in
      let volume := List.length report_confidences in
      let volume_factor := _calculate_volume_factor volume source in
      let source_contribution := avg_confidence * volume_factor * source_weight in
      source_totals rest (total_confidence + source_contribution)
                         (total_weight + source_weight)
  end.

Definition calculate_weighted_confidence (reports : list Report.t) : Py.result R :=
  if Dedupe.is_nil reports then Py.Ok 0.0 else
  let '(source_groups, verified_media_count, total_media_count) := collect reports in
  let '(total_confidence, total_weight) := source_totals source_groups 0.0 0.0 in
  let base_confidence :=
    if Rlt_dec 0 total_weight then total_confidence / total_weight else 0.0 in
  let unique_sources := map fst source_groups in
  let num_sources := List.length unique_sources in
  source_diversity_boost <-
    _calculate_source_diversity_boost unique_sources num_sources ;;
  let media_evidence_boost :=
    _calculate_media_evidence_boost verified_media_count total_media_count in
  let max_confidence := if (0 <? verified_media_count)%nat then 0.98 else 0.95 in
  Py.Ok (Rmin max_confidence
              (base_confidence * source_diversity_boost * media_evidence_boost)).

(** [hazard_votes[hazard_type] += vote_weight], or the first vote. *)
Fixpoint add_vote (hazard_votes : list (string * R)) (hazard_type : string)
         (vote_weight : R) : list (string * R) :=
  match hazard_votes with
  | [] => [(hazard_type, vote_weight)]
  | (k, v) :: rest =>
      if String.eqb k hazard_type then (k, v + vote_weight) :: rest
      else (k, v) :: add_vote rest hazard_type vote_weight
  end.

Definition vote_weight (report : Report.t) : R :=
  let source := Py.lower (Report.source report) in
  let source_weight := Py.get source_weights source 0.3 in
  source_weight * Report.nlp_conf report * Report.credibility report.

Definition hazard_votes (reports : list Report.t) : list (string * R) :=
  fold_left (fun votes report => add_vote votes (Report.nlp_type report) (vote_weight report))
            reports [].

Definition determine_consensus_hazard_type (reports : list Report.t) : string :=
  if Dedupe.is_nil reports then "unknown" else
  match Py.max_by_value Py.Rgtb (hazard_votes reports) with
  | Some (hazard_type, _) => hazard_type
  | None => "unknown"
  end.

(** [round(x)]: to the nearest integer, a half going to the even one. *)
Definition round (x : R) : Z :=
  let f := Zfloor x in
  let d := x - IZR f in
  if Rlt_dec d (1 / 2) then f
  else if Rlt_dec (1 / 2) d then (f + 1)%Z
  else if Z.even f then f else (f + 1)%Z.

Definition report_severity (report : Report.t) : Z :=
  let base_severity :=
    match Report.severity report with
    | Some sev => if String.eqb (Report.source report) "incois" then sev else 3%Z
    | None => 3%Z
    end in
  let nlp_boost := Report.severity_boost report in
  Z.min (base_severity + nlp_boost) 5.

Definition severity_weight (report : Report.t) : R :=
  let source := Py.lower (Report.source report) in
  let source_weight := Py.get source_weights source 0.3 in
  source_weight * Report.credibility report.

Definition calculate_weighted_severity (reports : list Report.t) : Py.result Z :=
  if Dedupe.is_nil reports then Py.Ok 1%Z else
  let weighted_severities := map report_severity reports in
  let weights := map severity_weight reports in
  weighted_avg <-
    Py.truediv
      (Dedupe.sum_R (map (fun sw => IZR (fst sw) * snd sw)
                         (combine weighted_severities weights)))
      (Dedupe.sum_R weights) ;;
  Py.Ok (Z.max 1 (Z.min 5 (round weighted_avg))).

Definition calculate_centroid (reports : list Report.t) : R * R :=
  if Dedupe.is_nil reports then (0.0, 0.0) else
  let weighted_lat :=
    Dedupe.sum_R (map (fun r => Report.lat r * severity_weight r) reports) in
  let weighted_lon :=
    Dedupe.sum_R (map (fun r => Report.lon r * severity_weight r) reports) in
  let total_weight := Dedupe.sum_R (map severity_weight reports) in
  if Rlt_dec 0 total_weight
  then (weighted_lat / total_weight, weighted_lon / total_weight)
  else
    let n := INR (List.length reports) in
    (Dedupe.sum_R (map Report.lat reports) / n,
     Dedupe.sum_R (map Report.lon reports) / n).

Definition determine_status (confidence : R) (hazard_type : string) (has_lora : bool)
  : string :=
  if has_lora || String.eqb hazard_type "emergency" then "emergency"
  else if Rle_dec threshold_emergency confidence
  then (if Py.mem_str hazard_type ["tsunami"; "earthquake"]
        then "emergency" else "confirmed")
  else if Rle_dec threshold_auto_alert confidence then "confirmed"
  else if Rle_dec threshold_review_required confidence then "pending"
  else "review".

Definition calculate_priority_score (hazard_type : string) (confidence : R)
           (severity : Z) : R :=
  let hazard_priority := Py.get hazard_priorities hazard_type 0.3 in
  let severity_factor := IZR severity / 5.0 in
  let priority := hazard_priority * confidence * severity_factor in
  Rmin 1.0 priority.

Section Evidence.

(** [float.__repr__] and [datetime.isoformat] are Python's. *)
Variable float_repr : R -> string.
Variable isoformat : DT.datetime -> string.

Definition iso_or_null (t : option DT.datetime) : Json.value :=
  match t with
  | Some t => Json.Str (isoformat t)
  | None => Json.Null
  end.

Definition evidence (reports : list Report.t) (group_stats : option Dedupe.GroupStats)
  : Json.value :=
  let all_keywords := flat_map Report.keywords_found reports in
  Json.Dict
    [ ("report_count", Json.Int (Z.of_nat (List.length reports)));
      ("source_distribution",
       Json.Dict (map (fun kv => (fst kv, Json.Int (snd kv)))
                      (match group_stats with
                       | Some st => Dedupe.source_distribution st
                       | None => []
                       end)));
      ("confidence_scores", Json.List (map (fun r => Json.Float (Report.nlp_conf r)) reports));
      ("credibility_scores",
       Json.List (map (fun r => Json.Float (Report.credibility r)) reports));
      ("report_ids", Json.List (map (fun r => Json.Int (Report.id r)) reports));
      ("time_range",
       Json.Dict
         [ ("earliest", iso_or_null (match group_stats with
                                     | Some st => Dedupe.earliest_time st
                                     | None => None
                                     end));
           ("latest", iso_or_null (match group_stats with
                                   | Some st => Dedupe.latest_time st
                                   | None => None
                                   end)) ]);
      ("unique_descriptions",
       Json.List (map Json.Str (match group_stats with
                                | Some st => Dedupe.unique_descriptions st
                                | None => []
                                end)));
      ("keywords_found", Json.List (map Json.Str (Py.set_of all_keywords))) ].

Definition create_evidence_json (reports : list Report.t)
           (group_stats : option Dedupe.GroupStats) : string :=
  Json.dumps float_repr (evidence reports group_stats).

Definition fuse_reports (reports : list Report.t) (group_stats : option Dedupe.GroupStats)
  : Py.result FusionResult :=
  if Dedupe.is_nil reports then Py.Raise Py.ValueError else
  let has_lora :=
    existsb (fun r => String.eqb (Py.lower (Report.source r)) "lora") reports in
  let hazard_type := determine_consensus_hazard_type reports in
  confidence <- calculate_weighted_confidence reports ;;
  severity <- calculate_weighted_severity reports ;;
  let '(centroid_lat, centroid_lon) := calculate_centroid reports in
  let status := determine_status confidence hazard_type has_lora in
  let priority_score := calculate_priority_score hazard_type confidence severity in
  let evidence_json := create_evidence_json reports group_stats in
  Py.Ok (mkFusionResult hazard_type confidence severity status
                        centroid_lat centroid_lon evidence_json priority_score).

End Evidence.

Definition should_create_alert (fusion_result : FusionResult) : bool :=
  (if Rle_dec threshold_auto_alert (confidence fusion_result) then true else false)
  || String.eqb (status fusion_result) "emergency".

End Fusion.

(** ** models.py: the rows of the store *)

Module Models.

Record RawReport : Type := mkRawReport {
  id : Z;
  source : string;
  text : string;
  lat : R;
  lon : R;
  ts : option DT.datetime;
  media_path : option string;
  has_media : bool;
  media_verified : bool;
  processed : bool;
  nlp_type : option string;
  nlp_conf : option R;
  credibility : option R;
  group_id : option Z
}.

Record HazardEvent : Type := mkHazardEvent {
  event_id : Z;
  hazard_type : string;
  confidence : option R;
  severity : Z;
  status : string;
  centroid_lat : R;
  centroid_lon : R;
  evidence_json : string;
  created_at : Z;
  updated_at : Z
}.

(** The two tables, in the order of their rows. *)
Record db : Type := mkdb {
  raw_reports : list RawReport;
  hazard_events : list HazardEvent
}.

End Models.

(** ** services/ingest.py *)

Module Ingest.

(** [x or 0.5] on a nullable float column. *)
Definition or_half (x : option R) : R :=
  match x with
  | Some v => if Req_dec_T v 0 then 0.5 else v
  | None => 0.5
  end.

(** [bool(media_path)] *)
Definition has_path (media_path : option string) : bool :=
  match media_path with
  | Some p => negb (Py.is_empty p)
  | None => false
  end.

(** The text that stands for a NULL [nlp_type]; the pipeline writes
    [nlp_type] before it marks a row processed. *)
Definition nlp_type_of (r : Models.RawReport) : string :=
  match Models.nlp_type r with
  | Some k => k
  | None => "None"
  end.

(** The dictionary that [_process_group_fusion] builds for one row. *)
Definition fusion_dict (r : Models.RawReport) : Report.t :=
  Report.mk (Models.id r) (Models.text r) (Models.lat r) (Models.lon r)
            (Models.ts r) (Models.source r) (nlp_type_of r)
            (or_half (Models.nlp_conf r)) (or_half (Models.credibility r))
            (Models.has_media r || has_path (Models.media_path r))
            (Models.media_verified r) [] 0%Z None None.

(** The dictionary that [_get_reports_for_dedup] builds for one row: the
    key ['group_id'] is always there, bound to [None] when the column is
    NULL. *)
Definition dedup_dict (r : Models.RawReport) : Report.t :=
  Report.mk (Models.id r) (Models.text r) (Models.lat r) (Models.lon r)
            (Models.ts r) (Models.source r) (nlp_type_of r)
            (or_half (Models.nlp_conf r)) (or_half (Models.credibility r))
            false false [] 0%Z None (Some (Models.group_id r)).

(** [RawReport.group_id == g], where [g] is an integer or [None]: the
    comparison with [None] is the SQL test [IS NULL], and a NULL column is
    equal to no integer. *)
Definition same_group (g : option Z) (r : Models.RawReport) : bool :=
  match g, Models.group_id r with
  | Some g, Some g' => Z.eqb g' g
  | None, None => true
  | _, _ => false
  end.

(** [group_id == g] and [processed == True] *)
Definition in_group (g : option Z) (r : Models.RawReport) : bool :=
  same_group g r && Models.processed r.

Definition _get_reports_for_dedup (d : Models.db) (exclude_id : Z) : list Report.t :=
  map dedup_dict
      (filter (fun r => Models.processed r && negb (Z.eqb (Models.id r) exclude_id))
              (Models.raw_reports d)).

(** [column.contains(x)] is the SQL test [column LIKE '%' || x || '%']: in
    SQLite the letters of the pattern match without regard to case and the
    underscore matches any one character. *)
Definition like_char (p c : ascii) : bool :=
  Ascii.eqb p "_" || Ascii.eqb (Py.lower_char p) (Py.lower_char c).

Fixpoint like_prefix (pattern s : string) : bool :=
  match pattern, s with
  | EmptyString, _ => true
  | String p pattern', String c s' => like_char p c && like_prefix pattern' s'
  | String _ _, EmptyString => false
  end.

Fixpoint like_contains (pattern s : string) : bool :=
  like_prefix pattern s ||
  match s with
  | EmptyString => false
  | String _ s' => like_contains pattern s'
  end.

(** [str(group_id)] of an integer or [None]. *)
Definition str_of_group (group_id : option Z) : string :=
  match group_id with
  | Some g => Json.str_of_Z g
  | None => "None"
  end.

(** The filter of the query for the event of a group. *)
Definition matches_group (group_id : option Z) (e : Models.HazardEvent) : bool :=
  like_contains (String Json.dquote "report_ids" ++ String Json.dquote ": [")
                (Models.evidence_json e)
  && like_contains (str_of_group group_id) (Models.evidence_json e).

(** [.first()]: the first row that passes the filter, in the order of the
    table. *)
Definition first_match (group_id : option Z) (events : list Models.HazardEvent)
  : option Models.HazardEvent :=
  find (matches_group group_id) events.

(** The greatest key of a table: the keys of SQLite are signed 64-bit
    integers. *)
Definition max_rowid : Z := 9223372036854775807%Z.

(** The key that the table gives a new row: 1 in an empty table, and one
    more than the greatest key in use as long as that key is below
    [max_rowid].  Once [max_rowid] itself is in use the engine picks a free
    key at random: that choice is outside this definition, and the
    statements that compare the key of a new row with the keys in use
    assume that these are below [max_rowid] ([Notions.keys_below_limit]). *)
Definition next_event_id (events : list Models.HazardEvent) : Z :=
  (Dedupe.max_default0 (map Models.event_id events) + 1)%Z.

Definition update_event (now : Z) (fusion_result : Fusion.FusionResult)
           (existing_event : Models.HazardEvent) : Models.HazardEvent :=
  Models.mkHazardEvent
    (Models.event_id existing_event)
    (Fusion.hazard_type fusion_result)
    (Some (Fusion.confidence fusion_result))
    (Fusion.severity fusion_result)
    (Fusion.status fusion_result)
    (Fusion.centroid_lat fusion_result)
    (Fusion.centroid_lon fusion_result)
    (Fusion.evidence_json fusion_result)
    (Models.created_at existing_event)
    now.

Definition new_event (now : Z) (fusion_result : Fusion.FusionResult) (event_id : Z)
  : Models.HazardEvent :=
  Models.mkHazardEvent
    event_id
    (Fusion.hazard_type fusion_result)
    (Some (Fusion.confidence fusion_result))
    (Fusion.severity fusion_result)
    (Fusion.status fusion_result)
    (Fusion.centroid_lat fusion_result)
    (Fusion.centroid_lon fusion_result)
    (Fusion.evidence_json fusion_result)
    now
    now.

Definition replace_event (e' : Models.HazardEvent) (events : list Models.HazardEvent)
  : list Models.HazardEvent :=
  map (fun e => if Z.eqb (Models.event_id e) (Models.event_id e') then e' else e) events.

(** What [_process_group_fusion] returns: the fusion result, with the key of
    the event and the action that the log line prints, or one of the two
    [MinimalFusion] objects. *)
Inductive fusion_outcome : Type :=
| Fused (fusion_result : Fusion.FusionResult) (event_id : Z) (action : string)
| MinimalFusion (confidence : R) (hazard_type : string).

Definition outcome_confidence (o : fusion_outcome) : R :=
  match o with
  | Fused fusion_result _ _ => Fusion.confidence fusion_result
  | MinimalFusion confidence _ => confidence
  end.

Section Pipeline.

Variable float_repr : R -> string.
Variable isoformat : DT.datetime -> string.
(** [str(x)] of a float, read by the credibility scorer. *)
Variable float_str : R -> string.

(** The body of the [try] of [_process_group_fusion] once the group is
    known to have rows. *)
Definition fuse_and_upsert (now : Z) (group_id : option Z) (d : Models.db)
           (group_reports : list Models.RawReport)
  : Py.result (Models.db * fusion_outcome) :=
  let reports_data := map fusion_dict group_reports in
  group_stats <- Dedupe.get_group_statistics reports_data ;;
  fusion_result <- Fusion.fuse_reports float_repr isoformat reports_data group_stats ;;
  match first_match group_id (Models.hazard_events d) with
  | Some existing_event =>
      let events :=
        replace_event (update_event now fusion_result existing_event)
                      (Models.hazard_events d) in
      Py.Ok (Models.mkdb (Models.raw_reports d) events,
             Fused fusion_result (Models.event_id existing_event) "updated")
  | None =>
      let event_id := next_event_id (Models.hazard_events d) in
      let events :=
        (Models.hazard_events d ++ [new_event now fusion_result event_id])%list in
      Py.Ok (Models.mkdb (Models.raw_reports d) events,
             Fused fusion_result event_id "created")
  end.

(** [group_id] is the group that the clusterer returned: an integer, or
    [None] when the report joined a row whose group is NULL. *)
Definition _process_group_fusion (now : Z) (group_id : option Z) (d : Models.db)
  : Models.db * fusion_outcome :=
  let group_reports := filter (in_group group_id) (Models.raw_reports d) in
  if Dedupe.is_nil group_reports
  then (d, MinimalFusion 0.0 "unknown")
  else
    match fuse_and_upsert now group_id d group_reports with
    | Py.Ok r => r
    | Py.Raise _ => (d, MinimalFusion 0.0 "error")
    end.

(** The value bound to [nlp_result]: the classifier returns an [NLPResult]
    object, the emergency override binds a dictionary. *)
Inductive nlp_value : Type :=
| NlpObject (r : NLP.NLPResult)
| NlpDict (items : list (string * Json.value)).

(** [nlp_result.hazard_type] and [nlp_result.confidence] *)
Definition attr_hazard_type (v : nlp_value) : Py.result string :=
  match v with
  | NlpObject r => Py.Ok (NLP.hazard_type r)
  | NlpDict _ => Py.Raise Py.AttributeError
  end.

Definition attr_confidence (v : nlp_value) : Py.result R :=
  match v with
  | NlpObject r => Py.Ok (NLP.confidence r)
  | NlpDict _ => Py.Raise Py.AttributeError
  end.

Definition emergency_override : nlp_value :=
  NlpDict [ ("hazard_type", Json.Str "emergency");
            ("confidence", Json.Float 0.99);
            ("keywords_found", Json.List [Json.Str "sos"; Json.Str "emergency"]) ].

(** Steps 1 and the override of [process_single_report]. *)
Definition classify (report : Models.RawReport) (is_emergency : bool) : nlp_value :=
  let has_media := Models.has_media report || has_path (Models.media_path report) in
  let media_verified := Models.media_verified report in
  let nlp_result :=
    NlpObject (NLP.classify_text (Models.text report) (Models.source report)
                                 has_media media_verified) in
  if is_emergency || String.eqb (Models.source report) "lora_sos"
  then emergency_override
  else nlp_result.

Definition set_classification (report : Models.RawReport) (nlp_type : string)
           (nlp_conf credibility : R) : Models.RawReport :=
  Models.mkRawReport
    (Models.id report) (Models.source report) (Models.text report)
    (Models.lat report) (Models.lon report) (Models.ts report)
    (Models.media_path report) (Models.has_media report)
    (Models.media_verified report) (Models.processed report)
    (Some nlp_type) (Some nlp_conf) (Some credibility) (Models.group_id report).

(** [report.group_id = dedupe_result.group_id] and
    [report.processed = True] *)
Definition set_group (report : Models.RawReport) (group_id : option Z)
  : Models.RawReport :=
  Models.mkRawReport
    (Models.id report) (Models.source report) (Models.text report)
    (Models.lat report) (Models.lon report) (Models.ts report)
    (Models.media_path report) (Models.has_media report)
    (Models.media_verified report) true
    (Models.nlp_type report) (Models.nlp_conf report) (Models.credibility report)
    group_id.

Definition replace_report (r' : Models.RawReport) (reports : list Models.RawReport)
  : list Models.RawReport :=
  map (fun r => if Z.eqb (Models.id r) (Models.id r') then r' else r) reports.

(** The dictionary handed to the clusterer for the report itself. *)
Definition report_dict (report : Models.RawReport) (nlp_conf credibility : R) : Report.t :=
  Report.mk (Models.id report) (Models.text report) (Models.lat report)
            (Models.lon report) (Models.ts report) (Models.source report)
            "" nlp_conf credibility false false [] 0%Z None None.

(** Steps 1 to 3, up to the first [db.commit()]: the store with the report
    classified, scored, grouped and marked processed, and its group. *)
Definition classify_and_group (now : Z) (d : Models.db) (report : Models.RawReport)
           (is_emergency : bool) : Py.result (Models.db * option Z) :=
  let nlp_result := classify report is_emergency in
  let timestamp :=
    match Models.ts report with
    | Some t => Some (if DT.is_naive t then DT.replace_utc t else t)
    | None => None
    end in
  credibility_result <-
    Credibility.calculate_credibility float_str now
      (Models.source report) (Models.text report) (Models.lat report)
      (Models.lon report) timestamp (Models.media_path report) None None ;;
  nlp_type <- attr_hazard_type nlp_result ;;
  nlp_conf <- attr_confidence nlp_result ;;
  let credibility := Credibility.score credibility_result in
  let report := set_classification report nlp_type nlp_conf credibility in
  let existing_reports := _get_reports_for_dedup d (Models.id report) in
  dedupe_result <-
    Dedupe.find_duplicates (report_dict report nlp_conf credibility) existing_reports ;;
  let report := set_group report (Dedupe.group_id dedupe_result) in
  Py.Ok (Models.mkdb (replace_report report (Models.raw_reports d))
                     (Models.hazard_events d),
         Dedupe.group_id dedupe_result).

Definition process_single_report (now : Z) (report_id : Z) (d : Models.db)
           (is_emergency : bool) : Models.db * bool :=
  match find (fun r => Z.eqb (Models.id r) report_id) (Models.raw_reports d) with
  | None => (d, false)
  | Some report =>
      if Models.processed report then (d, true)
      else
        match classify_and_group now d report is_emergency with
        | Py.Raise _ => (d, false)
        | Py.Ok (d', group_id) =>
            let '(d'', _) := _process_group_fusion now group_id d' in
            (d'', true)
        end
  end.

End Pipeline.

End Ingest.

(** ** app.py: the administrator hook *)

Module App.

Definition set_status (now : Z) (status : string) (confidence : option R)
           (e : Models.HazardEvent) : Models.HazardEvent :=
  Models.mkHazardEvent
    (Models.event_id e) (Models.hazard_type e)
    (match confidence with
     | Some c => Some c
     | None => Models.confidence e
     end)
    (Models.severity e) status
    (Models.centroid_lat e) (Models.centroid_lon e) (Models.evidence_json e)
    (Models.created_at e) now.

(** [validation_data] is read through its ['status'] key only. *)
Definition validate_hazard (now : Z) (hazard_id : Z) (validation_status : option string)
           (d : Models.db) : Py.result Models.db :=
  match find (fun e => Z.eqb (Models.event_id e) hazard_id) (Models.hazard_events d) with
  | None => Py.Raise (Py.HTTPException 500)
  | Some hazard =>
      let status := match validation_status with
                    | Some s => s
                    | None => "validated"
                    end in
      let current_confidence := Ingest.or_half (Models.confidence hazard) in
      let updated :=
        if String.eqb status "approved"
        then set_status now status (Some (Rmin (current_confidence + 0.2) 1.0)) hazard
        else if String.eqb status "rejected"
        then set_status now status (Some (Rmax (current_confidence - 0.3) 0.0)) hazard
        else set_status now status None hazard in
      Py.Ok (Models.mkdb (Models.raw_reports d)
                         (Ingest.replace_event updated (Models.hazard_events d)))
  end.

End App.

(** ** Notions used to state the properties *)

Module Spec.

(** The distinct elements of a list, in the order of their first
    occurrence. *)
Definition first_seen (l : list string) : list string :=
  fold_left (fun acc k => if Py.mem_str k acc then acc else (acc ++ [k])%list) l [].

(** The total weighted vote of one hazard kind. *)
Definition total_votes (reports : list Report.t) (kind : string) : R :=
  Dedupe.sum_R
    (map Fusion.vote_weight
         (filter (fun r => String.eqb (Report.nlp_type r) kind) reports)).

(** The boosted confidences of the reports of one source, and their mean. *)
Definition confidences_of (reports : list Report.t) (source : string) : list R :=
  map Fusion.media_boosted_confidence
      (filter (fun r => String.eqb (Py.lower (Report.source r)) source) reports).

Definition source_mean (reports : list Report.t) (source : string) : R :=
  Dedupe.sum_R (confidences_of reports source)
  / INR (List.length (confidences_of reports source)).

(** What one source adds to the numerator of the base confidence. *)
Definition contribution (source : string) (confs : list R) : R :=
  Dedupe.sum_R confs / INR (List.length confs)
  * Fusion._calculate_volume_factor (List.length confs) source
  * Py.get Fusion.source_weights source 0.3.

(** The rows of the samples: citizen reports with confidence and credibility
    0.5, sent at [t0]. *)
Definition sample_like (t0 : DT.datetime) (r : Models.RawReport) : Prop :=
  Models.source r = "citizen" /\
  Models.nlp_conf r = Some 0.5 /\
  Models.credibility r = Some 0.5 /\
  Models.ts r = Some t0.

(** Two timestamps can be subtracted as they are: none is missing and they
    are both naive or both aware; a missing timestamp is never subtracted. *)
Definition same_awareness (t1 t2 : option DT.datetime) : bool :=
  match t1, t2 with
  | Some a, Some b => Bool.eqb (DT.is_naive a) (DT.is_naive b)
  | _, _ => true
  end.

(** A timestamp that the scorer can bring to UTC: it is missing, naive or
    in UTC already, or its instant is a reading that a [datetime] can
    hold. *)
Definition utc_in_range (t : option DT.datetime) : bool :=
  match t with
  | Some t => DT.is_naive t || DT.is_utc t || DT.representable (DT.instant t)
  | None => true
  end.

(** The group of a report dictionary is an integer: the key ['group_id']
    is missing or bound to an integer, not to [None]. *)
Definition has_group (r : Report.t) : bool :=
  match Dedupe.group_of r with
  | Some _ => true
  | None => false
  end.

End Spec.

(** ** Sample data *)

Module Samples.

(** Stand-ins for Python's printing of floats and timestamps: the samples
    that are printed hold the float 0.5 and one timestamp only. *)
Definition float_repr (x : R) : string := "0.5".
Definition isoformat (t : DT.datetime) : string := "2025-01-01T10:00:00".
Definition float_str (x : R) : string := "13.05".

Definition report (id : Z) (source nlp_type : string) (nlp_conf credibility : R)
           (has_media media_verified : bool) : Report.t :=
  Report.mk id "" 0 0 None source nlp_type nlp_conf credibility
            has_media media_verified [] 0%Z None None.

Definition flood_report : Report.t := report 1 "citizen" "flood" 0.5 0.5 false false.
Definition tsunami_report : Report.t := report 2 "citizen" "tsunami" 0.5 0.5 false false.

(** Two reports of the official source whose boosted confidence is 0.6: the
    first has a verified image, the second an unverified one. *)
Definition verified_report : Report.t := report 4 "incois" "flood" 0.4 0.5 true true.
Definition unverified_report : Report.t := report 5 "incois" "flood" 0.9 0.5 true false.


(** The same report twice, at the same place and instant: the first copy
    has a naive timestamp, the second an aware one. *)
Definition naive_report : Report.t :=
  Report.mk 8 "flood warning" 0 0 (Some (DT.mkdatetime 0 None)) "citizen" "flood"
            0.5 0.5 false false [] 0%Z None None.

Definition aware_report : Report.t :=
  Report.mk 9 "flood warning" 0 0 (Some (DT.mkdatetime 0 (Some 0%Z))) "citizen" "flood"
            0.5 0.5 false false [] 0%Z None (Some (Some 1%Z)).

(** Rows of the store: processed citizen reports of a flood, with
    confidence and credibility 0.5, sent at 2025-01-01 10:00:00. *)
Definition t0 : DT.datetime := DT.mkdatetime 1735725600000000 None.

Definition row (id : Z) (text : string) (group_id : Z) : Models.RawReport :=
  Models.mkRawReport id "citizen" text 13.05 80.27 (Some t0) None false false
                     true (Some "flood") (Some 0.5) (Some 0.5) (Some group_id).

(** A beacon report that waits for the pipeline. *)
Definition sos_row : Models.RawReport :=
  Models.mkRawReport 7 "lora_sos" "EMERGENCY SOS from LoRa device 12" 11.7 79.7
                     (Some t0) (Some "lora_device_12") false false
                     false None None None None.

Definition sos_db : Models.db := Models.mkdb [sos_row] [].

(** Group 1 holds report 1; no event yet. *)
Definition first_db : Models.db := Models.mkdb [row 1 "flood" 1] [].

(** Group 3 holds report 4, then reports 4 and 5; no event yet. *)
Definition one_report_db : Models.db := Models.mkdb [row 4 "flood" 3] [].

Definition add_report (r : Models.RawReport) (d : Models.db) : Models.db :=
  Models.mkdb (Models.raw_reports d ++ [r]) (Models.hazard_events d).

(** Group 1 holds report 1, whose text has the digit 2, and group 2 holds
    report 2. *)
Definition two_groups_db : Models.db :=
  Models.mkdb [row 1 "water rose 2 meters" 1; row 2 "flood" 2] [].

End Samples.

(** ** services/dedupe.py: grouping a list of reports *)

Module Grouping.

(** [report['group_id'] = group_id] *)
Definition set_group_id (report : Report.t) (group_id : option Z) : Report.t :=
  Report.mk (Report.id report) (Report.text report) (Report.lat report)
            (Report.lon report) (Report.timestamp report) (Report.source report)
            (Report.nlp_type report) (Report.nlp_conf report)
            (Report.credibility report) (Report.has_media report)
            (Report.media_verified report) (Report.keywords_found report)
            (Report.severity_boost report) (Report.severity report)
            (Some group_id).

(** [report.get('group_id')] read as a condition: the key is there and its
    value is neither [None] nor zero. *)
Definition known_group (report : Report.t) : option Z :=
  match Report.group_id report with
  | Some (Some g) => if Z.eqb g 0 then None else Some g
  | _ => None
  end.

(** Two keys of [groups], integers or [None], are the same key. *)
Definition same_key (k1 k2 : option Z) : bool :=
  match k1, k2 with
  | Some a, Some b => Z.eqb a b
  | None, None => true
  | _, _ => false
  end.

(** [groups[group_id].append(report)], after the list was created when the
    key is new. *)
Fixpoint add_to_group (groups : list (option Z * list Report.t)) (group_id : option Z)
         (report : Report.t) : list (option Z * list Report.t) :=
  match groups with
  | [] => [(group_id, [report])]
  | (k, l) :: rest =>
      if same_key k group_id then (k, (l ++ [report])%list) :: rest
      else (k, l) :: add_to_group rest group_id report
  end.

(** The group of one report and the report as the loop leaves it. *)
Definition assign (report : Report.t) (processed_reports : list Report.t)
  : Py.result (option Z * Report.t) :=
  match known_group report with
  | Some group_id => Py.Ok (Some group_id, report)
  | None =>
      dedupe_result <- Dedupe.find_duplicates report processed_reports ;;
      let group_id := Dedupe.group_id dedupe_result in
      Py.Ok (group_id, set_group_id report group_id)
  end.

(** The loop of [group_reports]; the state is [(groups, processed_reports)]. *)
Fixpoint group_loop (reports : list Report.t)
         (groups : list (option Z * list Report.t))
         (processed_reports : list Report.t)
  : Py.result (list (option Z * list Report.t)) :=
  match reports with
  | [] => Py.Ok groups
  | report :: rest =>
      assigned <- assign report processed_reports ;;
      let '(group_id, report) := assigned in
      group_loop rest (add_to_group groups group_id report)
                 (processed_reports ++ [report])%list
  end.

Definition group_reports (reports : list Report.t)
  : Py.result (list (option Z * list Report.t)) :=
  if Dedupe.is_nil reports then Py.Ok [] else group_loop reports [] [].

End Grouping.

(** ** services/ingest.py: the batch run, the beacon fast path and the
    counters *)

Module Batch.

Record stats : Type := mkstats {
  processed : Z;
  failed : Z;
  total : Z
}.

Section Run.

Variable float_repr : R -> string.
Variable isoformat : DT.datetime -> string.
Variable float_str : R -> string.
(** The reading of the clock while the report with a given key is
    processed. *)
Variable clock : Z -> Z.

(** One turn of the loop of [process_all_unprocessed_reports]. *)
Definition batch_step (st : Models.db * stats) (report_id : Z) : Models.db * stats :=
  let '(d, s) := st in
  let '(d', success) :=
    Ingest.process_single_report float_repr isoformat float_str
                                 (clock report_id) report_id d false in
  (d', if success
       then mkstats (processed s + 1) (failed s) (total s)
       else mkstats (processed s) (failed s + 1) (total s)).

Definition process_all_unprocessed_reports (d : Models.db) : Models.db * stats :=
  let unprocessed_reports :=
    filter (fun r => negb (Models.processed r)) (Models.raw_reports d) in
  fold_left batch_step (map Models.id unprocessed_reports)
            (d, mkstats 0 0 (Z.of_nat (List.length unprocessed_reports))).

End Run.

Definition in_quotes (s : string) : string :=
  String Json.dquote (s ++ String Json.dquote "").

(** The f-string of the beacon event: the two texts are pasted as they
    are. *)
Definition sos_evidence (device_id message : string) : string :=
  "{" ++ in_quotes "lora_device" ++ ": " ++ in_quotes device_id ++ ", "
      ++ in_quotes "message" ++ ": " ++ in_quotes message ++ ", "
      ++ in_quotes "emergency" ++ ": true}".

Definition emergency_event (now : Z) (event_id : Z) (device_id : string) (lat lon : R)
           (message : string) (timestamp : option Z) : Models.HazardEvent :=
  Models.mkHazardEvent event_id "emergency" (Some 0.99) 5 "emergency" lat lon
                       (sos_evidence device_id message)
                       (match timestamp with
                        | Some t => t
                        | None => now
                        end)
                       now.

(** [timestamp] is the reading of the timestamp of the signal when it has
    one; the store accepts the row. *)
Definition process_new_lora_sos (now : Z) (device_id : string) (lat lon : R)
           (message : string) (timestamp : option Z) (d : Models.db)
  : Models.db * Z :=
  let event_id := Ingest.next_event_id (Models.hazard_events d) in
  (Models.mkdb (Models.raw_reports d)
               (Models.hazard_events d
                ++ [emergency_event now event_id device_id lat lon message timestamp]),
   event_id).

Record processing_stats : Type := mkprocessing_stats {
  total_reports : Z;
  processed_reports : Z;
  unprocessed_reports : Z;
  total_events : Z;
  emergency_events : Z
}.

Definition get_processing_stats (d : Models.db) : processing_stats :=
  let total_reports := Z.of_nat (List.length (Models.raw_reports d)) in
  let processed_reports :=
    Z.of_nat (List.length (filter Models.processed (Models.raw_reports d))) in
  let total_events := Z.of_nat (List.length (Models.hazard_events d)) in
  let emergency_events :=
    Z.of_nat (List.length (filter (fun e => String.eqb (Models.status e) "emergency")
                                  (Models.hazard_events d))) in
  mkprocessing_stats total_reports processed_reports
                     (total_reports - processed_reports)
                     total_events emergency_events.

End Batch.

(** ** Further notions and samples *)

Module Notions.

(** The characters of a string. *)
Definition chars (s : string) : list ascii := list_ascii_of_string s.

(** The four statuses that fusion gives, from the lowest to the highest. *)
Definition status_rank (status : string) : nat :=
  if String.eqb status "emergency" then 3
  else if String.eqb status "confirmed" then 2
  else if String.eqb status "pending" then 1
  else 0.

(** The new report and an existing one reach the threshold of the
    clusterer. *)
Definition reaches_threshold (new_report existing_report : Report.t) : bool :=
  match Dedupe.combined_similarity new_report existing_report with
  | Py.Ok similarity =>
      if Rle_dec Dedupe.combined_threshold similarity then true else false
  | Py.Raise _ => false
  end.

(** The keys of the store are distinct. *)
Definition distinct_ids (d : Models.db) : Prop :=
  NoDup (map Models.id (Models.raw_reports d)).

(** The keys of the events are below the greatest key of the table. *)
Definition keys_below_limit (d : Models.db) : Prop :=
  forall e, In e (Models.hazard_events d) -> (Models.event_id e < Ingest.max_rowid)%Z.

(** A stored number that is missing or not negative. *)
Definition not_negative (x : option R) : Prop :=
  match x with
  | Some v => 0 <= v
  | None => True
  end.

(** A stored confidence that is missing or in the unit interval. *)
Definition in_unit_interval (x : option R) : Prop :=
  match x with
  | Some v => 0 <= v <= 1
  | None => True
  end.

End Notions.

Module MoreSamples.

(** A report on the equator at the antimeridian, half of the way around the
    earth from [Samples.flood_report]. *)
Definition far_report : Report.t :=
  Report.mk 10 "" 0 180 None "citizen" "flood" 0.5 0.5 false false [] 0%Z None None.

End MoreSamples.

Module MoreNotions.

(** The timestamps that the store returns carry no time zone. *)
Definition naive_timestamp (t : option DT.datetime) : Prop :=
  match t with
  | Some t => DT.is_naive t = true
  | None => True
  end.

End MoreNotions.

Module Frame.

(** Two rows hold the same submission: they agree on the key and on every
    column that comes from the reporter. *)
Definition same_submission (r r' : Models.RawReport) : Prop :=
  Models.id r' = Models.id r /\
  Models.source r' = Models.source r /\
  Models.text r' = Models.text r /\
  Models.lat r' = Models.lat r /\
  Models.lon r' = Models.lon r /\
  Models.ts r' = Models.ts r /\
  Models.media_path r' = Models.media_path r /\
  Models.has_media r' = Models.has_media r /\
  Models.media_verified r' = Models.media_verified r.

(** What processing the report [report_id] may do to a row: it keeps the
    submission, it leaves the rows with another key and the rows that are
    processed as they are, and on success it marks the row with that key as
    processed. *)
Definition touched (report_id : Z) (success : bool) (r r' : Models.RawReport) : Prop :=
  same_submission r r' /\
  (Models.id r <> report_id -> r' = r) /\
  (Models.processed r = true -> r' = r) /\
  (success = true -> Models.id r = report_id -> Models.processed r' = true).

(** The number of rows that wait for the pipeline. *)
Definition unprocessed_count (d : Models.db) : nat :=
  List.length (filter (fun r => negb (Models.processed r)) (Models.raw_reports d)).

End Frame.

Module PipelineSamples.

(** A report of a citizen that waits for the pipeline, alone in the store. *)
Definition pending_row : Models.RawReport :=
  Models.mkRawReport 11 "citizen" "flood near the river" 13.05 80.27
                     (Some Samples.t0) None false false
                     false None None None None.

Definition pending_db : Models.db := Models.mkdb [pending_row] [].

(** The same store with the beacon report of [Samples.sos_row] after it. *)
Definition mixed_db : Models.db := Models.mkdb [pending_row; Samples.sos_row] [].

End PipelineSamples.

Module EventSamples.

(** An event with confidence 0.5 that waits for the administrator. *)
Definition pending_event : Models.HazardEvent :=
  Models.mkHazardEvent 1 "flood" (Some 0.5) 3 "pending" 13.05 80.27 "{}" 0 0.

Definition pending_event_db : Models.db := Models.mkdb [] [pending_event].

End EventSamples.

Module Validation.

(** What the administrator hook may do to an event when it is asked about
    the event [hazard_id] with the status [status]. *)
Definition validated (hazard_id : Z) (status : string) (e e' : Models.HazardEvent)
  : Prop :=
  Models.event_id e' = Models.event_id e /\
  Models.hazard_type e' = Models.hazard_type e /\
  Models.severity e' = Models.severity e /\
  Models.centroid_lat e' = Models.centroid_lat e /\
  Models.centroid_lon e' = Models.centroid_lon e /\
  Models.evidence_json e' = Models.evidence_json e /\
  (Models.event_id e <> hazard_id -> e' = e) /\
  (Models.event_id e = hazard_id -> Models.status e' = status) /\
  (Notions.in_unit_interval (Models.confidence e) ->
   Notions.in_unit_interval (Models.confidence e')).

(** [validation_data.get('status', 'validated')] *)
Definition requested_status (validation_status : option string) : string :=
  match validation_status with
  | Some s => s
  | None => "validated"
  end.

End Validation.
(** * Properties *)

(** ** Generic facts about the Python helpers *)

Lemma max_from_in {V : Type} (gt : V -> V -> bool) (d : list (string * V)) :
  forall best, In (Py.max_from gt best d) (best :: d).
Proof.
  induction d as [|kv d IH]; intros best; simpl.
  - left; reflexivity.
  - destruct (IH (if gt (snd best) (snd kv) then kv else best)) as [H|H].
    + destruct (gt (snd best) (snd kv)); rewrite <- H; auto.
    + right; right; exact H.
Qed.

Lemma max_by_value_in {V : Type} (gt : V -> V -> bool) (d : list (string * V)) kv :
  Py.max_by_value gt d = Some kv -> In kv d.
Proof.
  destruct d as [|a d]; simpl; intros H; [discriminate|].
  injection H as <-. apply max_from_in.
Qed.

Lemma Rmin_cases (x y : R) : (x <= y /\ Rmin x y = x) \/ (y < x /\ Rmin x y = y).
Proof. unfold Rmin; destruct (Rle_dec x y); [left|right]; split; auto; lra. Qed.

Lemma Rmax_cases (x y : R) : (x <= y /\ Rmax x y = y) \/ (y < x /\ Rmax x y = x).
Proof. unfold Rmax; destruct (Rle_dec x y); [left|right]; split; auto; lra. Qed.

Ltac minmax :=
  repeat match goal with
         | |- context [Rmin ?x ?y] =>
             let H := fresh in let E := fresh in
             destruct (Rmin_cases x y) as [[H E]|[H E]]; rewrite E in *
         | |- context [Rmax ?x ?y] =>
             let H := fresh in let E := fresh in
             destruct (Rmax_cases x y) as [[H E]|[H E]]; rewrite E in *
         end.

(** ** The classifier *)

Lemma hazard_scores_of_positive (t : string) (table : list (string * list string)) :
  forall k sc fd, In (k, (sc, fd)) (NLP.hazard_scores_of t table) -> (0 < sc)%nat.
Proof.
  induction table as [|[h kws] table IH]; simpl; intros k sc fd H; [contradiction|].
  destruct (0 <? fst (NLP.score_keywords t kws 0 []))%nat eqn:E.
  - destruct H as [H|H]; [|eauto].
    injection H as _ H. rewrite H in E. simpl in E.
    apply Nat.ltb_lt in E. exact E.
  - eauto.
Qed.

Lemma hazard_scores_of_nil (t : string) (table : list (string * list string)) :
  (forall hazard keywords, In (hazard, keywords) table ->
     fst (NLP.score_keywords t keywords 0 []) = 0%nat) ->
  NLP.hazard_scores_of t table = [].
Proof.
  induction table as [|[h kws] table IH]; simpl; intros H; [reflexivity|].
  rewrite (H h kws) by (left; reflexivity). simpl.
  apply IH. intros hazard keywords Hin. apply (H hazard keywords). right; assumption.
Qed.

Lemma hazard_scores_unfold (text : string) :
  NLP.hazard_scores text
  = NLP.hazard_scores_of (NLP.preprocess_text text) NLP.hazard_keywords.
Proof. reflexivity. Qed.

Lemma extract_hazard_type_unfold (text : string) :
  NLP.extract_hazard_type text =
  match Py.max_by_value NLP.score_gt (NLP.hazard_scores text) with
  | None => ("unknown", 0.3, [])
  | Some (best_hazard, (max_score, found)) =>
      (best_hazard, Rmin (0.4 + INR max_score * 0.05) 0.7, found)
  end.
Proof. reflexivity. Qed.

Lemma hazard_scores_positive (text : string) :
  forall k sc fd, In (k, (sc, fd)) (NLP.hazard_scores text) -> (0 < sc)%nat.
Proof.
  intros k sc fd H. rewrite hazard_scores_unfold in H.
  eapply hazard_scores_of_positive; eassumption.
Qed.

Lemma hazard_scores_nil (text : string) :
  (forall hazard keywords, In (hazard, keywords) NLP.hazard_keywords ->
     fst (NLP.score_keywords (NLP.preprocess_text text) keywords 0 []) = 0%nat) ->
  NLP.hazard_scores text = [].
Proof.
  intros H. rewrite hazard_scores_unfold. apply hazard_scores_of_nil. exact H.
Qed.

Lemma extract_hazard_type_unknown (text : string) :
  NLP.hazard_scores text = [] -> NLP.extract_hazard_type text = ("unknown", 0.3, []).
Proof. intros H. rewrite extract_hazard_type_unfold, H. reflexivity. Qed.

Lemma extract_severity_boost_le (text : string) :
  (NLP.extract_severity_boost text <= 2)%nat.
Proof. unfold NLP.extract_severity_boost. apply Nat.le_min_r. Qed.

Lemma classify_text_not_blank (text source : string) (has_media media_verified : bool) :
  Py.is_blank text = false ->
  NLP.classify_text text source has_media media_verified =
  NLP.mkNLPResult
    (fst (fst (NLP.extract_hazard_type text)))
    (NLP._apply_media_verification_boost
       (NLP._apply_progressive_confidence (snd (fst (NLP.extract_hazard_type text))) source)
       has_media media_verified)
    (NLP.extract_severity_boost text)
    (snd (NLP.extract_hazard_type text)).
Proof.
  intros H. unfold NLP.classify_text. rewrite H.
  destruct (NLP.extract_hazard_type text) as [[k b] kws]. reflexivity.
Qed.

Lemma best_score_range (scores : list (string * (nat * list string)))
      (kind : string) (base : R) (kws : list string) :
  scores <> [] ->
  (forall k sc fd, In (k, (sc, fd)) scores -> (0 < sc)%nat) ->
  match Py.max_by_value NLP.score_gt scores with
  | None => ("unknown", 0.3, [])
  | Some (best_hazard, (max_score, found)) =>
      (best_hazard, Rmin (0.4 + INR max_score * 0.05) 0.7, found)
  end = (kind, base, kws) ->
  0.45 <= base <= 0.7.
Proof.
  intros Hne Hpos.
  destruct (Py.max_by_value NLP.score_gt scores) as [[k [sc fd]]|] eqn:E.
  - intros H. injection H as _ <- _.
    apply max_by_value_in in E. apply Hpos in E.
    assert (1 <= INR sc) by (change 1 with (INR 1); apply le_INR; lia).
    minmax; lra.
  - destruct scores; [congruence|discriminate].
Qed.

Lemma base_confidence_range (text kind : string) (base : R) (kws : list string) :
  NLP.hazard_scores text <> [] ->
  NLP.extract_hazard_type text = (kind, base, kws) ->
  0.45 <= base <= 0.7.
Proof.
  intros Hne H. rewrite extract_hazard_type_unfold in H.
  eapply best_score_range; [exact Hne| |exact H].
  apply hazard_scores_positive.
Qed.

Ltac eval_tables :=
  cbv [Py.mem_str existsb String.eqb Ascii.eqb Bool.eqb orb andb negb Py.get
       NLP.source_scaling Fusion.source_weights Credibility.source_weights
       Credibility.feature_weights Fusion.hazard_priorities].

Lemma progressive_lora_sos (base : R) :
  NLP._apply_progressive_confidence base "lora_sos" = base * 0.95.
Proof.
  unfold NLP._apply_progressive_confidence.
  change (Py.lower "lora_sos") with "lora_sos". eval_tables. reflexivity.
Qed.

Lemma progressive_lora (base : R) :
  NLP._apply_progressive_confidence base "lora" = base * 0.25.
Proof.
  unfold NLP._apply_progressive_confidence.
  change (Py.lower "lora") with "lora". eval_tables. reflexivity.
Qed.

(** ** Claims about the classifier *)

(** C8, as amended.  For every text that is not blank and whose keyword
    score is 0 for every hazard kind, [extract_hazard_type] gives kind
    "unknown", base confidence 0.3 and no keyword, and the classifier
    returns that kind and keyword list with the base confidence scaled and
    boosted as usual; the severity boost is computed from the severity
    keywords alone, it is at most 2 and need not be 0. *)
Theorem C8_no_keyword_is_unknown
        (text source : string) (has_media media_verified : bool) :
  Py.is_blank text = false ->
  (forall hazard keywords, In (hazard, keywords) NLP.hazard_keywords ->
     fst (NLP.score_keywords (NLP.preprocess_text text) keywords 0 []) = 0%nat) ->
  NLP.extract_hazard_type text = ("unknown", 0.3, []) /\
  NLP.classify_text text source has_media media_verified =
    NLP.mkNLPResult
      "unknown"
      (NLP._apply_media_verification_boost
         (NLP._apply_progressive_confidence 0.3 source) has_media media_verified)
      (NLP.extract_severity_boost text)
      [] /\
  (NLP.extract_severity_boost text <= 2)%nat.
Proof.
  intros Hblank Hzero.
  pose proof (extract_hazard_type_unknown text (hazard_scores_nil text Hzero)) as E.
  split; [exact E|]. split; [|apply extract_severity_boost_le].
  rewrite (classify_text_not_blank text source has_media media_verified Hblank).
  rewrite E. reflexivity.
Qed.

Lemma no_hazard_keyword_sample :
  forall hazard keywords, In (hazard, keywords) NLP.hazard_keywords ->
    fst (NLP.score_keywords (NLP.preprocess_text "hello there") keywords 0 []) = 0%nat.
Proof.
  intros hazard keywords H.
  repeat (destruct H as [H|H]; [injection H as _ <-; vm_compute; reflexivity|]).
  destruct H.
Qed.

Lemma C8_no_keyword_is_unknown_witness :
  Py.is_blank "hello there" = false /\
  NLP.extract_hazard_type "hello there" = ("unknown", 0.3, []) /\
  NLP.classify_text "hello there" "citizen" false false =
    NLP.mkNLPResult
      "unknown"
      (NLP._apply_media_verification_boost
         (NLP._apply_progressive_confidence 0.3 "citizen") false false)
      (NLP.extract_severity_boost "hello there")
      [] /\
  (NLP.extract_severity_boost "hello there" <= 2)%nat.
Proof.
  split; [reflexivity|].
  apply (C8_no_keyword_is_unknown "hello there" "citizen" false false).
  - reflexivity.
  - exact no_hazard_keyword_sample.
Defined.

Lemma no_hazard_keyword_urgent :
  forall hazard keywords, In (hazard, keywords) NLP.hazard_keywords ->
    fst (NLP.score_keywords (NLP.preprocess_text "urgent help needed") keywords 0 [])
    = 0%nat.
Proof.
  intros hazard keywords H.
  repeat (destruct H as [H|H]; [injection H as _ <-; vm_compute; reflexivity|]).
  destruct H.
Qed.

(** C8, the claim as stated fails: "urgent help needed" is not empty and no
    hazard keyword matches it, yet the classifier returns severity boost 2. *)
Lemma C8_counterexample :
  Py.is_blank "urgent help needed" = false /\
  (forall hazard keywords, In (hazard, keywords) NLP.hazard_keywords ->
     fst (NLP.score_keywords (NLP.preprocess_text "urgent help needed") keywords 0 [])
     = 0%nat) /\
  NLP.hazard_type (NLP.classify_text "urgent help needed" "citizen" false false)
  = "unknown" /\
  NLP.severity_boost (NLP.classify_text "urgent help needed" "citizen" false false)
  = 2%nat.
Proof.
  split; [reflexivity|]. split; [exact no_hazard_keyword_urgent|].
  rewrite (classify_text_not_blank "urgent help needed" "citizen" false false eq_refl).
  rewrite (extract_hazard_type_unknown _ (hazard_scores_nil _ no_hazard_keyword_urgent)).
  split; [reflexivity|].
  cbn [NLP.severity_boost]. vm_compute. reflexivity.
Qed.

(** C5, as amended.  For every text that is not blank and has a nonzero
    keyword score, with source "lora_sos" (the source string of the beacon
    channel) the confidence after source scaling is the base confidence
    times 0.95; no clamp is applied, and the value lies in [0.29, 0.95], so
    it equals its clamp into that band. *)
Theorem C5_lora_sos_scaling
        (text kind : string) (base : R) (kws : list string) :
  Py.is_blank text = false ->
  NLP.hazard_scores text <> [] ->
  NLP.extract_hazard_type text = (kind, base, kws) ->
  NLP._apply_progressive_confidence base "lora_sos" = base * 0.95 /\
  NLP._apply_progressive_confidence base "lora_sos"
  = Rmax 0.29 (Rmin 0.95 (base * 0.95)) /\
  NLP.confidence (NLP.classify_text text "lora_sos" false false)
  = Rmax 0.29 (Rmin 0.95 (base * 0.95)).
Proof.
  intros Hblank Hne E.
  pose proof (base_confidence_range text kind base kws Hne E) as Hb.
  assert (Hc : base * 0.95 = Rmax 0.29 (Rmin 0.95 (base * 0.95))) by (minmax; lra).
  split; [apply progressive_lora_sos|]. split.
  - rewrite progressive_lora_sos. exact Hc.
  - rewrite (classify_text_not_blank text "lora_sos" false false Hblank), E.
    cbn [NLP.confidence fst snd]. unfold NLP._apply_media_verification_boost.
    cbn [negb]. rewrite progressive_lora_sos. exact Hc.
Qed.

Lemma hazard_scores_flood :
  NLP.hazard_scores "flood" = [("flood", (2%nat, ["flood"]))].
Proof. vm_compute. reflexivity. Qed.

Lemma extract_hazard_type_flood :
  NLP.extract_hazard_type "flood" = ("flood", 0.5, ["flood"]).
Proof.
  rewrite extract_hazard_type_unfold, hazard_scores_flood.
  cbv [Py.max_by_value Py.max_from]. f_equal. f_equal.
  cbn [INR]. minmax; lra.
Qed.

Lemma C5_lora_sos_scaling_witness :
  Py.is_blank "flood" = false /\
  NLP.hazard_scores "flood" <> [] /\
  NLP.extract_hazard_type "flood" = ("flood", 0.5, ["flood"]) /\
  NLP._apply_progressive_confidence 0.5 "lora_sos" = 0.5 * 0.95 /\
  NLP._apply_progressive_confidence 0.5 "lora_sos"
  = Rmax 0.29 (Rmin 0.95 (0.5 * 0.95)) /\
  NLP.confidence (NLP.classify_text "flood" "lora_sos" false false)
  = Rmax 0.29 (Rmin 0.95 (0.5 * 0.95)).
Proof.
  assert (Hne : NLP.hazard_scores "flood" <> [])
    by (rewrite hazard_scores_flood; discriminate).
  split; [reflexivity|]. split; [exact Hne|].
  split; [exact extract_hazard_type_flood|].
  exact (C5_lora_sos_scaling "flood" "flood" 0.5 ["flood"] eq_refl Hne
                             extract_hazard_type_flood).
Defined.

(** C5, the claim as stated fails: with source "lora" the text "flood" has
    base confidence 0.5 and is scaled by the default factor 0.25 to 0.125,
    not to 0.475, and nothing clamps it into [0.29, 0.95]. *)
Lemma C5_counterexample :
  Py.is_blank "flood" = false /\
  NLP.hazard_scores "flood" <> [] /\
  NLP.extract_hazard_type "flood" = ("flood", 0.5, ["flood"]) /\
  NLP._apply_progressive_confidence 0.5 "lora" = 0.125 /\
  Rmax 0.29 (Rmin 0.95 (0.5 * 0.95)) = 0.475 /\
  NLP._apply_progressive_confidence 0.5 "lora" <> Rmax 0.29 (Rmin 0.95 (0.5 * 0.95)).
Proof.
  split; [reflexivity|].
  split; [rewrite hazard_scores_flood; discriminate|].
  split; [exact extract_hazard_type_flood|].
  rewrite progressive_lora.
  split; [lra|]. split; minmax; lra.
Qed.

(** The confidence of the classifier, whatever the source and the media. *)

Lemma extract_base_range (text : string) :
  0.3 <= snd (fst (NLP.extract_hazard_type text)) <= 0.7.
Proof.
  destruct (NLP.hazard_scores text) as [|a l] eqn:E.
  - rewrite (extract_hazard_type_unknown text E). cbn [fst snd]. lra.
  - destruct (NLP.extract_hazard_type text) as [[k b] kws] eqn:Ex.
    cbn [fst snd].
    assert (0.45 <= b <= 0.7); [|lra].
    apply (base_confidence_range text k b kws); [rewrite E; discriminate|exact Ex].
Qed.

Lemma progressive_confidence_range (base : R) (source : string) :
  0.3 <= base <= 0.7 ->
  0.075 <= NLP._apply_progressive_confidence base source <= 0.665 /\
  (Py.mem_str (Py.lower source) ["citizen"; "social_media"] = true ->
   0.08 <= NLP._apply_progressive_confidence base source <= 0.175).
Proof.
  intros Hb. unfold NLP._apply_progressive_confidence.
  generalize (Py.lower source) as s. intros s.
  cbv [Py.mem_str existsb Py.get NLP.source_scaling orb].
  rewrite (String.eqb_sym "citizen" s), (String.eqb_sym "social_media" s),
    (String.eqb_sym "incois" s), (String.eqb_sym "lora_sos" s).
  destruct (String.eqb s "citizen") eqn:E1.
  { split; [|intros _]; minmax; lra. }
  destruct (String.eqb s "social_media") eqn:E2.
  { split; [|intros _]; minmax; lra. }
  destruct (String.eqb s "incois") eqn:E3.
  { split; [|discriminate]; minmax; lra. }
  destruct (String.eqb s "lora_sos") eqn:E4.
  { split; [|discriminate]; lra. }
  split; [|discriminate]; lra.
Qed.

Lemma classify_text_confidence_bounds
      (text source : string) (has_media media_verified : bool) :
  0.075 <= NLP.confidence (NLP.classify_text text source has_media media_verified)
        <= 0.95.
Proof.
  destruct (Py.is_blank text) eqn:B.
  - unfold NLP.classify_text. rewrite B. cbn [NLP.confidence]. lra.
  - rewrite (classify_text_not_blank text source has_media media_verified B).
    cbn [NLP.confidence].
    destruct (progressive_confidence_range _ source (extract_base_range text))
      as [Hr _].
    unfold NLP._apply_media_verification_boost.
    destruct has_media, media_verified; cbn [negb]; minmax; lra.
Qed.

(** ** The credibility scorer *)

Lemma get_invariant {V : Type} (P : V -> Prop) (d : list (string * V))
      (key : string) (default : V) :
  Forall (fun kv => P (snd kv)) d -> P default -> P (Py.get d key default).
Proof.
  induction d as [|[k v] d IH]; simpl; intros Hd Hdef; [exact Hdef|].
  inversion Hd; subst. destruct (String.eqb k key); auto.
Qed.

Lemma score_source_reliability_range (source : string) :
  0 <= Credibility.score_source_reliability source <= 1.
Proof.
  unfold Credibility.score_source_reliability.
  apply get_invariant; [|lra].
  unfold Credibility.source_weights.
  repeat (constructor; [simpl; lra|]). constructor.
Qed.

Lemma score_media_presence_range (media_path : option string) :
  0 <= Credibility.score_media_presence media_path <= 1.
Proof.
  unfold Credibility.score_media_presence.
  destruct media_path as [p|]; [destruct (negb (Py.is_blank p))|]; lra.
Qed.

Lemma score_gps_accuracy_range (float_str : R -> string) (lat lon : R)
      (gps_accuracy : option R) :
  0 <= Credibility.score_gps_accuracy float_str lat lon gps_accuracy <= 1.
Proof.
  unfold Credibility.score_gps_accuracy.
  destruct (negb _); [lra|].
  destruct (_ || _); [lra|].
  destruct (_ || _); [lra|].
  destruct gps_accuracy as [acc|]; [|lra].
  repeat (destruct (Rle_dec _ _); [lra|]). lra.
Qed.

Lemma score_text_quality_range (text : string) :
  0 <= Credibility.score_text_quality text <= 1.
Proof.
  unfold Credibility.score_text_quality.
  destruct (Py.is_blank text); [lra|].
  minmax; lra.
Qed.

(** The timestamp as the scorer compares it with the clock. *)
Lemma normalise_timestamp (t : DT.datetime) :
  (if DT.is_naive t then Py.Ok (DT.replace_utc t)
   else if negb (DT.is_utc t) then DT.astimezone_utc t
   else Py.Ok t)
  = if Spec.utc_in_range (Some t)
    then Py.Ok (DT.mkdatetime (DT.instant t) (Some 0%Z))
    else Py.Raise Py.OverflowError.
Proof.
  unfold Spec.utc_in_range, DT.astimezone_utc, DT.is_naive, DT.is_utc, DT.replace_utc,
    DT.instant.
  destruct t as [w [off|]]; cbn [DT.tzoffset DT.wall orb negb]; [|reflexivity].
  destruct (Z.eqb_spec off 0) as [->|Hne]; cbn [negb orb].
  - rewrite Z.sub_0_r. reflexivity.
  - reflexivity.
Qed.

Lemma score_temporal_consistency_ok (now : Z) (timestamp : option DT.datetime) :
  Spec.utc_in_range timestamp = true ->
  exists s, Credibility.score_temporal_consistency now timestamp = Py.Ok s.
Proof.
  intros Hr. unfold Credibility.score_temporal_consistency.
  destruct timestamp as [t|]; [|eauto].
  rewrite normalise_timestamp, Hr. cbn [Py.bind].
  destruct (_ <? _)%Z; [eauto|].
  repeat (destruct (Rle_dec _ _); [eauto|]). eauto.
Qed.

Lemma score_temporal_consistency_overflow (now : Z) (timestamp : option DT.datetime) :
  Spec.utc_in_range timestamp = false ->
  Credibility.score_temporal_consistency now timestamp = Py.Raise Py.OverflowError.
Proof.
  intros Hr. unfold Credibility.score_temporal_consistency.
  destruct timestamp as [t|]; [|discriminate Hr].
  rewrite normalise_timestamp, Hr. reflexivity.
Qed.

Lemma score_temporal_consistency_floor (now : Z) (timestamp : option DT.datetime)
      (s : R) :
  Credibility.score_temporal_consistency now timestamp = Py.Ok s ->
  0.1 <= s <= 1.
Proof.
  unfold Credibility.score_temporal_consistency.
  destruct timestamp as [t|]; [|intros H; injection H as <-; lra].
  rewrite normalise_timestamp.
  destruct (Spec.utc_in_range (Some t)); [|discriminate]. cbn [Py.bind].
  destruct (_ <? _)%Z; [intros H; injection H as <-; lra|].
  repeat (destruct (Rle_dec _ _); [intros H; injection H as <-; lra|]).
  intros H; injection H as <-; lra.
Qed.

Lemma score_temporal_consistency_range (now : Z) (timestamp : option DT.datetime)
      (s : R) :
  Credibility.score_temporal_consistency now timestamp = Py.Ok s ->
  0 <= s <= 1.
Proof.
  intros H. apply score_temporal_consistency_floor in H. lra.
Qed.

Lemma score_past_accuracy_range (reporter_id : option string) :
  0 <= Credibility.score_past_accuracy reporter_id <= 1.
Proof. unfold Credibility.score_past_accuracy. lra. Qed.

Lemma weighted_totals_six (s1 s2 s3 s4 s5 s6 : R) :
  Credibility.weighted_totals
    [ ("source_reliability", s1); ("has_media", s2); ("gps_accuracy", s3);
      ("text_quality", s4); ("temporal_consistency", s5); ("past_accuracy", s6) ]
    0.0 0.0
  = (0.0 + s1 * 0.4 + s2 * 0.15 + s3 * 0.15 + s4 * 0.15 + s5 * 0.1 + s6 * 0.05,
     0.0 + 0.4 + 0.15 + 0.15 + 0.15 + 0.1 + 0.05).
Proof.
  cbv [Credibility.weighted_totals]. eval_tables. reflexivity.
Qed.

(** The scorer returns exactly when the score of the timestamp does, and
    then with the weighted sum of the six scores. *)
Lemma calculate_credibility_value (float_str : R -> string) (now : Z)
      (source text : string) (lat lon : R) (timestamp : option DT.datetime)
      (media_path : option string) (gps_accuracy : option R)
      (reporter_id : option string) (temporal : R) :
  Credibility.score_temporal_consistency now timestamp = Py.Ok temporal ->
  exists result,
    Credibility.calculate_credibility float_str now source text lat lon timestamp
                                      media_path gps_accuracy reporter_id
    = Py.Ok result /\
    Credibility.score result
    = Credibility.score_source_reliability source * 0.4
      + Credibility.score_media_presence media_path * 0.15
      + Credibility.score_gps_accuracy float_str lat lon gps_accuracy * 0.15
      + Credibility.score_text_quality text * 0.15
      + temporal * 0.1
      + Credibility.score_past_accuracy reporter_id * 0.05 /\
    Credibility.features result
    = [ ("source_reliability", Credibility.score_source_reliability source);
        ("has_media", Credibility.score_media_presence media_path);
        ("gps_accuracy", Credibility.score_gps_accuracy float_str lat lon gps_accuracy);
        ("text_quality", Credibility.score_text_quality text);
        ("temporal_consistency", temporal);
        ("past_accuracy", Credibility.score_past_accuracy reporter_id) ].
Proof.
  intros Ht.
  unfold Credibility.calculate_credibility, Credibility.feature_scores.
  rewrite Ht. cbn [Py.bind]. rewrite weighted_totals_six.
  eexists. split; [reflexivity|].
  cbn [Credibility.score Credibility.features]. split; [|reflexivity].
  assert (E : 0.0 + 0.4 + 0.15 + 0.15 + 0.15 + 0.1 + 0.05 = 1) by lra.
  rewrite E. destruct (Rlt_dec 0 1); [|lra]. lra.
Qed.

Lemma calculate_credibility_raises (float_str : R -> string) (now : Z)
      (source text : string) (lat lon : R) (timestamp : option DT.datetime)
      (media_path : option string) (gps_accuracy : option R)
      (reporter_id : option string) (e : Py.exn) :
  Credibility.score_temporal_consistency now timestamp = Py.Raise e ->
  Credibility.calculate_credibility float_str now source text lat lon timestamp
                                    media_path gps_accuracy reporter_id
  = Py.Raise e.
Proof.
  intros Ht.
  unfold Credibility.calculate_credibility, Credibility.feature_scores.
  rewrite Ht. reflexivity.
Qed.

Lemma calculate_credibility_inv (float_str : R -> string) (now : Z)
      (source text : string) (lat lon : R) (timestamp : option DT.datetime)
      (media_path : option string) (gps_accuracy : option R)
      (reporter_id : option string) (result : Credibility.CredibilityResult) :
  Credibility.calculate_credibility float_str now source text lat lon timestamp
                                    media_path gps_accuracy reporter_id
  = Py.Ok result ->
  exists temporal,
    Credibility.score_temporal_consistency now timestamp = Py.Ok temporal.
Proof.
  intros H.
  destruct (Credibility.score_temporal_consistency now timestamp) as [temporal|e] eqn:Ht;
    [eauto|].
  rewrite (calculate_credibility_raises float_str now source text lat lon timestamp
             media_path gps_accuracy reporter_id e Ht) in H.
  discriminate.
Qed.

(** The score and the features of a result of the scorer are in [0,1]. *)
Lemma calculate_credibility_unit (float_str : R -> string) (now : Z)
      (source text : string) (lat lon : R) (timestamp : option DT.datetime)
      (media_path : option string) (gps_accuracy : option R)
      (reporter_id : option string) (result : Credibility.CredibilityResult) :
  Credibility.calculate_credibility float_str now source text lat lon timestamp
                                    media_path gps_accuracy reporter_id
  = Py.Ok result ->
  0 <= Credibility.score result <= 1 /\
  map fst (Credibility.features result)
  = [ "source_reliability"; "has_media"; "gps_accuracy"; "text_quality";
      "temporal_consistency"; "past_accuracy" ] /\
  Forall (fun kv => 0 <= snd kv <= 1) (Credibility.features result).
Proof.
  intros H.
  destruct (calculate_credibility_inv _ _ _ _ _ _ _ _ _ _ _ H) as [temporal Ht].
  destruct (calculate_credibility_value float_str now source text lat lon timestamp
              media_path gps_accuracy reporter_id temporal Ht)
    as (result' & E & Hs & Hf).
  rewrite E in H. injection H as <-.
  pose proof (score_source_reliability_range source).
  pose proof (score_media_presence_range media_path).
  pose proof (score_gps_accuracy_range float_str lat lon gps_accuracy).
  pose proof (score_text_quality_range text).
  pose proof (score_temporal_consistency_range now timestamp temporal Ht).
  pose proof (score_past_accuracy_range reporter_id).
  split; [rewrite Hs; lra|]. rewrite Hf. split; [reflexivity|].
  cbn [snd]. repeat (constructor; [assumption|]). constructor.
Qed.

(** C7, as amended.  The credibility scorer returns for every input whose
    timestamp is missing, naive or in UTC, or has an instant that a datetime
    can hold; whenever it returns, the overall score is in [0,1] and each of
    the six feature scores that it combines is in [0,1].  For an aware
    timestamp outside UTC whose instant leaves the range of datetime, the
    conversion to UTC raises OverflowError and the scorer returns nothing. *)
Theorem C7_credibility_in_unit_interval
        (float_str : R -> string) (now : Z)
        (source text : string) (lat lon : R) (timestamp : option DT.datetime)
        (media_path : option string) (gps_accuracy : option R)
        (reporter_id : option string) :
  let outcome :=
    Credibility.calculate_credibility float_str now source text lat lon timestamp
                                      media_path gps_accuracy reporter_id in
  (Spec.utc_in_range timestamp = true -> exists result, outcome = Py.Ok result) /\
  (forall result,
     outcome = Py.Ok result ->
     0 <= Credibility.score result <= 1 /\
     map fst (Credibility.features result)
     = [ "source_reliability"; "has_media"; "gps_accuracy"; "text_quality";
         "temporal_consistency"; "past_accuracy" ] /\
     Forall (fun kv => 0 <= snd kv <= 1) (Credibility.features result)) /\
  (Spec.utc_in_range timestamp = false -> outcome = Py.Raise Py.OverflowError).
Proof.
  intros outcome. subst outcome. split; [|split].
  - intros Hr.
    destruct (score_temporal_consistency_ok now timestamp Hr) as [temporal Ht].
    destruct (calculate_credibility_value float_str now source text lat lon timestamp
                media_path gps_accuracy reporter_id temporal Ht) as (result & E & _).
    eauto.
  - intros result. apply calculate_credibility_unit.
  - intros Hr. apply calculate_credibility_raises.
    apply score_temporal_consistency_overflow, Hr.
Qed.

(** The claim fails for a timestamp at the start of the range of datetime,
    0001-01-01 00:00 in the zone UTC+01:00: its instant lies before
    [datetime.min], the conversion to UTC raises OverflowError, and the
    scorer returns no score. *)
Lemma C7_counterexample :
  ~ (forall float_str now source text lat lon timestamp media_path gps_accuracy
            reporter_id,
       exists result,
         Credibility.calculate_credibility float_str now source text lat lon timestamp
                                           media_path gps_accuracy reporter_id
         = Py.Ok result /\
         0 <= Credibility.score result <= 1) /\
  Credibility.calculate_credibility
    Samples.float_str 0 "citizen" "flood" 13.05 80.27
    (Some (DT.mkdatetime DT.min_wall (Some 3600000000%Z))) None None None
  = Py.Raise Py.OverflowError.
Proof.
  assert (E : Credibility.calculate_credibility
                Samples.float_str 0 "citizen" "flood" 13.05 80.27
                (Some (DT.mkdatetime DT.min_wall (Some 3600000000%Z))) None None None
              = Py.Raise Py.OverflowError).
  { apply calculate_credibility_raises, score_temporal_consistency_overflow.
    reflexivity. }
  split; [|exact E].
  intros H.
  destruct (H Samples.float_str 0%Z "citizen" "flood" 13.05 80.27
              (Some (DT.mkdatetime DT.min_wall (Some 3600000000%Z))) None None None)
    as (result & E' & _).
  rewrite E in E'. discriminate.
Qed.

(** ** The clusterer *)

Lemma mem_str_In (x : string) (l : list string) : Py.mem_str x l = true <-> In x l.
Proof.
  unfold Py.mem_str. rewrite existsb_exists. split.
  - intros [y [Hy E]]. apply String.eqb_eq in E. subst. exact Hy.
  - intros H. exists x. split; [exact H|apply String.eqb_refl].
Qed.

Lemma mem_str_false (x : string) (l : list string) : Py.mem_str x l = false <-> ~ In x l.
Proof.
  rewrite <- mem_str_In. destruct (Py.mem_str x l); split; congruence.
Qed.

Lemma set_of_NoDup (l : list string) : NoDup (Py.set_of l).
Proof. apply NoDup_nodup. Qed.









Lemma make_aware_sub (t1 t2 : DT.datetime) :
  DT.sub (Dedupe.make_aware t2) (Dedupe.make_aware t1)
  = Py.Ok (DT.instant (Dedupe.make_aware t2) - DT.instant (Dedupe.make_aware t1))%Z.
Proof.
  unfold Dedupe.make_aware, DT.is_naive, DT.sub, DT.replace_utc.
  destruct t1 as [w1 [o1|]], t2 as [w2 [o2|]]; reflexivity.
Qed.



Lemma haversine_arg_range (p1 l1 p2 l2 : R) :
  0 <= sin ((p2 - p1) / 2) ^ 2 + cos p1 * cos p2 * sin ((l2 - l1) / 2) ^ 2 <= 1.
Proof.
  pose proof (cos_minus p2 p1) as Hm. pose proof (cos_plus p2 p1) as Hp.
  pose proof (COS_bound (p2 - p1)) as [Bm1 Bm2].
  pose proof (COS_bound (p2 + p1)) as [Bp1 Bp2].
  pose proof (cos_2a_sin ((p2 - p1) / 2)) as Hd.
  replace (2 * ((p2 - p1) / 2)) with (p2 - p1) in Hd by lra.
  pose proof (SIN_bound ((l2 - l1) / 2)) as [Bs1 Bs2].
  set (u := sin ((p2 - p1) / 2)) in *.
  set (v := sin ((l2 - l1) / 2)) in *.
  set (cd := cos (p2 - p1)) in *. set (cs := cos (p2 + p1)) in *.
  assert (Hc : cos p1 * cos p2 = (cd + cs) / 2) by lra.
  assert (Hu : u ^ 2 = (1 - cd) / 2) by lra.
  rewrite Hu, Hc.
  assert (Hs : 0 <= v ^ 2 <= 1) by nra.
  set (s := v ^ 2) in *.
  split; nra.
Qed.

Lemma haversine_distance_ok (lat1 lon1 lat2 lon2 : R) :
  exists d, Dedupe.haversine_distance lat1 lon1 lat2 lon2 = Py.Ok d.
Proof.
  unfold Dedupe.haversine_distance.
  pose proof (haversine_arg_range (Py.math_radians lat1) (Py.math_radians lon1)
                                  (Py.math_radians lat2) (Py.math_radians lon2)) as Ha.
  unfold Py.math_sqrt.
  destruct (Rlt_dec _ 0); [lra|]. cbn [Py.bind]. unfold Py.math_asin.
  match goal with |- context [sqrt ?a] => set (x := a) in * end.
  pose proof (sqrt_pos x).
  assert (sqrt x <= 1) by (rewrite <- sqrt_1; apply sqrt_le_1; lra).
  destruct (Rlt_dec (sqrt x) (-1)); [lra|].
  destruct (Rlt_dec 1 (sqrt x)); [lra|]. cbn [Py.bind]. eauto.
Qed.

Lemma spatial_similarity_ok (lat1 lon1 lat2 lon2 : R) :
  exists s, Dedupe.spatial_similarity lat1 lon1 lat2 lon2 = Py.Ok s.
Proof.
  unfold Dedupe.spatial_similarity.
  destruct (haversine_distance_ok lat1 lon1 lat2 lon2) as [d ->]. cbn [Py.bind].
  destruct (Rlt_dec _ _); eauto.
Qed.

Lemma temporal_similarity_ok (time1 time2 : option DT.datetime) :
  exists s, Dedupe.temporal_similarity time1 time2 = Py.Ok s.
Proof.
  unfold Dedupe.temporal_similarity.
  destruct time1 as [t1|], time2 as [t2|]; eauto.
  rewrite make_aware_sub. cbn [Py.bind]. destruct (Rlt_dec _ _); eauto.
Qed.

Lemma combined_similarity_ok (a b : Report.t) :
  exists s, Dedupe.combined_similarity a b = Py.Ok s.
Proof.
  unfold Dedupe.combined_similarity.
  destruct (spatial_similarity_ok (Report.lat a) (Report.lon a)
                                  (Report.lat b) (Report.lon b)) as [s ->].
  destruct (temporal_similarity_ok (Report.timestamp a) (Report.timestamp b)) as [t ->].
  cbn [Py.bind]. eauto.
Qed.



(** ** Consensus hazard kind *)

Lemma Rgtb_true (a b : R) : Py.Rgtb a b = true <-> a < b.
Proof. unfold Py.Rgtb. destruct (Rlt_dec a b); split; intros; try assumption; try reflexivity; try discriminate; lra. Qed.

Lemma Rgtb_false (a b : R) : Py.Rgtb a b = false <-> b <= a.
Proof. unfold Py.Rgtb. destruct (Rlt_dec a b); split; intros; try reflexivity; try discriminate; lra. Qed.

Lemma max_from_first_maximum (d : list (string * R)) :
  forall best,
  exists l1 l2,
    best :: d = (l1 ++ Py.max_from Py.Rgtb best d :: l2)%list /\
    (forall kv, In kv l1 -> snd kv < snd (Py.max_from Py.Rgtb best d)) /\
    (forall kv, In kv l2 -> snd kv <= snd (Py.max_from Py.Rgtb best d)).
Proof.
  induction d as [|kv d IH]; intros best.
  - exists [], []. simpl. repeat split; intros ? [].
  - simpl. destruct (Py.Rgtb (snd best) (snd kv)) eqn:G.
    + apply Rgtb_true in G.
      destruct (IH kv) as (l1 & l2 & E & H1 & H2).
      exists (best :: l1), l2. split; [simpl; f_equal; exact E|].
      split; [|exact H2].
      intros x [<-|Hx]; [|auto].
      destruct l1 as [|y l1]; simpl in E; injection E as E1 E2.
      * rewrite <- E1. exact G.
      * subst y. specialize (H1 kv (or_introl eq_refl)). lra.
    + apply Rgtb_false in G.
      destruct (IH best) as (l1 & l2 & E & H1 & H2).
      destruct l1 as [|y l1]; simpl in E; injection E as E1 E2.
      * exists [], (kv :: l2). split; [simpl; rewrite <- E1, <- E2; reflexivity|].
        split; [intros ? []|].
        intros x [<-|Hx]; [rewrite <- E1; lra|auto].
      * subst y. exists (best :: kv :: l1), l2.
        split; [simpl; do 2 f_equal; exact E2|]. split; [|exact H2].
        pose proof (H1 best (or_introl eq_refl)).
        intros x [<-|[<-|Hx]]; [assumption|lra|apply H1; right; exact Hx].
Qed.

Lemma hazard_votes_snoc (reports : list Report.t) (r : Report.t) :
  Fusion.hazard_votes (reports ++ [r])
  = Fusion.add_vote (Fusion.hazard_votes reports) (Report.nlp_type r)
                    (Fusion.vote_weight r).
Proof. unfold Fusion.hazard_votes. rewrite fold_left_app. reflexivity. Qed.

Lemma add_vote_keys (votes : list (string * R)) (k : string) (w : R) :
  map fst (Fusion.add_vote votes k w)
  = if Py.mem_str k (map fst votes) then map fst votes else (map fst votes ++ [k])%list.
Proof.
  induction votes as [|[k' v] votes IH]; simpl; [reflexivity|].
  unfold Py.mem_str in *. simpl. rewrite (String.eqb_sym k k').
  destruct (String.eqb k' k); simpl; [reflexivity|].
  rewrite IH. destruct (existsb _ _); reflexivity.
Qed.

Lemma hazard_votes_keys (reports : list Report.t) :
  map fst (Fusion.hazard_votes reports) = Spec.first_seen (map Report.nlp_type reports).
Proof.
  induction reports as [|r reports IH] using rev_ind; [reflexivity|].
  rewrite hazard_votes_snoc, add_vote_keys, IH, map_app.
  unfold Spec.first_seen. rewrite fold_left_app. reflexivity.
Qed.

Lemma first_seen_NoDup (l : list string) : NoDup (Spec.first_seen l).
Proof.
  induction l as [|k l IH] using rev_ind; [constructor|].
  unfold Spec.first_seen in *. rewrite fold_left_app. simpl.
  destruct (Py.mem_str k _) eqn:E; [exact IH|].
  apply mem_str_false in E.
  apply NoDup_app; [exact IH|constructor; [intros []|constructor]|].
  intros x Hx [<-|[]]. contradiction.
Qed.

Lemma get_add_vote (votes : list (string * R)) (k : string) (w : R) (k' : string) :
  Py.get (Fusion.add_vote votes k w) k' 0
  = Py.get votes k' 0 + (if String.eqb k k' then w else 0).
Proof.
  induction votes as [|[k0 v0] votes IH]; simpl.
  - destruct (String.eqb k k'); lra.
  - destruct (String.eqb k0 k) eqn:E; simpl.
    + apply String.eqb_eq in E. subst k0. destruct (String.eqb k k'); lra.
    + destruct (String.eqb k0 k') eqn:E'; [|exact IH].
      apply String.eqb_eq in E'. subst k0. rewrite String.eqb_sym, E. lra.
Qed.

Lemma sum_R_app (l1 l2 : list R) :
  Dedupe.sum_R (l1 ++ l2) = Dedupe.sum_R l1 + Dedupe.sum_R l2.
Proof. induction l1 as [|x l1 IH]; simpl; [lra|rewrite IH; lra]. Qed.

Lemma total_votes_snoc (reports : list Report.t) (r : Report.t) (k : string) :
  Spec.total_votes (reports ++ [r]) k
  = Spec.total_votes reports k
    + (if String.eqb (Report.nlp_type r) k then Fusion.vote_weight r else 0).
Proof.
  unfold Spec.total_votes. rewrite filter_app, map_app, sum_R_app. simpl.
  destruct (String.eqb (Report.nlp_type r) k); simpl; lra.
Qed.

Lemma get_hazard_votes (reports : list Report.t) (k : string) :
  Py.get (Fusion.hazard_votes reports) k 0 = Spec.total_votes reports k.
Proof.
  induction reports as [|r reports IH] using rev_ind; [reflexivity|].
  rewrite hazard_votes_snoc, get_add_vote, total_votes_snoc, IH. reflexivity.
Qed.

Lemma get_of_entry {V : Type} (d : list (string * V)) (k : string) (v default : V) :
  NoDup (map fst d) -> In (k, v) d -> Py.get d k default = v.
Proof.
  induction d as [|[k0 v0] d IH]; simpl; intros Hnd Hin; [contradiction|].
  inversion Hnd as [|? ? Hnot Hnd']; subst.
  destruct Hin as [H|H].
  - injection H as -> ->. rewrite String.eqb_refl. reflexivity.
  - destruct (String.eqb k0 k) eqn:E; [|auto].
    apply String.eqb_eq in E. subst k0. exfalso. apply Hnot.
    apply (in_map fst) in H. exact H.
Qed.

Lemma hazard_votes_entry (reports : list Report.t) (k : string) (v : R) :
  In (k, v) (Fusion.hazard_votes reports) -> v = Spec.total_votes reports k.
Proof.
  intros H. rewrite <- get_hazard_votes. symmetry.
  apply get_of_entry; [|exact H].
  rewrite hazard_votes_keys. apply first_seen_NoDup.
Qed.

Lemma hazard_votes_nonempty (reports : list Report.t) :
  reports <> [] -> Fusion.hazard_votes reports <> [].
Proof.
  destruct reports as [|r reports] using rev_ind; [congruence|].
  intros _. rewrite hazard_votes_snoc.
  destruct (Fusion.hazard_votes reports) as [|[k v] votes]; simpl; [discriminate|].
  destruct (String.eqb k (Report.nlp_type r)); discriminate.
Qed.

(** C9, as amended.  Each report adds source_weight * nlp_conf * credibility
    to the total of its predicted kind, and the kind with the maximum total
    wins; among kinds with equal totals the winner is the one whose first
    report comes first in the list: every kind seen before the winner has a
    strictly smaller total and every kind seen after it has at most the
    same total.  The priority table plays no part. *)
Theorem C9_consensus_is_first_maximum (reports : list Report.t) :
  reports <> [] ->
  exists l1 l2,
    Spec.first_seen (map Report.nlp_type reports)
    = (l1 ++ Fusion.determine_consensus_hazard_type reports :: l2)%list /\
    (forall k, In k l1 ->
       Spec.total_votes reports k
       < Spec.total_votes reports (Fusion.determine_consensus_hazard_type reports)) /\
    (forall k, In k l2 ->
       Spec.total_votes reports k
       <= Spec.total_votes reports (Fusion.determine_consensus_hazard_type reports)).
Proof.
  intros Hne. unfold Fusion.determine_consensus_hazard_type.
  destruct reports as [|r0 rs] eqn:Er; [congruence|]. rewrite <- Er in *.
  replace (Dedupe.is_nil reports) with false by (rewrite Er; reflexivity).
  pose proof (hazard_votes_nonempty reports Hne) as Hv.
  pose proof (hazard_votes_keys reports) as Hk.
  pose proof (hazard_votes_entry reports) as He.
  destruct (Fusion.hazard_votes reports) as [|best d]; [congruence|].
  cbn [Py.max_by_value].
  destruct (max_from_first_maximum d best) as (l1 & l2 & E & H1 & H2).
  destruct (Py.max_from Py.Rgtb best d) as [w v] eqn:Ew.
  assert (Hw : v = Spec.total_votes reports w).
  { apply He. rewrite E. apply in_or_app. right; left; reflexivity. }
  exists (map fst l1), (map fst l2).
  split; [rewrite <- Hk, E, map_app; reflexivity|].
  split; intros k Hin; apply in_map_iff in Hin; destruct Hin as [[k' v'] [<- Hin]];
    cbn [fst].
  - rewrite <- Hw, <- (He k' v').
    + exact (H1 _ Hin).
    + rewrite E. apply in_or_app. left; exact Hin.
  - rewrite <- Hw, <- (He k' v').
    + exact (H2 _ Hin).
    + rewrite E. apply in_or_app. right; right; exact Hin.
Qed.

Lemma sample_vote_weight :
  Fusion.vote_weight Samples.flood_report = 0.15 /\
  Fusion.vote_weight Samples.tsunami_report = 0.15.
Proof.
  unfold Fusion.vote_weight, Samples.flood_report, Samples.tsunami_report,
    Samples.report. cbn [Report.source Report.nlp_conf Report.credibility].
  change (Py.lower "citizen") with "citizen". eval_tables. split; lra.
Qed.

Lemma sample_consensus :
  Fusion.determine_consensus_hazard_type [Samples.flood_report; Samples.tsunami_report]
  = "flood".
Proof.
  unfold Fusion.determine_consensus_hazard_type. cbn [Dedupe.is_nil].
  assert (E : Fusion.hazard_votes [Samples.flood_report; Samples.tsunami_report]
              = [("flood", Fusion.vote_weight Samples.flood_report);
                 ("tsunami", Fusion.vote_weight Samples.tsunami_report)])
    by reflexivity.
  rewrite E. cbn [Py.max_by_value Py.max_from snd].
  destruct sample_vote_weight as [-> ->].
  replace (Py.Rgtb 0.15 0.15) with false by (symmetry; apply Rgtb_false; lra).
  reflexivity.
Qed.

Lemma C9_consensus_is_first_maximum_witness :
  exists l1 l2,
    Spec.first_seen (map Report.nlp_type [Samples.flood_report; Samples.tsunami_report])
    = (l1 ++ Fusion.determine_consensus_hazard_type
               [Samples.flood_report; Samples.tsunami_report] :: l2)%list /\
    (forall k, In k l1 ->
       Spec.total_votes [Samples.flood_report; Samples.tsunami_report] k
       < Spec.total_votes [Samples.flood_report; Samples.tsunami_report]
           (Fusion.determine_consensus_hazard_type
              [Samples.flood_report; Samples.tsunami_report])) /\
    (forall k, In k l2 ->
       Spec.total_votes [Samples.flood_report; Samples.tsunami_report] k
       <= Spec.total_votes [Samples.flood_report; Samples.tsunami_report]
            (Fusion.determine_consensus_hazard_type
               [Samples.flood_report; Samples.tsunami_report])).
Proof.
  apply (C9_consensus_is_first_maximum [Samples.flood_report; Samples.tsunami_report]).
  discriminate.
Defined.

(** C9, the claim as stated fails: a flood report followed by a tsunami
    report of the same source, confidence and credibility gives both kinds
    the total 0.15; the winner is "flood", the kind seen first, although
    "tsunami" ranks higher in the priority table. *)
Lemma C9_counterexample :
  Spec.total_votes [Samples.flood_report; Samples.tsunami_report] "flood" = 0.15 /\
  Spec.total_votes [Samples.flood_report; Samples.tsunami_report] "tsunami" = 0.15 /\
  Py.get Fusion.hazard_priorities "flood" 0.3
  < Py.get Fusion.hazard_priorities "tsunami" 0.3 /\
  Fusion.determine_consensus_hazard_type [Samples.flood_report; Samples.tsunami_report]
  = "flood".
Proof.
  destruct sample_vote_weight as [Hf Ht].
  split; [|split; [|split]].
  - unfold Spec.total_votes.
    change (filter _ _) with [Samples.flood_report]. simpl. rewrite Hf. lra.
  - unfold Spec.total_votes.
    change (filter _ _) with [Samples.tsunami_report]. simpl. rewrite Ht. lra.
  - eval_tables. lra.
  - exact sample_consensus.
Qed.

(** ** The fusion engine returns *)

Lemma collect_snoc (reports : list Report.t) (r : Report.t) :
  Fusion.collect (reports ++ [r]) = Fusion.collect_step (Fusion.collect reports) r.
Proof. unfold Fusion.collect. rewrite fold_left_app. reflexivity. Qed.

Lemma append_to_nonempty (groups : list (string * list R)) (source : string) (c : R) :
  Fusion.append_to groups source c <> [].
Proof.
  destruct groups as [|[k l] groups]; simpl; [discriminate|].
  destruct (String.eqb k source); discriminate.
Qed.

Lemma collect_nonempty (reports : list Report.t) :
  reports <> [] -> fst (fst (Fusion.collect reports)) <> [].
Proof.
  destruct reports as [|r reports] using rev_ind; [congruence|].
  intros _. rewrite collect_snoc. unfold Fusion.collect_step.
  destruct (Fusion.collect reports) as [[g v] t]. simpl.
  apply append_to_nonempty.
Qed.

Lemma source_diversity_boost_ok (unique_sources : list string) :
  unique_sources <> [] ->
  exists b, Fusion._calculate_source_diversity_boost
              unique_sources (List.length unique_sources) = Py.Ok b.
Proof.
  intros Hne. unfold Fusion._calculate_source_diversity_boost.
  destruct (Nat.eqb (List.length unique_sources) 1) eqn:E1; [eauto|].
  destruct (Nat.eqb (List.length unique_sources) 2) eqn:E2; [cbn [Py.bind]; eauto|].
  destruct (Nat.eqb (List.length unique_sources) 3) eqn:E3; [cbn [Py.bind]; eauto|].
  destruct (4 <=? List.length unique_sources)%nat eqn:E4; [cbn [Py.bind]; eauto|].
  exfalso. apply Nat.eqb_neq in E1, E2, E3. apply Nat.leb_gt in E4.
  destruct unique_sources; [congruence|simpl in *; lia].
Qed.

Lemma is_nil_false {A : Type} (l : list A) : l <> [] -> Dedupe.is_nil l = false.
Proof. destruct l; [congruence|reflexivity]. Qed.

Lemma calculate_weighted_confidence_ok (reports : list Report.t) :
  exists c, Fusion.calculate_weighted_confidence reports = Py.Ok c.
Proof.
  unfold Fusion.calculate_weighted_confidence.
  destruct (Dedupe.is_nil reports) eqn:E; [eauto|].
  assert (Hne : reports <> []) by (intros ->; discriminate).
  pose proof (collect_nonempty reports Hne) as Hg.
  destruct (Fusion.collect reports) as [[g v] t]. simpl in Hg.
  destruct (Fusion.source_totals g 0.0 0.0) as [tc tw].
  destruct (source_diversity_boost_ok (map fst g)) as [b ->].
  - destruct g; [congruence|discriminate].
  - cbn [Py.bind]. eauto.
Qed.

Lemma calculate_weighted_severity_ok (reports : list Report.t) :
  Dedupe.sum_R (map Fusion.severity_weight reports) <> 0 ->
  exists s, Fusion.calculate_weighted_severity reports = Py.Ok s /\ (1 <= s <= 5)%Z.
Proof.
  intros Hw. unfold Fusion.calculate_weighted_severity.
  destruct (Dedupe.is_nil reports); [exists 1%Z; split; [reflexivity|lia]|].
  unfold Py.truediv. destruct (Req_dec_T _ 0); [contradiction|].
  cbn [Py.bind]. eexists; split; [reflexivity|lia].
Qed.



Lemma fuse_reports_ok (float_repr : R -> string) (isoformat : DT.datetime -> string)
      (reports : list Report.t) (group_stats : option Dedupe.GroupStats) :
  reports <> [] ->
  Dedupe.sum_R (map Fusion.severity_weight reports) <> 0 ->
  exists c s,
    Fusion.calculate_weighted_confidence reports = Py.Ok c /\
    Fusion.calculate_weighted_severity reports = Py.Ok s /\
    Fusion.fuse_reports float_repr isoformat reports group_stats
    = Py.Ok (Fusion.mkFusionResult
               (Fusion.determine_consensus_hazard_type reports) c s
               (Fusion.determine_status
                  c (Fusion.determine_consensus_hazard_type reports)
                  (existsb (fun r => String.eqb (Py.lower (Report.source r)) "lora")
                           reports))
               (fst (Fusion.calculate_centroid reports))
               (snd (Fusion.calculate_centroid reports))
               (Fusion.create_evidence_json float_repr isoformat reports group_stats)
               (Fusion.calculate_priority_score
                  (Fusion.determine_consensus_hazard_type reports) c s)).
Proof.
  intros Hne Hw.
  destruct (calculate_weighted_confidence_ok reports) as [c Hc].
  destruct (calculate_weighted_severity_ok reports Hw) as [s [Hs _]].
  exists c, s. split; [exact Hc|]. split; [exact Hs|].
  unfold Fusion.fuse_reports. rewrite (is_nil_false reports Hne), Hc, Hs.
  cbn [Py.bind]. destruct (Fusion.calculate_centroid reports). reflexivity.
Qed.


(** ** The clusterer returns *)

Lemma scan_ok (new_report : Report.t) (existing_reports : list Report.t) :
  forall best_match best_score matched,
  exists best_match' best_score' matched',
    Dedupe.scan new_report existing_reports best_match best_score matched
    = Py.Ok (best_match', best_score', matched') /\
    (forall b, best_match' = Some b -> best_match = Some b \/ In b existing_reports).
Proof.
  induction existing_reports as [|e rest IH]; intros bm bs m; simpl.
  - exists bm, bs, m. auto.
  - destruct (combined_similarity_ok new_report e) as [s ->]. cbn [Py.bind].
    destruct (Rle_dec Dedupe.combined_threshold s);
      [destruct (Rlt_dec bs s)|].
    + destruct (IH (Some e) s (m ++ [Report.id e])%list) as (bm' & bs' & m' & E & H).
      exists bm', bs', m'. split; [exact E|].
      intros b Hb. destruct (H b Hb) as [Hs|Hin]; [|auto].
      injection Hs as <-. auto.
    + destruct (IH bm bs (m ++ [Report.id e])%list) as (bm' & bs' & m' & E & H).
      exists bm', bs', m'. split; [exact E|].
      intros b Hb. destruct (H b Hb); auto.
    + destruct (IH bm bs m) as (bm' & bs' & m' & E & H).
      exists bm', bs', m'. split; [exact E|].
      intros b Hb. destruct (H b Hb); auto.
Qed.

Lemma explain_ok (new_report best_match : Report.t) :
  Spec.same_awareness (Report.timestamp new_report) (Report.timestamp best_match) = true ->
  exists parts, Dedupe.explain new_report best_match = Py.Ok parts.
Proof.
  intros Haw. unfold Dedupe.explain.
  destruct (spatial_similarity_ok (Report.lat new_report) (Report.lon new_report)
                                  (Report.lat best_match) (Report.lon best_match))
    as [s ->].
  cbn [Py.bind].
  destruct (haversine_distance_ok (Report.lat new_report) (Report.lon new_report)
                                  (Report.lat best_match) (Report.lon best_match))
    as [d ->].
  assert (H1 : exists p1,
             (if Rlt_dec 0.7 s then distance <- Py.Ok d ;; Py.Ok [Dedupe.SameLocation distance]
              else Py.Ok []) = Py.Ok p1)
    by (destruct (Rlt_dec 0.7 s); cbn [Py.bind]; eauto).
  destruct H1 as [p1 ->].
  destruct (Report.timestamp new_report) as [tn|] eqn:En,
           (Report.timestamp best_match) as [tb|] eqn:Eb.
  - destruct (temporal_similarity_ok (Some tn) (Some tb)) as [t ->]. cbn [Py.bind].
    assert (Hs : exists delta, DT.sub tn tb = Py.Ok delta).
    { unfold Spec.same_awareness, DT.is_naive in Haw. unfold DT.sub.
      destruct (DT.tzoffset tn), (DT.tzoffset tb); try discriminate; eauto. }
    destruct Hs as [delta ->].
    destruct (Rlt_dec 0.7 t); cbn [Py.bind]; eauto.
  - change (Dedupe.temporal_similarity (Some tn) None) with (@Py.Ok R 0.5).
    cbn [Py.bind]. destruct (Rlt_dec 0.7 0.5); [lra|]. cbn [Py.bind]. eauto.
  - change (Dedupe.temporal_similarity None (Some tb)) with (@Py.Ok R 0.5).
    cbn [Py.bind]. destruct (Rlt_dec 0.7 0.5); [lra|]. cbn [Py.bind]. eauto.
  - change (Dedupe.temporal_similarity None None) with (@Py.Ok R 0.5).
    cbn [Py.bind]. destruct (Rlt_dec 0.7 0.5); [lra|]. cbn [Py.bind]. eauto.
Qed.

(** The greatest group of the existing reports: it is found exactly when
    every group is an integer. *)
Lemma max_items_ints (l : list Z) :
  forall m, Dedupe.max_items (Some m) (map Some l)
            = Py.Ok (Some (fold_left Z.max l m)).
Proof.
  induction l as [|x l IH]; intros m; cbn [map Dedupe.max_items fold_left];
    [reflexivity|apply IH].
Qed.

Lemma max_or_none_ints (l : list Z) :
  Dedupe.max_or_none (map Some l) = Py.Ok (Some (Dedupe.max_default0 l)).
Proof.
  destruct l as [|x l]; [reflexivity|].
  cbn [map Dedupe.max_or_none Dedupe.max_default0]. apply max_items_ints.
Qed.

Lemma max_items_inv (l : list (option Z)) :
  forall m r, Dedupe.max_items (Some m) l = Py.Ok r ->
              exists ints, l = map Some ints /\ r = Some (fold_left Z.max ints m).
Proof.
  induction l as [|x l IH]; intros m r H; cbn [Dedupe.max_items] in H.
  - injection H as <-. exists []. split; reflexivity.
  - destruct x as [v|]; [|discriminate].
    destruct (IH _ _ H) as (ints & -> & ->). exists (v :: ints). split; reflexivity.
Qed.

Lemma new_group_id_inv (l : list (option Z)) (n : Z) :
  (max_group_id <- Dedupe.max_or_none l ;; Dedupe.add_one max_group_id) = Py.Ok n ->
  exists ints, l = map Some ints /\ n = (Dedupe.max_default0 ints + 1)%Z.
Proof.
  destruct l as [|x l]; cbn [Dedupe.max_or_none].
  - cbn [Py.bind Dedupe.add_one]. intros H. injection H as <-.
    exists []. split; reflexivity.
  - destruct x as [v|].
    + destruct (Dedupe.max_items (Some v) l) as [r|e] eqn:E; [|discriminate].
      destruct (max_items_inv l v r E) as (ints & -> & ->).
      cbn [Py.bind Dedupe.add_one]. intros H. injection H as <-.
      exists (v :: ints). split; reflexivity.
    + destruct l as [|y l]; cbn [Dedupe.max_items Py.bind Dedupe.add_one].
      * discriminate.
      * destruct y; discriminate.
Qed.

Lemma groups_are_ints (reports : list Report.t) :
  (forall e, In e reports -> Spec.has_group e = true) ->
  exists ints, map Dedupe.group_of reports = map Some ints.
Proof.
  induction reports as [|r reports IH]; intros H.
  - exists []. reflexivity.
  - destruct IH as [ints E]; [intros e He; apply H; right; exact He|].
    pose proof (H r (or_introl eq_refl)) as Hr. unfold Spec.has_group in Hr.
    destruct (Dedupe.group_of r) as [g|] eqn:Eg; [|discriminate].
    exists (g :: ints). cbn [map]. rewrite Eg, E. reflexivity.
Qed.

Lemma find_duplicates_ok (new_report : Report.t) (existing_reports : list Report.t) :
  (forall e, In e existing_reports ->
     Spec.same_awareness (Report.timestamp new_report) (Report.timestamp e) = true) ->
  (forall e, In e existing_reports -> Spec.has_group e = true) ->
  exists r, Dedupe.find_duplicates new_report existing_reports = Py.Ok r.
Proof.
  intros Haw Hg. unfold Dedupe.find_duplicates.
  destruct (Dedupe.is_nil existing_reports); [eauto|].
  destruct (scan_ok new_report existing_reports None 0.0 [])
    as (bm & bs & m & -> & Hbm).
  cbn [Py.bind]. destruct bm as [b|].
  - destruct (Hbm b eq_refl) as [Hs|Hin]; [discriminate|].
    destruct (explain_ok new_report b (Haw b Hin)) as [parts ->].
    cbn [Py.bind]. eauto.
  - destruct (groups_are_ints existing_reports Hg) as [ints ->].
    rewrite max_or_none_ints. cbn [Py.bind Dedupe.add_one]. eauto.
Qed.

Lemma haversine_same_point (lat lon : R) :
  Dedupe.haversine_distance lat lon lat lon = Py.Ok 0.
Proof.
  unfold Dedupe.haversine_distance.
  replace ((Py.math_radians lat - Py.math_radians lat) / 2) with 0 by lra.
  replace ((Py.math_radians lon - Py.math_radians lon) / 2) with 0 by lra.
  rewrite sin_0.
  replace (0 ^ 2 + cos (Py.math_radians lat) * cos (Py.math_radians lat) * 0 ^ 2)
    with 0 by lra.
  unfold Py.math_sqrt. destruct (Rlt_dec 0 0); [lra|]. cbn [Py.bind].
  rewrite sqrt_0. unfold Py.math_asin.
  destruct (Rlt_dec 0 (-1)); [lra|]. destruct (Rlt_dec 1 0); [lra|].
  cbn [Py.bind]. rewrite asin_0. f_equal. lra.
Qed.

Lemma spatial_same_point (lat lon : R) :
  Dedupe.spatial_similarity lat lon lat lon = Py.Ok 1.
Proof.
  unfold Dedupe.spatial_similarity, Dedupe.spatial_threshold_km.
  rewrite haversine_same_point. cbn [Py.bind].
  destruct (Rlt_dec 5.0 0); [lra|]. f_equal. minmax; lra.
Qed.

Lemma temporal_naive_aware :
  Dedupe.temporal_similarity (Report.timestamp Samples.naive_report)
                             (Report.timestamp Samples.aware_report) = Py.Ok 1.
Proof.
  unfold Dedupe.temporal_similarity, Samples.naive_report, Samples.aware_report.
  cbn [Report.timestamp]. rewrite make_aware_sub. cbn [Py.bind].
  change (DT.instant _ - DT.instant _)%Z with 0%Z.
  unfold DT.total_seconds, Dedupe.temporal_threshold_minutes.
  replace (Rabs (0 / 1000000) / 60) with 0
    by (replace (0 / 1000000) with 0 by lra; rewrite Rabs_R0; lra).
  destruct (Rlt_dec 30 0); [lra|]. f_equal. minmax; lra.
Qed.

Lemma textual_same_text :
  Dedupe.textual_similarity (Report.text Samples.naive_report)
                            (Report.text Samples.aware_report) = 1.
Proof.
  unfold Dedupe.textual_similarity, Dedupe.jaccard_similarity,
    Samples.naive_report, Samples.aware_report. cbn [Report.text].
  change (Py.is_empty "flood warning" || Py.is_empty "flood warning") with false.
  cbn iota.
  change (Py.set_of (Dedupe._tokenize (Py.lower "flood warning")))
    with ["flood"; "warning"].
  change (Dedupe.is_nil ["flood"; "warning"]) with false. cbn [andb orb].
  change (List.length (Dedupe.intersection ["flood"; "warning"] ["flood"; "warning"]))
    with 2%nat.
  change (List.length (Dedupe.union ["flood"; "warning"] ["flood"; "warning"]))
    with 2%nat.
  cbn [Nat.ltb Nat.leb INR]. lra.
Qed.

(** The clusterer does raise when the new report has a naive timestamp and
    its best match an aware one: [temporal_similarity] makes both aware
    before it subtracts, the message of [find_duplicates] subtracts them as
    they are. *)
Lemma find_duplicates_mixed_timestamps :
  Dedupe.find_duplicates Samples.naive_report [Samples.aware_report]
  = Py.Raise Py.TypeError.
Proof.
  assert (Hc : Dedupe.combined_similarity Samples.naive_report Samples.aware_report
               = Py.Ok (1 * Dedupe.weight_spatial + 1 * Dedupe.weight_temporal
                        + 1 * Dedupe.weight_textual)).
  { unfold Dedupe.combined_similarity.
    rewrite temporal_naive_aware, textual_same_text.
    change (Report.lat Samples.aware_report) with (Report.lat Samples.naive_report).
    change (Report.lon Samples.aware_report) with (Report.lon Samples.naive_report).
    rewrite spatial_same_point. reflexivity. }
  unfold Dedupe.find_duplicates. cbn [Dedupe.is_nil Dedupe.scan].
  rewrite Hc. cbn [Py.bind].
  unfold Dedupe.combined_threshold, Dedupe.weight_spatial, Dedupe.weight_temporal,
    Dedupe.weight_textual.
  destruct (Rle_dec 0.6 (1 * 0.4 + 1 * 0.3 + 1 * 0.3)); [|lra].
  destruct (Rlt_dec 0.0 (1 * 0.4 + 1 * 0.3 + 1 * 0.3)); [|lra].
  cbn [Py.bind]. unfold Dedupe.explain.
  rewrite temporal_naive_aware.
  change (Report.lat Samples.aware_report) with (Report.lat Samples.naive_report).
  change (Report.lon Samples.aware_report) with (Report.lon Samples.naive_report).
  rewrite spatial_same_point, haversine_same_point. cbn [Py.bind].
  destruct (Rlt_dec 0.7 1); [|lra]. cbn [Py.bind]. reflexivity.
Qed.

(** A report whose group is [None], as the dictionary of a stored row
    whose group is NULL: the clusterer cannot number a new group beside
    it. *)
Lemma find_duplicates_null_group :
  Dedupe.find_duplicates
    Samples.flood_report
    [Report.mk 2 "" 0 0 None "citizen" "flood" 0.5 0.5 false false [] 0%Z None
               (Some None)]
  = Py.Raise Py.TypeError.
Proof.
  unfold Dedupe.find_duplicates. cbn [Dedupe.is_nil Dedupe.scan].
  unfold Dedupe.combined_similarity.
  cbn [Samples.flood_report Samples.report Report.lat Report.lon Report.timestamp
       Report.text].
  rewrite spatial_same_point.
  change (Dedupe.temporal_similarity None None) with (@Py.Ok R 0.5).
  change (Dedupe.textual_similarity "" "") with 0.0.
  cbn [Py.bind].
  unfold Dedupe.combined_threshold, Dedupe.weight_spatial, Dedupe.weight_temporal,
    Dedupe.weight_textual.
  destruct (Rle_dec 0.6 (1 * 0.4 + 0.5 * 0.3 + 0.0 * 0.3)); [lra|].
  reflexivity.
Qed.


(** ** Volume and confidence *)

Lemma ln_10_pos : 0 < ln 10.
Proof. rewrite <- ln_1. apply ln_increasing; lra. Qed.

Lemma log10_nonneg (x : R) : 1 <= x -> 0 <= Py.log10 x.
Proof.
  intros H. unfold Py.log10. pose proof ln_10_pos.
  assert (0 <= ln x).
  { destruct (Req_dec x 1) as [->|Hne]; [rewrite ln_1; lra|].
    rewrite <- ln_1. left. apply ln_increasing; lra. }
  apply Rmult_le_pos; [assumption|]. left. apply Rinv_0_lt_compat. assumption.
Qed.

Lemma log10_le (x y : R) : 0 < x -> x <= y -> Py.log10 x <= Py.log10 y.
Proof.
  intros Hx Hxy. unfold Py.log10. pose proof ln_10_pos.
  apply Rmult_le_compat_r; [left; apply Rinv_0_lt_compat; assumption|].
  destruct (Req_dec x y) as [->|Hne]; [lra|].
  left. apply ln_increasing; lra.
Qed.

Lemma Rmin_le_compat_r (z x y : R) : x <= y -> Rmin z x <= Rmin z y.
Proof. intros H. minmax; lra. Qed.

Lemma volume_factor_nonneg (n : nat) (source : string) :
  0 <= Fusion._calculate_volume_factor n source.
Proof.
  unfold Fusion._calculate_volume_factor.
  destruct (n <=? 0)%nat; [lra|].
  assert (Hl : 0 <= Py.log10 (INR n + 1)).
  { apply log10_nonneg. pose proof (pos_INR n). lra. }
  pose proof (sqrt_pos (INR n / 10)). pose proof (sqrt_pos (INR n / 5)).
  destruct (Py.mem_str source _); [minmax; lra|].
  destruct (String.eqb source "citizen"); [minmax; lra|].
  destruct (String.eqb source "social"); minmax; lra.
Qed.

Lemma volume_factor_monotone (n : nat) (source : string) :
  Fusion._calculate_volume_factor n source
  <= Fusion._calculate_volume_factor (S n) source.
Proof.
  destruct n as [|n].
  { assert (E : Fusion._calculate_volume_factor 0 source = 0)
      by (unfold Fusion._calculate_volume_factor; cbn [Nat.leb]; lra).
    rewrite E. apply volume_factor_nonneg. }
  unfold Fusion._calculate_volume_factor.
  change (S n <=? 0)%nat with false. change (S (S n) <=? 0)%nat with false.
  cbn iota.
  assert (Hi : INR (S n) <= INR (S (S n))) by (apply le_INR; lia).
  assert (Hp : 0 < INR (S n)) by (apply lt_0_INR; lia).
  assert (Hl : Py.log10 (INR (S n) + 1) <= Py.log10 (INR (S (S n)) + 1))
    by (apply log10_le; lra).
  assert (H10 : sqrt (INR (S n) / 10) <= sqrt (INR (S (S n)) / 10))
    by (apply sqrt_le_1_alt; lra).
  assert (H5 : sqrt (INR (S n) / 5) <= sqrt (INR (S (S n)) / 5))
    by (apply sqrt_le_1_alt; lra).
  destruct (Py.mem_str source _); [apply Rmin_le_compat_r; lra|].
  destruct (String.eqb source "citizen").
  { apply Rmin_le_compat_r.
    assert (Rmin 0.45 (0.1 * sqrt (INR (S n) / 10))
            <= Rmin 0.45 (0.1 * sqrt (INR (S (S n)) / 10)))
      by (apply Rmin_le_compat_r; lra).
    lra. }
  destruct (String.eqb source "social").
  { apply Rmin_le_compat_r.
    assert (Rmin 0.35 (0.08 * sqrt (INR (S n) / 5))
            <= Rmin 0.35 (0.08 * sqrt (INR (S (S n)) / 5)))
      by (apply Rmin_le_compat_r; lra).
    lra. }
  apply Rmin_le_compat_r; lra.
Qed.

Lemma source_weight_pos (source : string) : 0 < Py.get Fusion.source_weights source 0.3.
Proof.
  apply get_invariant; [|lra]. unfold Fusion.source_weights.
  repeat (constructor; [simpl; lra|]). constructor.
Qed.

(** The contribution of one source to the numerator of the base
    confidence. *)
Lemma source_totals_cons (source : string) (confs : list R)
      (rest : list (string * list R)) (tc tw : R) :
  Fusion.source_totals ((source, confs) :: rest) tc tw
  = Fusion.source_totals rest
      (tc + Dedupe.sum_R confs / INR (List.length confs)
            * Fusion._calculate_volume_factor (List.length confs) source
            * Py.get Fusion.source_weights source 0.3)
      (tw + Py.get Fusion.source_weights source 0.3).
Proof. reflexivity. Qed.

Lemma source_totals_shift (groups : list (string * list R)) :
  forall tc tw,
    fst (Fusion.source_totals groups tc tw)
    = tc + fst (Fusion.source_totals groups 0 0) /\
    snd (Fusion.source_totals groups tc tw)
    = tw + snd (Fusion.source_totals groups 0 0).
Proof.
  induction groups as [|[s l] groups IH]; intros tc tw.
  - simpl. split; lra.
  - rewrite !source_totals_cons.
    destruct (IH (tc + Dedupe.sum_R l / INR (List.length l)
                       * Fusion._calculate_volume_factor (List.length l) s
                       * Py.get Fusion.source_weights s 0.3)
                 (tw + Py.get Fusion.source_weights s 0.3)) as [-> ->].
    destruct (IH (0 + Dedupe.sum_R l / INR (List.length l)
                      * Fusion._calculate_volume_factor (List.length l) s
                      * Py.get Fusion.source_weights s 0.3)
                 (0 + Py.get Fusion.source_weights s 0.3)) as [-> ->].
    split; lra.
Qed.

Lemma source_totals_weight_pos (groups : list (string * list R)) :
  groups <> [] -> 0 < snd (Fusion.source_totals groups 0 0).
Proof.
  induction groups as [|[s l] groups IH]; [congruence|]. intros _.
  rewrite source_totals_cons.
  destruct (source_totals_shift groups
              (0 + Dedupe.sum_R l / INR (List.length l)
                   * Fusion._calculate_volume_factor (List.length l) s
                   * Py.get Fusion.source_weights s 0.3)
              (0 + Py.get Fusion.source_weights s 0.3)) as [_ ->].
  pose proof (source_weight_pos s).
  destruct groups as [|g groups']; [cbn [Fusion.source_totals snd]; lra|].
  assert (0 < snd (Fusion.source_totals (g :: groups') 0 0)) by (apply IH; discriminate).
  lra.
Qed.

Lemma source_totals_app (l1 l2 : list (string * list R)) :
  forall tc tw,
    Fusion.source_totals (l1 ++ l2) tc tw
    = Fusion.source_totals l2 (fst (Fusion.source_totals l1 tc tw))
                              (snd (Fusion.source_totals l1 tc tw)).
Proof.
  induction l1 as [|[s l] l1 IH]; intros tc tw; [reflexivity|].
  rewrite <- app_comm_cons, !source_totals_cons. apply IH.
Qed.

Lemma source_totals_split (l1 l2 : list (string * list R)) (s : string) (confs : list R) :
  fst (Fusion.source_totals (l1 ++ (s, confs) :: l2) 0 0)
  = fst (Fusion.source_totals l1 0 0) + Spec.contribution s confs
    + fst (Fusion.source_totals l2 0 0) /\
  snd (Fusion.source_totals (l1 ++ (s, confs) :: l2) 0 0)
  = snd (Fusion.source_totals l1 0 0) + Py.get Fusion.source_weights s 0.3
    + snd (Fusion.source_totals l2 0 0).
Proof.
  rewrite source_totals_app, source_totals_cons.
  match goal with
  | |- context [Fusion.source_totals l2 ?a ?b] =>
      destruct (source_totals_shift l2 a b) as [-> ->]
  end.
  unfold Spec.contribution. split; lra.
Qed.

Lemma append_to_split (groups : list (string * list R)) (s : string) (c : R) :
  In s (map fst groups) ->
  exists l1 confs l2,
    groups = (l1 ++ (s, confs) :: l2)%list /\
    ~ In s (map fst l1) /\
    Fusion.append_to groups s c = (l1 ++ (s, confs ++ [c]) :: l2)%list.
Proof.
  induction groups as [|[k l] groups IH]; simpl; [contradiction|].
  intros Hin. destruct (String.eqb k s) eqn:E.
  - apply String.eqb_eq in E. subst k.
    exists [], l, groups. simpl. auto.
  - apply String.eqb_neq in E. destruct Hin as [Hk|Hin]; [contradiction|].
    destruct (IH Hin) as (l1 & confs & l2 & -> & Hn & ->).
    exists ((k, l) :: l1), confs, l2. simpl. repeat split; try reflexivity.
    intros [H|H]; [congruence|contradiction].
Qed.

Lemma get_append_to (groups : list (string * list R)) (s : string) (c : R) (s' : string) :
  Py.get (Fusion.append_to groups s c) s' []
  = (Py.get groups s' [] ++ (if String.eqb s s' then [c] else []))%list.
Proof.
  induction groups as [|[k l] groups IH]; simpl.
  - destruct (String.eqb s s'); reflexivity.
  - destruct (String.eqb k s) eqn:E; simpl.
    + apply String.eqb_eq in E. subst k.
      destruct (String.eqb s s'); [reflexivity|rewrite app_nil_r; reflexivity].
    + destruct (String.eqb k s') eqn:E'; [|exact IH].
      apply String.eqb_eq in E'. subst k. rewrite String.eqb_sym, E.
      rewrite app_nil_r. reflexivity.
Qed.

Lemma append_to_keys (groups : list (string * list R)) (s : string) (c : R) (s' : string) :
  In s' (map fst (Fusion.append_to groups s c)) <-> In s' (map fst groups) \/ s' = s.
Proof.
  induction groups as [|[k l] groups IH]; simpl.
  - intuition congruence.
  - destruct (String.eqb k s) eqn:E; simpl.
    + apply String.eqb_eq in E. subst k. intuition congruence.
    + rewrite IH. tauto.
Qed.

Lemma collect_groups_snoc (reports : list Report.t) (r : Report.t) :
  fst (fst (Fusion.collect (reports ++ [r])))
  = Fusion.append_to (fst (fst (Fusion.collect reports)))
                     (Py.lower (Report.source r)) (Fusion.media_boosted_confidence r).
Proof.
  rewrite collect_snoc. unfold Fusion.collect_step.
  destruct (Fusion.collect reports) as [[g v] t]. reflexivity.
Qed.

Lemma collect_get (reports : list Report.t) (s : string) :
  Py.get (fst (fst (Fusion.collect reports))) s [] = Spec.confidences_of reports s.
Proof.
  induction reports as [|r reports IH] using rev_ind; [reflexivity|].
  rewrite collect_groups_snoc, get_append_to, IH.
  unfold Spec.confidences_of. rewrite filter_app, map_app. simpl.
  destruct (String.eqb (Py.lower (Report.source r)) s); reflexivity.
Qed.

Lemma collect_keys (reports : list Report.t) (x : Report.t) :
  In x reports -> In (Py.lower (Report.source x)) (map fst (fst (fst (Fusion.collect reports)))).
Proof.
  induction reports as [|r reports IH] using rev_ind; [contradiction|].
  intros Hin. rewrite collect_groups_snoc. apply append_to_keys.
  apply in_app_or in Hin. destruct Hin as [Hin|[<-|[]]]; auto.
Qed.

Lemma get_at_split {V : Type} (l1 l2 : list (string * V)) (s : string) (v default : V) :
  ~ In s (map fst l1) -> Py.get (l1 ++ (s, v) :: l2) s default = v.
Proof.
  induction l1 as [|[k v'] l1 IH]; simpl; intros Hn.
  - rewrite String.eqb_refl. reflexivity.
  - destruct (String.eqb k s) eqn:E.
    + apply String.eqb_eq in E. subst k. exfalso. auto.
    + apply IH. auto.
Qed.

Lemma sum_R_nonneg (l : list R) : Forall (fun x => 0 <= x) l -> 0 <= Dedupe.sum_R l.
Proof. induction 1; simpl; lra. Qed.

Lemma media_boosted_confidence_nonneg (r : Report.t) :
  0 <= Report.nlp_conf r -> 0 <= Report.credibility r ->
  0 <= Fusion.media_boosted_confidence r.
Proof.
  intros Hn Hc. unfold Fusion.media_boosted_confidence.
  assert (0 <= Report.nlp_conf r * Report.credibility r) by (apply Rmult_le_pos; assumption).
  destruct (_ && _); [minmax; lra|].
  destruct (Report.has_media r); [minmax; lra|lra].
Qed.

Lemma confidences_of_nonneg (reports : list Report.t) (s : string) :
  (forall x, In x reports -> 0 <= Report.nlp_conf x /\ 0 <= Report.credibility x) ->
  Forall (fun c => 0 <= c) (Spec.confidences_of reports s).
Proof.
  intros H. unfold Spec.confidences_of. apply Forall_forall. intros c Hc.
  apply in_map_iff in Hc. destruct Hc as [x [<- Hx]]. apply filter_In in Hx.
  destruct (H x (proj1 Hx)). apply media_boosted_confidence_nonneg; assumption.
Qed.

(** One more report whose confidence is at least the mean does not lower
    the contribution of its source. *)
Lemma contribution_monotone (s : string) (confs : list R) (c : R) :
  Forall (fun x => 0 <= x) confs ->
  Dedupe.sum_R confs / INR (List.length confs) <= c ->
  Spec.contribution s confs <= Spec.contribution s (confs ++ [c]).
Proof.
  intros Hpos Hmean. unfold Spec.contribution.
  rewrite length_app, sum_R_app. simpl List.length. rewrite Nat.add_1_r.
  pose proof (sum_R_nonneg confs Hpos) as Hs.
  pose proof (volume_factor_nonneg (List.length confs) s) as Hv0.
  pose proof (volume_factor_monotone (List.length confs) s) as Hv.
  pose proof (source_weight_pos s) as Hw.
  assert (Hc : Dedupe.sum_R [c] = c) by (simpl; lra). rewrite Hc.
  assert (Ha : 0 <= Dedupe.sum_R confs / INR (List.length confs) /\
               Dedupe.sum_R confs / INR (List.length confs)
               <= (Dedupe.sum_R confs + c) / INR (S (List.length confs))).
  { destruct confs as [|x confs'].
    - simpl in *. unfold Rdiv in *. rewrite Rmult_0_l in *. rewrite Rinv_1. lra.
    - set (S0 := Dedupe.sum_R (x :: confs')) in *.
      assert (Hn : 0 < INR (List.length (x :: confs'))) by (apply lt_0_INR; simpl; lia).
      rewrite (S_INR (List.length (x :: confs'))).
      set (m := INR (List.length (x :: confs'))) in *.
      split.
      + apply Rmult_le_pos; [lra|]. left. apply Rinv_0_lt_compat. lra.
      + apply (Rmult_le_reg_r (m * (m + 1))); [nra|].
        replace (S0 / m * (m * (m + 1))) with (S0 * (m + 1)) by (field; lra).
        replace ((S0 + c) / (m + 1) * (m * (m + 1))) with ((S0 + c) * m)
          by (field; lra).
        assert (S0 <= c * m).
        { apply (Rmult_le_compat_r m) in Hmean; [|lra].
          replace (S0 / m * m) with S0 in Hmean by (field; lra). lra. }
        lra. }
  destruct Ha as [Ha0 Ha].
  apply Rmult_le_compat_r; [lra|].
  apply Rmult_le_compat; lra.
Qed.

Lemma source_diversity_boost_nonneg (unique_sources : list string) (n : nat) (b : R) :
  Fusion._calculate_source_diversity_boost unique_sources n = Py.Ok b -> 0 <= b.
Proof.
  unfold Fusion._calculate_source_diversity_boost.
  destruct (Nat.eqb n 1); [intros H; injection H as <-; lra|].
  assert (G : forall b0, 1.5 <= b0 ->
            (boost <- Py.Ok b0 ;;
             Py.Ok (Rmin 3.0
               (let boost0 :=
                  if Py.mem_str "incois" unique_sources
                  then
                    let boost1 :=
                      if Py.mem_str "citizen" unique_sources then boost + 0.3 else boost in
                    if Py.mem_str "lora" unique_sources then boost1 + 0.4 else boost1
                  else boost in
                if Py.mem_str "lora" unique_sources && Py.mem_str "citizen" unique_sources
                then boost0 + 0.2 else boost0))) = Py.Ok b -> 0 <= b).
  { intros b0 Hb0. cbn [Py.bind]. cbv zeta. intros H. injection H as <-.
    destruct (Py.mem_str "incois" unique_sources),
             (Py.mem_str "citizen" unique_sources),
             (Py.mem_str "lora" unique_sources); cbn [andb]; minmax; lra. }
  destruct (Nat.eqb n 2); [apply G; lra|].
  destruct (Nat.eqb n 3); [apply G; lra|].
  destruct (4 <=? n)%nat; [apply G; lra|].
  cbn [Py.bind]. discriminate.
Qed.

Lemma media_evidence_boost_nonneg (v t : nat) :
  0 <= Fusion._calculate_media_evidence_boost v t.
Proof.
  unfold Fusion._calculate_media_evidence_boost.
  destruct (Nat.eqb t 0) eqn:E; [lra|]. apply Nat.eqb_neq in E.
  assert (0 <= INR v / INR t).
  { apply Rmult_le_pos; [apply pos_INR|].
    left. apply Rinv_0_lt_compat. apply lt_0_INR. lia. }
  destruct (3 <=? v)%nat; [minmax; nra|].
  destruct (2 <=? v)%nat; minmax; nra.
Qed.

(** The value of [calculate_weighted_confidence] on a non-empty list, read
    off the groups and the media counts of the first loop. *)
Lemma calculate_weighted_confidence_value (reports : list Report.t) :
  reports <> [] ->
  exists b,
    Fusion._calculate_source_diversity_boost
      (map fst (fst (fst (Fusion.collect reports))))
      (List.length (map fst (fst (fst (Fusion.collect reports))))) = Py.Ok b /\
    0 <= b /\
    Fusion.calculate_weighted_confidence reports
    = Py.Ok
        (Rmin (if (0 <? snd (fst (Fusion.collect reports)))%nat then 0.98 else 0.95)
              ((if Rlt_dec 0 (snd (Fusion.source_totals
                                     (fst (fst (Fusion.collect reports))) 0 0))
                then fst (Fusion.source_totals (fst (fst (Fusion.collect reports))) 0 0)
                     / snd (Fusion.source_totals (fst (fst (Fusion.collect reports))) 0 0)
                else 0.0)
               * b
               * Fusion._calculate_media_evidence_boost
                   (snd (fst (Fusion.collect reports)))
                   (snd (Fusion.collect reports)))).
Proof.
  intros Hne. unfold Fusion.calculate_weighted_confidence.
  rewrite (is_nil_false reports Hne).
  pose proof (collect_nonempty reports Hne) as Hg.
  destruct (Fusion.collect reports) as [[g v] t]. cbn [fst snd] in *.
  destruct (source_diversity_boost_ok (map fst g)) as [b Hb];
    [destruct g; [congruence|discriminate]|].
  exists b. split; [exact Hb|]. split; [eapply source_diversity_boost_nonneg; exact Hb|].
  replace 0.0 with 0 by lra.
  destruct (Fusion.source_totals g 0 0) as [tc tw]. cbn [fst snd].
  rewrite Hb. cbn [Py.bind]. reflexivity.
Qed.

(** C6, as amended.  For a group whose reports have non-negative
    confidences, appending one report of a source already present, which
    carries no media and whose confidence is at least the current mean
    confidence of the reports of that source, does not decrease the
    confidence computed by the next fuse step. *)
Theorem C6_monotone_volume (reports : list Report.t) (r : Report.t) :
  (forall x, In x reports -> 0 <= Report.nlp_conf x /\ 0 <= Report.credibility x) ->
  (exists x, In x reports /\ Py.lower (Report.source x) = Py.lower (Report.source r)) ->
  Report.has_media r = false ->
  Spec.source_mean reports (Py.lower (Report.source r))
  <= Fusion.media_boosted_confidence r ->
  exists c c',
    Fusion.calculate_weighted_confidence reports = Py.Ok c /\
    Fusion.calculate_weighted_confidence (reports ++ [r]) = Py.Ok c' /\
    c <= c'.
Proof.
  intros Hpos [x [Hx Hsrc]] Hmedia Hmean.
  assert (Hne : reports <> []) by (intros ->; contradiction).
  assert (Hne' : (reports ++ [r])%list <> []) by (destruct reports; discriminate).
  destruct (calculate_weighted_confidence_value reports Hne) as (b & Hb & Hb0 & ->).
  destruct (calculate_weighted_confidence_value (reports ++ [r]) Hne')
    as (b' & Hb' & _ & ->).
  do 2 eexists. split; [reflexivity|]. split; [reflexivity|].
  pose proof (collect_keys reports x Hx) as Hkey. rewrite Hsrc in Hkey.
  pose proof (collect_get reports (Py.lower (Report.source r))) as Hget.
  pose proof (collect_nonempty reports Hne) as Hg.
  pose proof (media_evidence_boost_nonneg
                (snd (fst (Fusion.collect reports))) (snd (Fusion.collect reports))) as Hm.
  revert Hb'. rewrite collect_snoc. unfold Fusion.collect_step.
  destruct (Fusion.collect reports) as [[g v] t]. cbn [fst snd] in *.
  rewrite Hmedia. cbn [andb fst snd].
  set (s := Py.lower (Report.source r)) in *.
  set (cr := Fusion.media_boosted_confidence r) in *.
  destruct (append_to_split g s cr Hkey) as (l1 & confs & l2 & Eg & Hn1 & ->).
  subst g. rewrite (get_at_split l1 l2 s confs [] Hn1) in Hget.
  rewrite !map_app in *. cbn [map fst] in *. rewrite Hb. intros Hb'.
  injection Hb' as <-.
  destruct (source_totals_split l1 l2 s confs) as [E1 E2].
  destruct (source_totals_split l1 l2 s (confs ++ [cr])) as [E1' E2'].
  pose proof (source_totals_weight_pos (l1 ++ (s, confs) :: l2)) as Hw.
  rewrite E2 in Hw. specialize (Hw Hg).
  rewrite E1, E2, E1', E2'.
  assert (Hc : Spec.contribution s confs <= Spec.contribution s (confs ++ [cr])).
  { apply contribution_monotone.
    - rewrite Hget. apply confidences_of_nonneg. exact Hpos.
    - unfold Spec.source_mean in Hmean. rewrite <- Hget in Hmean. exact Hmean. }
  destruct (Rlt_dec 0 _) as [_|Hf]; [|lra].
  apply Rmin_le_compat_r.
  apply Rmult_le_compat_r; [exact Hm|].
  apply Rmult_le_compat_r; [exact Hb0|].
  apply Rmult_le_compat_r; [left; apply Rinv_0_lt_compat; exact Hw|]. lra.
Qed.

Lemma source_mean_flood :
  Spec.source_mean [Samples.flood_report] (Py.lower (Report.source Samples.tsunami_report))
  <= Fusion.media_boosted_confidence Samples.tsunami_report.
Proof.
  unfold Spec.source_mean, Spec.confidences_of.
  change (filter _ _) with [Samples.flood_report].
  unfold Fusion.media_boosted_confidence, Samples.flood_report, Samples.tsunami_report,
    Samples.report.
  cbn [map Report.has_media Report.media_verified Report.nlp_conf Report.credibility
       andb Dedupe.sum_R List.length INR].
  lra.
Qed.

Lemma sample_confidences_nonneg :
  forall x, In x [Samples.flood_report] ->
            0 <= Report.nlp_conf x /\ 0 <= Report.credibility x.
Proof. intros x [<-|[]]. simpl. lra. Qed.

Lemma C6_monotone_volume_witness :
  (forall x, In x [Samples.flood_report] ->
             0 <= Report.nlp_conf x /\ 0 <= Report.credibility x) /\
  Report.has_media Samples.tsunami_report = false /\
  Spec.source_mean [Samples.flood_report] (Py.lower (Report.source Samples.tsunami_report))
  <= Fusion.media_boosted_confidence Samples.tsunami_report /\
  exists c c',
    Fusion.calculate_weighted_confidence [Samples.flood_report] = Py.Ok c /\
    Fusion.calculate_weighted_confidence ([Samples.flood_report] ++ [Samples.tsunami_report])
    = Py.Ok c' /\
    c <= c'.
Proof.
  split; [exact sample_confidences_nonneg|]. split; [reflexivity|].
  split; [exact source_mean_flood|].
  apply (C6_monotone_volume [Samples.flood_report] Samples.tsunami_report).
  - exact sample_confidences_nonneg.
  - exists Samples.flood_report. split; [left; reflexivity|reflexivity].
  - reflexivity.
  - exact source_mean_flood.
Defined.

Lemma media_boosted_verified :
  Fusion.media_boosted_confidence Samples.verified_report = 0.6.
Proof.
  unfold Fusion.media_boosted_confidence, Samples.verified_report, Samples.report.
  cbn [Report.has_media Report.media_verified Report.nlp_conf Report.credibility andb].
  minmax; lra.
Qed.

Lemma media_boosted_unverified :
  Fusion.media_boosted_confidence Samples.unverified_report = 0.6.
Proof.
  unfold Fusion.media_boosted_confidence, Samples.unverified_report, Samples.report.
  cbn [Report.has_media Report.media_verified Report.nlp_conf Report.credibility andb].
  minmax; lra.
Qed.

Lemma collect_verified :
  Fusion.collect [Samples.verified_report]
  = ([("incois", [Fusion.media_boosted_confidence Samples.verified_report])],
     1%nat, 1%nat).
Proof. reflexivity. Qed.

Lemma collect_verified_unverified :
  Fusion.collect [Samples.verified_report; Samples.unverified_report]
  = ([("incois", [Fusion.media_boosted_confidence Samples.verified_report;
                  Fusion.media_boosted_confidence Samples.unverified_report])],
     1%nat, 2%nat).
Proof. reflexivity. Qed.

Lemma log10_2_nonneg : 0 <= Py.log10 (1 + 1).
Proof. apply log10_nonneg. lra. Qed.

Lemma log10_3_le_1 : Py.log10 (1 + 1 + 1) <= 1.
Proof.
  unfold Py.log10. pose proof ln_10_pos.
  apply (Rmult_le_reg_r (ln 10)); [assumption|].
  replace (ln (1 + 1 + 1) / ln 10 * ln 10) with (ln (1 + 1 + 1)) by (field; lra).
  rewrite Rmult_1_l. left. apply ln_increasing; lra.
Qed.

(** The confidence of the verified report alone is at least 0.864, and with
    the unverified report added it is at most 0.81. *)
Lemma confidence_verified_alone :
  exists c, Fusion.calculate_weighted_confidence [Samples.verified_report] = Py.Ok c /\
            0.864 <= c.
Proof.
  destruct (calculate_weighted_confidence_value [Samples.verified_report])
    as (b & Hb & _ & ->); [discriminate|].
  eexists. split; [reflexivity|]. revert Hb.
  rewrite collect_verified, media_boosted_verified. cbn [fst snd map List.length].
  unfold Fusion._calculate_source_diversity_boost. cbn [Nat.eqb].
  intros Hb. injection Hb as <-.
  rewrite source_totals_cons. cbn [Fusion.source_totals fst snd].
  unfold Fusion._calculate_media_evidence_boost, Fusion._calculate_volume_factor.
  cbn [Nat.eqb Nat.leb Nat.ltb List.length Dedupe.sum_R INR].
  change (Py.mem_str "incois" ["incois"; "lora"]) with true. cbn iota.
  assert (Ew : Py.get Fusion.source_weights "incois" 0.3 = 0.9) by reflexivity.
  rewrite Ew. pose proof log10_2_nonneg as Hl.
  destruct (Rlt_dec 0 (0 + 0.9)); [|lra].
  set (L := Py.log10 (1 + 1)) in *.
  assert (Hv : 0.8 <= Rmin 1.0 (0.8 + 0.1 * L)) by (minmax; lra).
  set (V := Rmin 1.0 (0.8 + 0.1 * L)) in *.
  assert (Hm : Rmin 2.5 (1.2 * (1.0 + 1 / 1 * 0.5) * 1.0) = 1.8) by (minmax; lra).
  rewrite Hm.
  replace ((0 + (0.6 + 0) / 1 * V * 0.9) / (0 + 0.9) * 1.0 * 1.8) with (1.08 * V)
    by lra.
  minmax; lra.
Qed.

Lemma confidence_verified_unverified :
  exists c,
    Fusion.calculate_weighted_confidence
      [Samples.verified_report; Samples.unverified_report] = Py.Ok c /\
    c <= 0.81.
Proof.
  destruct (calculate_weighted_confidence_value
              [Samples.verified_report; Samples.unverified_report])
    as (b & Hb & _ & ->); [discriminate|].
  eexists. split; [reflexivity|]. revert Hb.
  rewrite collect_verified_unverified, media_boosted_verified, media_boosted_unverified.
  cbn [fst snd map List.length].
  unfold Fusion._calculate_source_diversity_boost. cbn [Nat.eqb].
  intros Hb. injection Hb as <-.
  rewrite source_totals_cons. cbn [Fusion.source_totals fst snd].
  unfold Fusion._calculate_media_evidence_boost, Fusion._calculate_volume_factor.
  cbn [Nat.eqb Nat.leb Nat.ltb List.length Dedupe.sum_R INR].
  change (Py.mem_str "incois" ["incois"; "lora"]) with true. cbn iota.
  assert (Ew : Py.get Fusion.source_weights "incois" 0.3 = 0.9) by reflexivity.
  rewrite Ew. pose proof log10_3_le_1 as Hl.
  destruct (Rlt_dec 0 (0 + 0.9)); [|lra].
  set (L := Py.log10 (1 + 1 + 1)) in *.
  assert (Hv : Rmin 1.0 (0.8 + 0.1 * L) <= 0.9) by (minmax; lra).
  set (V := Rmin 1.0 (0.8 + 0.1 * L)) in *.
  assert (Hm : Rmin 2.5 (1.2 * (1.0 + 1 / (1 + 1) * 0.5) * 1.0) = 1.5) by (minmax; lra).
  rewrite Hm.
  replace ((0 + (0.6 + (0.6 + 0)) / (1 + 1) * V * 0.9) / (0 + 0.9) * 1.0 * 1.5)
    with (0.9 * V) by lra.
  minmax; lra.
Qed.

(** C6, the claim as stated fails: to one report of the official source with
    a verified image, of confidence 0.6, add a second report of the same
    source with an unverified image, also of confidence 0.6; the fused
    confidence falls from at least 0.864 to at most 0.81. *)
Lemma C6_counterexample :
  Py.lower (Report.source Samples.unverified_report)
  = Py.lower (Report.source Samples.verified_report) /\
  Fusion.media_boosted_confidence Samples.verified_report = 0.6 /\
  Fusion.media_boosted_confidence Samples.unverified_report = 0.6 /\
  exists c c',
    Fusion.calculate_weighted_confidence [Samples.verified_report] = Py.Ok c /\
    Fusion.calculate_weighted_confidence
      ([Samples.verified_report] ++ [Samples.unverified_report]) = Py.Ok c' /\
    c' < c.
Proof.
  split; [reflexivity|].
  split; [exact media_boosted_verified|]. split; [exact media_boosted_unverified|].
  destruct confidence_verified_alone as (c & Hc & Hlo).
  destruct confidence_verified_unverified as (c' & Hc' & Hhi).
  exists c, c'. split; [exact Hc|]. split; [exact Hc'|]. lra.
Qed.

Lemma sample_severity_weight :
  Dedupe.sum_R (map Fusion.severity_weight [Samples.flood_report]) <> 0.
Proof.
  unfold Fusion.severity_weight, Samples.flood_report, Samples.report.
  cbn [map Report.source Report.credibility Dedupe.sum_R].
  change (Py.lower "citizen") with "citizen". eval_tables. lra.
Qed.






(** ** The pipeline *)

Lemma attr_hazard_type_override :
  Ingest.attr_hazard_type Ingest.emergency_override = Py.Raise Py.AttributeError.
Proof. reflexivity. Qed.

Lemma classify_emergency (report : Models.RawReport) (is_emergency : bool) :
  is_emergency = true \/ Models.source report = "lora_sos" ->
  Ingest.classify report is_emergency = Ingest.emergency_override.
Proof.
  intros H. unfold Ingest.classify.
  destruct H as [-> | ->]; [reflexivity|].
  rewrite String.eqb_refl, orb_true_r. reflexivity.
Qed.

Lemma classify_and_group_emergency (float_str : R -> string) (now : Z)
      (d : Models.db) (report : Models.RawReport) (is_emergency : bool) :
  is_emergency = true \/ Models.source report = "lora_sos" ->
  exists e, Ingest.classify_and_group float_str now d report is_emergency
            = Py.Raise e.
Proof.
  intros H. unfold Ingest.classify_and_group.
  rewrite (classify_emergency report is_emergency H), attr_hazard_type_override.
  destruct (Credibility.calculate_credibility _ _ _ _ _ _ _ _ _ _);
    cbn [Py.bind]; eauto.
Qed.

(** C4, the code at the failing input.  When the source of an unprocessed
    report is "lora_sos", or the caller flags an emergency, the override
    binds a dictionary with the keys hazard_type, confidence and
    keywords_found, and no severity boost; reading its [hazard_type]
    attribute raises AttributeError, so [process_single_report] returns
    False and leaves the store as it was, the report unprocessed. *)
Theorem C4_emergency_override_aborts
        (float_repr : R -> string) (isoformat : DT.datetime -> string)
        (float_str : R -> string) (now report_id : Z) (d : Models.db)
        (report : Models.RawReport) (is_emergency : bool) :
  find (fun r => Z.eqb (Models.id r) report_id) (Models.raw_reports d) = Some report ->
  Models.processed report = false ->
  is_emergency = true \/ Models.source report = "lora_sos" ->
  Ingest.classify report is_emergency
  = Ingest.NlpDict [ ("hazard_type", Json.Str "emergency");
                     ("confidence", Json.Float 0.99);
                     ("keywords_found",
                      Json.List [Json.Str "sos"; Json.Str "emergency"]) ] /\
  Ingest.attr_hazard_type (Ingest.classify report is_emergency)
  = Py.Raise Py.AttributeError /\
  Ingest.process_single_report float_repr isoformat float_str now report_id d is_emergency
  = (d, false).
Proof.
  intros Hfind Hproc Hem.
  rewrite (classify_emergency report is_emergency Hem).
  split; [reflexivity|]. split; [reflexivity|].
  unfold Ingest.process_single_report. rewrite Hfind, Hproc.
  destruct (classify_and_group_emergency float_str now d report is_emergency Hem)
    as [e ->].
  reflexivity.
Qed.

Lemma C4_emergency_override_aborts_witness :
  Ingest.classify Samples.sos_row false
  = Ingest.NlpDict [ ("hazard_type", Json.Str "emergency");
                     ("confidence", Json.Float 0.99);
                     ("keywords_found",
                      Json.List [Json.Str "sos"; Json.Str "emergency"]) ] /\
  Ingest.attr_hazard_type (Ingest.classify Samples.sos_row false)
  = Py.Raise Py.AttributeError /\
  Ingest.process_single_report Samples.float_repr Samples.isoformat Samples.float_str
                               0 7 Samples.sos_db false
  = (Samples.sos_db, false).
Proof.
  apply (C4_emergency_override_aborts
           Samples.float_repr Samples.isoformat Samples.float_str
           0%Z 7%Z Samples.sos_db Samples.sos_row false).
  - reflexivity.
  - reflexivity.
  - right. reflexivity.
Defined.

Lemma process_group_fusion_value
      (float_repr : R -> string) (isoformat : DT.datetime -> string)
      (now : Z) (group_id : option Z) (d : Models.db)
      (group_stats : option Dedupe.GroupStats) (fusion_result : Fusion.FusionResult) :
  filter (Ingest.in_group group_id) (Models.raw_reports d) <> [] ->
  Dedupe.get_group_statistics
    (map Ingest.fusion_dict (filter (Ingest.in_group group_id) (Models.raw_reports d)))
  = Py.Ok group_stats ->
  Fusion.fuse_reports float_repr isoformat
    (map Ingest.fusion_dict (filter (Ingest.in_group group_id) (Models.raw_reports d)))
    group_stats
  = Py.Ok fusion_result ->
  Ingest._process_group_fusion float_repr isoformat now group_id d
  = match Ingest.first_match group_id (Models.hazard_events d) with
    | Some existing_event =>
        (Models.mkdb (Models.raw_reports d)
                     (Ingest.replace_event
                        (Ingest.update_event now fusion_result existing_event)
                        (Models.hazard_events d)),
         Ingest.Fused fusion_result (Models.event_id existing_event) "updated")
    | None =>
        (Models.mkdb (Models.raw_reports d)
                     (Models.hazard_events d
                      ++ [Ingest.new_event now fusion_result
                                           (Ingest.next_event_id (Models.hazard_events d))]),
         Ingest.Fused fusion_result (Ingest.next_event_id (Models.hazard_events d))
                      "created")
    end.
Proof.
  intros Hne Hstats Hfuse. unfold Ingest._process_group_fusion.
  rewrite (is_nil_false _ Hne). unfold Ingest.fuse_and_upsert.
  rewrite Hstats. cbn [Py.bind]. rewrite Hfuse. cbn [Py.bind].
  destruct (Ingest.first_match group_id (Models.hazard_events d)); reflexivity.
Qed.

(** A pass that returns a fusion result has fused the rows of the group. *)
Lemma process_group_fusion_fused
      (float_repr : R -> string) (isoformat : DT.datetime -> string)
      (now : Z) (group_id : option Z) (d d' : Models.db)
      (fusion_result : Fusion.FusionResult) (event_id : Z) (action : string) :
  Ingest._process_group_fusion float_repr isoformat now group_id d
  = (d', Ingest.Fused fusion_result event_id action) ->
  exists group_stats,
    filter (Ingest.in_group group_id) (Models.raw_reports d) <> [] /\
    Dedupe.get_group_statistics
      (map Ingest.fusion_dict (filter (Ingest.in_group group_id) (Models.raw_reports d)))
    = Py.Ok group_stats /\
    Fusion.fuse_reports float_repr isoformat
      (map Ingest.fusion_dict (filter (Ingest.in_group group_id) (Models.raw_reports d)))
      group_stats
    = Py.Ok fusion_result.
Proof.
  unfold Ingest._process_group_fusion.
  destruct (filter (Ingest.in_group group_id) (Models.raw_reports d)) as [|r0 rows] eqn:Er;
    [cbn [Dedupe.is_nil]; discriminate|].
  cbn [Dedupe.is_nil]. unfold Ingest.fuse_and_upsert.
  destruct (Dedupe.get_group_statistics (map Ingest.fusion_dict (r0 :: rows)))
    as [stats|e] eqn:Es; cbn [Py.bind]; [|discriminate].
  destruct (Fusion.fuse_reports float_repr isoformat
              (map Ingest.fusion_dict (r0 :: rows)) stats) as [fr|e] eqn:Ef;
    cbn [Py.bind]; [|discriminate].
  intros H. exists stats. split; [discriminate|]. split; [reflexivity|].
  destruct (Ingest.first_match group_id (Models.hazard_events d));
    injection H as _ <- _ _; exact Ef.
Qed.

Lemma determine_status_values (confidence : R) (hazard_type : string) (has_lora : bool) :
  In (Fusion.determine_status confidence hazard_type has_lora)
     ["emergency"; "confirmed"; "pending"; "review"].
Proof.
  unfold Fusion.determine_status.
  destruct (has_lora || String.eqb hazard_type "emergency"); [simpl; auto|].
  destruct (Rle_dec _ _);
    [destruct (Py.mem_str hazard_type _); simpl; auto|].
  destruct (Rle_dec _ _); [simpl; auto|].
  destruct (Rle_dec _ _); simpl; auto.
Qed.

Lemma fuse_reports_status (float_repr : R -> string) (isoformat : DT.datetime -> string)
      (reports : list Report.t) (group_stats : option Dedupe.GroupStats)
      (fusion_result : Fusion.FusionResult) :
  Fusion.fuse_reports float_repr isoformat reports group_stats = Py.Ok fusion_result ->
  In (Fusion.status fusion_result) ["emergency"; "confirmed"; "pending"; "review"].
Proof.
  unfold Fusion.fuse_reports. destruct (Dedupe.is_nil reports); [discriminate|].
  destruct (Fusion.calculate_weighted_confidence reports) as [c|]; [|discriminate].
  destruct (Fusion.calculate_weighted_severity reports) as [s|]; [|discriminate].
  cbn [Py.bind]. destruct (Fusion.calculate_centroid reports).
  intros H. injection H as <-. cbn [Fusion.status]. apply determine_status_values.
Qed.

Lemma replace_event_status (e' : Models.HazardEvent) (events : list Models.HazardEvent) :
  forall e, In e (Ingest.replace_event e' events) ->
            Models.event_id e = Models.event_id e' -> e = e'.
Proof.
  intros e Hin Hid. unfold Ingest.replace_event in Hin.
  apply in_map_iff in Hin. destruct Hin as [x [Hx _]].
  destruct (Z.eqb (Models.event_id x) (Models.event_id e')) eqn:E; [congruence|].
  subst x. apply Z.eqb_neq in E. contradiction.
Qed.

Lemma replace_event_present (e' : Models.HazardEvent) (events : list Models.HazardEvent) :
  (exists e, In e events /\ Models.event_id e = Models.event_id e') ->
  In e' (Ingest.replace_event e' events).
Proof.
  intros [e [Hin Hid]]. unfold Ingest.replace_event. apply in_map_iff.
  exists e. split; [|exact Hin]. rewrite Hid, Z.eqb_refl. reflexivity.
Qed.

Lemma replace_event_ids (e' : Models.HazardEvent) (events : list Models.HazardEvent) :
  map Models.event_id (Ingest.replace_event e' events) = map Models.event_id events.
Proof.
  unfold Ingest.replace_event. rewrite map_map. apply map_ext_in.
  intros e _. destruct (Z.eqb (Models.event_id e) (Models.event_id e')) eqn:E;
    [apply Z.eqb_eq in E; congruence|reflexivity].
Qed.

Lemma validate_hazard_status (now hazard_id : Z) (decision : string)
      (d d' : Models.db) :
  App.validate_hazard now hazard_id (Some decision) d = Py.Ok d' ->
  Models.raw_reports d' = Models.raw_reports d /\
  (exists e, In e (Models.hazard_events d') /\ Models.event_id e = hazard_id) /\
  forall e, In e (Models.hazard_events d') -> Models.event_id e = hazard_id ->
            Models.status e = decision.
Proof.
  unfold App.validate_hazard.
  destruct (find _ (Models.hazard_events d)) as [hazard|] eqn:Ef; [|discriminate].
  apply find_some in Ef. destruct Ef as [Hin Hid]. apply Z.eqb_eq in Hid.
  intros H. injection H as <-. cbn [Models.raw_reports Models.hazard_events].
  set (updated := if String.eqb decision "approved" then _ else _).
  assert (Hu : Models.event_id updated = hazard_id /\ Models.status updated = decision).
  { subst updated. destruct (String.eqb decision "approved");
      [|destruct (String.eqb decision "rejected")]; split; assumption || reflexivity. }
  destruct Hu as [Hu1 Hu2].
  split; [reflexivity|]. split.
  - exists updated. split; [|exact Hu1].
    apply replace_event_present. exists hazard. split; [exact Hin|congruence].
  - intros e He Heid.
    rewrite (replace_event_status updated _ e He) by congruence. exact Hu2.
Qed.

(** C1, as amended.  After the administrator hook has set the status of an
    event to "approved" or "rejected", a fusion pass over the group whose
    lookup finds that event, and which fuses the group's reports, writes the
    status computed by [determine_status] into the event: the new status is
    one of "emergency", "confirmed", "pending" and "review", so it is no
    longer the administrator's decision.  Nothing pins the status. *)
Theorem C1_fusion_overwrites_validated_status
        (float_repr : R -> string) (isoformat : DT.datetime -> string)
        (now now' hazard_id : Z) (group_id : option Z) (decision : string)
        (d0 d d' : Models.db) (existing_event : Models.HazardEvent)
        (fusion_result : Fusion.FusionResult) (event_id : Z) (action : string) :
  decision = "approved" \/ decision = "rejected" ->
  App.validate_hazard now hazard_id (Some decision) d0 = Py.Ok d ->
  Ingest.first_match group_id (Models.hazard_events d) = Some existing_event ->
  Models.event_id existing_event = hazard_id ->
  Ingest._process_group_fusion float_repr isoformat now' group_id d
  = (d', Ingest.Fused fusion_result event_id action) ->
  Models.status existing_event = decision /\
  event_id = hazard_id /\
  action = "updated" /\
  (exists e, In e (Models.hazard_events d') /\ Models.event_id e = hazard_id) /\
  (forall e, In e (Models.hazard_events d') -> Models.event_id e = hazard_id ->
     Models.status e = Fusion.status fusion_result /\
     In (Models.status e) ["emergency"; "confirmed"; "pending"; "review"] /\
     Models.status e <> decision).
Proof.
  intros Hdec Hval Hfirst Hid Hpass.
  destruct (validate_hazard_status now hazard_id decision d0 d Hval) as (_ & _ & Hst).
  pose proof (find_some _ _ Hfirst) as [Hin _].
  split; [apply Hst; assumption|].
  destruct (process_group_fusion_fused float_repr isoformat now' group_id d d'
              fusion_result event_id action Hpass) as (stats & Hne & Hstats & Hfuse).
  rewrite (process_group_fusion_value float_repr isoformat now' group_id d stats
             fusion_result Hne Hstats Hfuse), Hfirst in Hpass.
  injection Hpass as <- <- <-.
  split; [exact Hid|]. split; [reflexivity|].
  cbn [Models.hazard_events].
  pose proof (fuse_reports_status _ _ _ _ _ Hfuse) as Hfour.
  split.
  - exists (Ingest.update_event now' fusion_result existing_event).
    split; [|exact Hid].
    apply replace_event_present. exists existing_event. split; [exact Hin|reflexivity].
  - intros e He Heid.
    rewrite (replace_event_status _ _ e He) by (cbn [Ingest.update_event Models.event_id]; congruence).
    cbn [Ingest.update_event Models.status].
    split; [reflexivity|]. split; [exact Hfour|].
    intros Heq. rewrite Heq in Hfour.
    destruct Hdec as [-> | ->]; simpl in Hfour;
      repeat (destruct Hfour as [Hfour|Hfour]; [discriminate|]); contradiction.
Qed.

(** ** Runs of the pipeline on the samples *)

Lemma or_half_half : Ingest.or_half (Some 0.5) = 0.5.
Proof. unfold Ingest.or_half. destruct (Req_dec_T 0.5 0); lra. Qed.

Lemma sample_rows_weight (t0 : DT.datetime) (rows : list Models.RawReport) :
  rows <> [] ->
  Forall (Spec.sample_like t0) rows ->
  Dedupe.sum_R (map Fusion.severity_weight (map Ingest.fusion_dict rows)) <> 0.
Proof.
  intros Hne H.
  enough (0 < Dedupe.sum_R (map Fusion.severity_weight (map Ingest.fusion_dict rows)))
    by lra.
  induction H as [|r rows (Hs & _ & Hc & _) H IH]; [congruence|].
  cbn [map Dedupe.sum_R].
  assert (E : Fusion.severity_weight (Ingest.fusion_dict r) = 0.3).
  { unfold Fusion.severity_weight, Ingest.fusion_dict.
    cbn [Report.source Report.credibility]. rewrite Hs, Hc, or_half_half.
    change (Py.lower "citizen") with "citizen". eval_tables. lra. }
  rewrite E. destruct rows as [|r' rows']; [simpl; lra|].
  assert (0 < Dedupe.sum_R
                (map Fusion.severity_weight (map Ingest.fusion_dict (r' :: rows'))))
    by (apply IH; discriminate).
  lra.
Qed.

(** The evidence blob depends on the printing functions only through the
    floats and the timestamps that it prints. *)
Lemma create_evidence_json_ext
      (f f' : R -> string) (i i' : DT.datetime -> string)
      (reports : list Report.t) (group_stats : option Dedupe.GroupStats) :
  (forall r, In r reports ->
     f (Report.nlp_conf r) = f' (Report.nlp_conf r) /\
     f (Report.credibility r) = f' (Report.credibility r)) ->
  (forall st, group_stats = Some st ->
     Fusion.iso_or_null i (Dedupe.earliest_time st)
     = Fusion.iso_or_null i' (Dedupe.earliest_time st) /\
     Fusion.iso_or_null i (Dedupe.latest_time st)
     = Fusion.iso_or_null i' (Dedupe.latest_time st)) ->
  Fusion.create_evidence_json f i reports group_stats
  = Fusion.create_evidence_json f' i' reports group_stats.
Proof.
  intros Hf Hi. unfold Fusion.create_evidence_json, Fusion.evidence.
  assert (E1 : Fusion.iso_or_null i
                 match group_stats with
                 | Some st => Dedupe.earliest_time st
                 | None => None
                 end
               = Fusion.iso_or_null i'
                   match group_stats with
                   | Some st => Dedupe.earliest_time st
                   | None => None
                   end)
    by (destruct group_stats as [st|]; [apply (Hi st eq_refl)|reflexivity]).
  assert (E2 : Fusion.iso_or_null i
                 match group_stats with
                 | Some st => Dedupe.latest_time st
                 | None => None
                 end
               = Fusion.iso_or_null i'
                   match group_stats with
                   | Some st => Dedupe.latest_time st
                   | None => None
                   end)
    by (destruct group_stats as [st|]; [apply (Hi st eq_refl)|reflexivity]).
  rewrite E1, E2.
  cbn [Json.dumps map fst snd].
  assert (E3 : map (Json.dumps f) (map (fun r => Json.Float (Report.nlp_conf r)) reports)
               = map (Json.dumps f')
                     (map (fun r => Json.Float (Report.nlp_conf r)) reports)).
  { rewrite !map_map. apply map_ext_in. intros r Hr. apply (Hf r Hr). }
  assert (E4 : map (Json.dumps f)
                   (map (fun r => Json.Float (Report.credibility r)) reports)
               = map (Json.dumps f')
                     (map (fun r => Json.Float (Report.credibility r)) reports)).
  { rewrite !map_map. apply map_ext_in. intros r Hr. apply (Hf r Hr). }
  rewrite E3, E4.
  assert (E5 : forall l : list Z,
             map (Json.dumps f) (map Json.Int l) = map (Json.dumps f') (map Json.Int l))
    by (intros l; rewrite !map_map; reflexivity).
  assert (E6 : forall l : list string,
             map (Json.dumps f) (map Json.Str l) = map (Json.dumps f') (map Json.Str l))
    by (intros l; rewrite !map_map; reflexivity).
  assert (E7 : forall l : list (string * Z),
             map (fun kv => Json.quote (fst kv) ++ ": " ++ Json.dumps f (snd kv))
                 (map (fun kv => (fst kv, Json.Int (snd kv))) l)
             = map (fun kv => Json.quote (fst kv) ++ ": " ++ Json.dumps f' (snd kv))
                   (map (fun kv => (fst kv, Json.Int (snd kv))) l))
    by (intros l; rewrite !map_map; reflexivity).
  rewrite !map_map in *.
  assert (E8 : forall t, Json.dumps f (Fusion.iso_or_null i' t)
                         = Json.dumps f' (Fusion.iso_or_null i' t))
    by (intros [t|]; reflexivity).
  rewrite !E8.
  reflexivity.
Qed.

Lemma sample_pass (f : R -> string) (i : DT.datetime -> string)
      (now : Z) (g : option Z) (d : Models.db) (st : option Dedupe.GroupStats) :
  f 0.5 = "0.5" ->
  i Samples.t0 = "2025-01-01T10:00:00" ->
  filter (Ingest.in_group g) (Models.raw_reports d) <> [] ->
  Forall (Spec.sample_like Samples.t0) (filter (Ingest.in_group g) (Models.raw_reports d)) ->
  Dedupe.get_group_statistics
    (map Ingest.fusion_dict (filter (Ingest.in_group g) (Models.raw_reports d)))
  = Py.Ok st ->
  (forall s, st = Some s ->
     Dedupe.earliest_time s = Some Samples.t0 /\ Dedupe.latest_time s = Some Samples.t0) ->
  exists fusion_result c,
    Fusion.evidence_json fusion_result
    = Fusion.create_evidence_json
        Samples.float_repr Samples.isoformat
        (map Ingest.fusion_dict (filter (Ingest.in_group g) (Models.raw_reports d))) st /\
    Fusion.calculate_weighted_confidence
      (map Ingest.fusion_dict (filter (Ingest.in_group g) (Models.raw_reports d)))
    = Py.Ok c /\
    Fusion.status fusion_result
    = Fusion.determine_status
        c
        (Fusion.determine_consensus_hazard_type
           (map Ingest.fusion_dict (filter (Ingest.in_group g) (Models.raw_reports d))))
        (existsb (fun r => String.eqb (Py.lower (Report.source r)) "lora")
           (map Ingest.fusion_dict (filter (Ingest.in_group g) (Models.raw_reports d)))) /\
    Ingest._process_group_fusion f i now g d
    = match Ingest.first_match g (Models.hazard_events d) with
      | Some existing_event =>
          (Models.mkdb (Models.raw_reports d)
                       (Ingest.replace_event
                          (Ingest.update_event now fusion_result existing_event)
                          (Models.hazard_events d)),
           Ingest.Fused fusion_result (Models.event_id existing_event) "updated")
      | None =>
          (Models.mkdb (Models.raw_reports d)
                       (Models.hazard_events d
                        ++ [Ingest.new_event now fusion_result
                              (Ingest.next_event_id (Models.hazard_events d))]),
           Ingest.Fused fusion_result (Ingest.next_event_id (Models.hazard_events d))
                        "created")
      end.
Proof.
  intros Hf Hi Hne Hrows Hst Htime.
  set (rows := filter (Ingest.in_group g) (Models.raw_reports d)) in *.
  assert (Hdata : map Ingest.fusion_dict rows <> [])
    by (destruct rows; [congruence|discriminate]).
  destruct (fuse_reports_ok f i (map Ingest.fusion_dict rows) st Hdata
              (sample_rows_weight Samples.t0 rows Hne Hrows))
    as (c & s & Hc & _ & Hfuse).
  match type of Hfuse with _ = Py.Ok ?fr => exists fr end. exists c.
  split; [|split; [exact Hc|split;
             [reflexivity
             |apply (process_group_fusion_value f i now g d st _ Hne Hst Hfuse)]]].
  cbn [Fusion.evidence_json].
  apply create_evidence_json_ext.
  - intros r Hr. apply in_map_iff in Hr. destruct Hr as [row [<- Hrow]].
    rewrite Forall_forall in Hrows. destruct (Hrows row Hrow) as (_ & Hn & Hcr & _).
    unfold Ingest.fusion_dict. cbn [Report.nlp_conf Report.credibility].
    rewrite Hn, Hcr, or_half_half. unfold Samples.float_repr. split; exact Hf.
  - intros s0 Hs0. destruct (Htime s0 Hs0) as [-> ->].
    unfold Fusion.iso_or_null, Samples.isoformat. rewrite Hi. split; reflexivity.
Qed.

(** C2, the code at a failing input.  Group 3 holds report 4 and has no
    event: the first fusion pass creates event 1.  Report 5 joins group 3:
    the second pass over group 3 looks for an event whose evidence has the
    text "3"; the evidence of event 1 (one report, id 4, floats 0.5, the
    text "flood", sent 2025-01-01T10:00:00) has no "3", so the pass creates
    event 2 for the same group. *)
Theorem C2_second_event_for_same_group
        (float_repr : R -> string) (isoformat : DT.datetime -> string) (now : Z) :
  float_repr 0.5 = "0.5" ->
  isoformat Samples.t0 = "2025-01-01T10:00:00" ->
  exists d1 fr1 d2 fr2,
    Ingest._process_group_fusion float_repr isoformat now (Some 3%Z) Samples.one_report_db
    = (d1, Ingest.Fused fr1 1 "created") /\
    Ingest.first_match (Some 3%Z) (Models.hazard_events d1) = None /\
    Ingest._process_group_fusion float_repr isoformat now (Some 3%Z)
      (Samples.add_report (Samples.row 5 "flood" 3) d1)
    = (d2, Ingest.Fused fr2 2 "created") /\
    map Models.event_id (Models.hazard_events d2) = [1%Z; 2%Z].
Proof.
  intros Hf Hi.
  edestruct (sample_pass float_repr isoformat now (Some 3%Z) Samples.one_report_db)
    as (fr1 & c1 & Hev1 & _ & _ & Hp1);
    [exact Hf|exact Hi|discriminate
    |repeat constructor|reflexivity|intros s Hs; injection Hs as <-; split; reflexivity|].
  change (Ingest.first_match (Some 3%Z) (Models.hazard_events Samples.one_report_db))
    with (@None Models.HazardEvent) in Hp1.
  cbv beta iota in Hp1.
  change (Ingest.next_event_id (Models.hazard_events Samples.one_report_db))
    with 1%Z in Hp1.
  match type of Hp1 with _ = (?d, _) => set (d1 := d) in * end.
  assert (Hnone : Ingest.first_match (Some 3%Z) (Models.hazard_events d1) = None).
  { subst d1. cbn [Models.hazard_events Samples.one_report_db app].
    unfold Ingest.first_match. cbn [find].
    unfold Ingest.matches_group. cbn [Ingest.new_event Models.evidence_json].
    rewrite Hev1. lazy. reflexivity. }
  edestruct (sample_pass float_repr isoformat now (Some 3%Z)
                         (Samples.add_report (Samples.row 5 "flood" 3) d1))
    as (fr2 & c2 & Hev2 & _ & _ & Hp2);
    [exact Hf|exact Hi|discriminate
    |repeat constructor|reflexivity|intros s Hs; injection Hs as <-; split; reflexivity|].
  change (Models.hazard_events (Samples.add_report (Samples.row 5 "flood" 3) d1))
    with (Models.hazard_events d1) in Hp2.
  rewrite Hnone in Hp2.
  change (Ingest.next_event_id (Models.hazard_events d1)) with 2%Z in Hp2.
  exists d1, fr1. eexists. exists fr2.
  split; [exact Hp1|]. split; [exact Hnone|]. split; [exact Hp2|].
  reflexivity.
Qed.

Lemma single_row_confidence (id g : Z) (text : string) (c : R) :
  Fusion.calculate_weighted_confidence [Ingest.fusion_dict (Samples.row id text g)]
  = Py.Ok c ->
  c < 0.3.
Proof.
  destruct (calculate_weighted_confidence_value
              [Ingest.fusion_dict (Samples.row id text g)])
    as (b & Hb & _ & ->); [discriminate|].
  intros H. injection H as <-. revert Hb.
  assert (Ec : Fusion.collect [Ingest.fusion_dict (Samples.row id text g)]
               = ([("citizen",
                    [Fusion.media_boosted_confidence
                       (Ingest.fusion_dict (Samples.row id text g))])],
                  0%nat, 0%nat)) by reflexivity.
  rewrite Ec. cbn [fst snd map List.length].
  assert (Em : Fusion.media_boosted_confidence
                 (Ingest.fusion_dict (Samples.row id text g)) = 0.25).
  { unfold Fusion.media_boosted_confidence, Ingest.fusion_dict, Samples.row.
    cbn [Report.has_media Report.media_verified Report.nlp_conf Report.credibility
         Models.has_media Models.media_path Models.media_verified Models.nlp_conf
         Models.credibility Ingest.has_path orb andb].
    rewrite or_half_half. lra. }
  rewrite Em.
  unfold Fusion._calculate_source_diversity_boost. cbn [Nat.eqb].
  intros Hb. injection Hb as <-.
  change (Py.lower "citizen") with "citizen".
  unfold Fusion._calculate_media_evidence_boost. cbn [Nat.eqb].
  pose proof (volume_factor_nonneg 1 "citizen") as Hv0.
  assert (Hv : Fusion._calculate_volume_factor 1 "citizen" <= 0.95).
  { unfold Fusion._calculate_volume_factor. cbn [Nat.leb].
    change (Py.mem_str "citizen" ["incois"; "lora"]) with false.
    change (String.eqb "citizen" "citizen") with true. cbn iota.
    apply Rmin_l. }
  set (V := Fusion._calculate_volume_factor 1 "citizen") in *.
  destruct (Rlt_dec 0 (0 + 0.6)); [|lra].
  replace ((0 + (0.25 + 0) / 1 * V * 0.6) / (0 + 0.6) * 1.0 * 1.0) with (0.25 * V) by lra.
  minmax; nra.
Qed.

Lemma single_row_status (id g : Z) (text : string) (c : R) :
  Fusion.calculate_weighted_confidence [Ingest.fusion_dict (Samples.row id text g)]
  = Py.Ok c ->
  Fusion.determine_status
    c
    (Fusion.determine_consensus_hazard_type [Ingest.fusion_dict (Samples.row id text g)])
    (existsb (fun r => String.eqb (Py.lower (Report.source r)) "lora")
             [Ingest.fusion_dict (Samples.row id text g)])
  = "review".
Proof.
  intros Hc. pose proof (single_row_confidence id g text c Hc) as Hlt.
  change (Fusion.determine_consensus_hazard_type
            [Ingest.fusion_dict (Samples.row id text g)]) with "flood".
  change (existsb _ _) with false.
  unfold Fusion.determine_status, Fusion.threshold_emergency,
    Fusion.threshold_auto_alert, Fusion.threshold_review_required.
  change (false || String.eqb "flood" "emergency") with false. cbn iota.
  destruct (Rle_dec 0.9 c); [lra|].
  destruct (Rle_dec 0.85 c); [lra|].
  destruct (Rle_dec 0.3 c); [lra|]. reflexivity.
Qed.

(** The run behind the counterexample of C1: the first pass over group 1
    creates event 1, the administrator approves it, and the next pass over
    group 1 finds it and sets its status to "review". *)
Lemma approved_then_fused :
  exists d1 fr1 d2 existing d3 fr3,
    Ingest._process_group_fusion Samples.float_repr Samples.isoformat 0 (Some 1%Z)
                                 Samples.first_db
    = (d1, Ingest.Fused fr1 1 "created") /\
    App.validate_hazard 0 1 (Some "approved") d1 = Py.Ok d2 /\
    map Models.status (Models.hazard_events d2) = ["approved"] /\
    Ingest.first_match (Some 1%Z) (Models.hazard_events d2) = Some existing /\
    Models.event_id existing = 1%Z /\
    Ingest._process_group_fusion Samples.float_repr Samples.isoformat 0 (Some 1%Z) d2
    = (d3, Ingest.Fused fr3 1 "updated") /\
    map Models.status (Models.hazard_events d3) = ["review"].
Proof.
  edestruct (sample_pass Samples.float_repr Samples.isoformat 0 (Some 1%Z) Samples.first_db)
    as (fr1 & c1 & Hev1 & _ & _ & Hp1);
    [reflexivity|reflexivity|discriminate
    |repeat constructor|reflexivity|intros s Hs; injection Hs as <-; split; reflexivity|].
  change (Ingest.first_match (Some 1%Z) (Models.hazard_events Samples.first_db))
    with (@None Models.HazardEvent) in Hp1.
  cbv beta iota in Hp1.
  change (Ingest.next_event_id (Models.hazard_events Samples.first_db)) with 1%Z in Hp1.
  match type of Hp1 with _ = (?d, _) => set (d1 := d) in * end.
  set (existing :=
         App.set_status 0 "approved"
           (Some (Rmin (Ingest.or_half (Some (Fusion.confidence fr1)) + 0.2) 1.0))
           (Ingest.new_event 0 fr1 1)).
  set (d2 := Models.mkdb (Models.raw_reports d1) [existing]).
  assert (Hval : App.validate_hazard 0 1 (Some "approved") d1 = Py.Ok d2) by reflexivity.
  assert (Hfirst : Ingest.first_match (Some 1%Z) (Models.hazard_events d2) = Some existing).
  { subst d2. cbn [Models.hazard_events]. unfold Ingest.first_match. cbn [find].
    assert (Hm : Ingest.matches_group (Some 1%Z) existing = true).
    { unfold Ingest.matches_group. subst existing.
      cbn [App.set_status Ingest.new_event Models.evidence_json].
      rewrite Hev1. lazy. reflexivity. }
    rewrite Hm. reflexivity. }
  edestruct (sample_pass Samples.float_repr Samples.isoformat 0 (Some 1%Z) d2)
    as (fr3 & c3 & _ & Hc3 & Hs3 & Hp3);
    [reflexivity|reflexivity|discriminate
    |repeat constructor|reflexivity|intros s Hs; injection Hs as <-; split; reflexivity|].
  rewrite Hfirst in Hp3.
  change (filter (Ingest.in_group (Some 1%Z)) (Models.raw_reports d2))
    with [Samples.row 1 "flood" 1] in Hc3, Hs3.
  cbn [map] in Hc3, Hs3.
  rewrite (single_row_status 1 1 "flood" c3 Hc3) in Hs3.
  exists d1, fr1, d2, existing. eexists. exists fr3.
  split; [exact Hp1|]. split; [exact Hval|]. split; [reflexivity|].
  split; [exact Hfirst|]. split; [reflexivity|]. split; [exact Hp3|].
  cbn [Models.hazard_events]. subst d2. cbn [Models.hazard_events].
  unfold Ingest.replace_event. cbn [map].
  rewrite Z.eqb_refl. cbn [map Ingest.update_event Models.status].
  rewrite Hs3. reflexivity.
Qed.

Lemma C1_fusion_overwrites_validated_status_witness :
  exists d1 d2 existing d3 fr3,
    App.validate_hazard 0 1 (Some "approved") d1 = Py.Ok d2 /\
    Ingest.first_match (Some 1%Z) (Models.hazard_events d2) = Some existing /\
    Ingest._process_group_fusion Samples.float_repr Samples.isoformat 0 (Some 1%Z) d2
    = (d3, Ingest.Fused fr3 1 "updated") /\
    Models.status existing = "approved" /\
    1%Z = 1%Z /\
    "updated" = "updated" /\
    (exists e, In e (Models.hazard_events d3) /\ Models.event_id e = 1%Z) /\
    (forall e, In e (Models.hazard_events d3) -> Models.event_id e = 1%Z ->
       Models.status e = Fusion.status fr3 /\
       In (Models.status e) ["emergency"; "confirmed"; "pending"; "review"] /\
       Models.status e <> "approved").
Proof.
  destruct approved_then_fused
    as (d1 & fr1 & d2 & existing & d3 & fr3 & _ & Hval & _ & Hfirst & Hid & Hpass & _).
  exists d1, d2, existing, d3, fr3.
  split; [exact Hval|]. split; [exact Hfirst|]. split; [exact Hpass|].
  exact (C1_fusion_overwrites_validated_status
           Samples.float_repr Samples.isoformat 0%Z 0%Z 1%Z (Some 1%Z) "approved"
           d1 d2 d3 existing fr3 1%Z "updated"
           (or_introl eq_refl) Hval Hfirst Hid Hpass).
Defined.

(** C1, the claim as stated fails: the first pass over group 1 creates
    event 1; the administrator approves it, so its status is "approved";
    the next pass over group 1 finds event 1 and sets its status to
    "review". *)
Lemma C1_counterexample :
  exists d1 fr1 d2 d3 fr3,
    Ingest._process_group_fusion Samples.float_repr Samples.isoformat 0 (Some 1%Z)
                                 Samples.first_db
    = (d1, Ingest.Fused fr1 1 "created") /\
    App.validate_hazard 0 1 (Some "approved") d1 = Py.Ok d2 /\
    map Models.status (Models.hazard_events d2) = ["approved"] /\
    Ingest._process_group_fusion Samples.float_repr Samples.isoformat 0 (Some 1%Z) d2
    = (d3, Ingest.Fused fr3 1 "updated") /\
    map Models.status (Models.hazard_events d3) = ["review"].
Proof.
  destruct approved_then_fused
    as (d1 & fr1 & d2 & existing & d3 & fr3 & H1 & H2 & H3 & _ & _ & H4 & H5).
  exists d1, fr1, d2, d3, fr3. auto.
Qed.

Lemma C2_second_event_for_same_group_witness :
  Samples.float_repr 0.5 = "0.5" /\
  Samples.isoformat Samples.t0 = "2025-01-01T10:00:00" /\
  exists d1 fr1 d2 fr2,
    Ingest._process_group_fusion Samples.float_repr Samples.isoformat 0 (Some 3%Z)
                                 Samples.one_report_db
    = (d1, Ingest.Fused fr1 1 "created") /\
    Ingest.first_match (Some 3%Z) (Models.hazard_events d1) = None /\
    Ingest._process_group_fusion Samples.float_repr Samples.isoformat 0 (Some 3%Z)
      (Samples.add_report (Samples.row 5 "flood" 3) d1)
    = (d2, Ingest.Fused fr2 2 "created") /\
    map Models.event_id (Models.hazard_events d2) = [1%Z; 2%Z].
Proof.
  split; [reflexivity|]. split; [reflexivity|].
  exact (C2_second_event_for_same_group Samples.float_repr Samples.isoformat 0%Z
                                        eq_refl eq_refl).
Defined.

(** The other face of the same lookup: group 1 holds report 1 and group 2
    holds report 2.  The first pass over group 1 creates event 1, whose
    evidence has the digit 2 (in the text of the report and in the year of
    its timestamp).  The first pass over group 2 then finds event 1 and
    overwrites it: no event is inserted for group 2, and the event of group
    1 now carries the data of group 2. *)
Lemma first_fuse_overwrites_other_group
      (float_repr : R -> string) (isoformat : DT.datetime -> string) (now : Z) :
  float_repr 0.5 = "0.5" ->
  isoformat Samples.t0 = "2025-01-01T10:00:00" ->
  exists d1 fr1 d2 fr2,
    Ingest._process_group_fusion float_repr isoformat now (Some 1%Z) Samples.two_groups_db
    = (d1, Ingest.Fused fr1 1 "created") /\
    Ingest._process_group_fusion float_repr isoformat now (Some 2%Z) d1
    = (d2, Ingest.Fused fr2 1 "updated") /\
    map Models.event_id (Models.hazard_events d2) = [1%Z] /\
    map Models.evidence_json (Models.hazard_events d2) = [Fusion.evidence_json fr2].
Proof.
  intros Hf Hi.
  edestruct (sample_pass float_repr isoformat now (Some 1%Z) Samples.two_groups_db)
    as (fr1 & c1 & Hev1 & _ & _ & Hp1);
    [exact Hf|exact Hi|discriminate
    |repeat constructor|reflexivity|intros s Hs; injection Hs as <-; split; reflexivity|].
  change (Ingest.first_match (Some 1%Z) (Models.hazard_events Samples.two_groups_db))
    with (@None Models.HazardEvent) in Hp1.
  cbv beta iota in Hp1.
  change (Ingest.next_event_id (Models.hazard_events Samples.two_groups_db))
    with 1%Z in Hp1.
  match type of Hp1 with _ = (?d, _) => set (d1 := d) in * end.
  assert (Hfirst : Ingest.first_match (Some 2%Z) (Models.hazard_events d1)
                   = Some (Ingest.new_event now fr1 1)).
  { subst d1. cbn [Models.hazard_events Samples.two_groups_db app].
    unfold Ingest.first_match. cbn [find].
    assert (Hm : Ingest.matches_group (Some 2%Z) (Ingest.new_event now fr1 1) = true).
    { unfold Ingest.matches_group. cbn [Ingest.new_event Models.evidence_json].
      rewrite Hev1. lazy. reflexivity. }
    rewrite Hm. reflexivity. }
  edestruct (sample_pass float_repr isoformat now (Some 2%Z) d1)
    as (fr2 & c2 & _ & _ & _ & Hp2);
    [exact Hf|exact Hi|discriminate
    |repeat constructor|reflexivity|intros s Hs; injection Hs as <-; split; reflexivity|].
  rewrite Hfirst in Hp2.
  exists d1, fr1. eexists. exists fr2.
  split; [exact Hp1|]. split; [exact Hp2|].
  cbn [Models.hazard_events]. subst d1. cbn [Models.hazard_events app].
  unfold Ingest.replace_event. cbn [map].
  split; reflexivity.
Qed.

(** * Further properties of the services *)

(** ** The classifier: ranges of the confidence *)

(** X1.  The confidence that the classifier gives is never below 0.075 and never
    above 0.95, whatever the text, the source and the media flags. *)
Theorem classifier_confidence_range
        (text source : string) (has_media media_verified : bool) :
  0.075 <= NLP.confidence (NLP.classify_text text source has_media media_verified)
        <= 0.95.
Proof. exact (classify_text_confidence_bounds text source has_media media_verified). Qed.

(** X2.  A report of a citizen or of social media that has no media gets a
    confidence between 0.08 and 0.175, whatever its text: on its own it stays
    under the review threshold of fusion. *)
Theorem citizen_confidence_stays_low
        (text source : string) (media_verified : bool) :
  Py.mem_str (Py.lower source) ["citizen"; "social_media"] = true ->
  0.08 <= NLP.confidence (NLP.classify_text text source false media_verified)
       <= 0.175 /\
  NLP.confidence (NLP.classify_text text source false media_verified)
  < Fusion.threshold_review_required.
Proof.
  intros Hs.
  assert (H : 0.08 <= NLP.confidence
                        (NLP.classify_text text source false media_verified)
              <= 0.175).
  { destruct (Py.is_blank text) eqn:B.
    - unfold NLP.classify_text. rewrite B. cbn [NLP.confidence]. lra.
    - rewrite (classify_text_not_blank text source false media_verified B).
      cbn [NLP.confidence].
      destruct (progressive_confidence_range _ source (extract_base_range text))
        as [_ Hr].
      specialize (Hr Hs).
      unfold NLP._apply_media_verification_boost. cbn [negb]. exact Hr. }
  split; [exact H|]. unfold Fusion.threshold_review_required. lra.
Qed.

Lemma citizen_confidence_stays_low_witness :
  Py.mem_str (Py.lower "Citizen") ["citizen"; "social_media"] = true /\
  0.08 <= NLP.confidence (NLP.classify_text "flood" "Citizen" false false) <= 0.175 /\
  NLP.confidence (NLP.classify_text "flood" "Citizen" false false)
  < Fusion.threshold_review_required.
Proof.
  split; [reflexivity|].
  exact (citizen_confidence_stays_low "flood" "Citizen" false eq_refl).
Defined.

(** X3.  Media never lowers the confidence of the classifier: with media the
    confidence is at least what it is without, and a verified image gives at
    least what an unverified one gives. *)
Theorem media_never_lowers_classifier_confidence
        (text source : string) (media_verified : bool) :
  NLP.confidence (NLP.classify_text text source false media_verified)
  <= NLP.confidence (NLP.classify_text text source true false) /\
  NLP.confidence (NLP.classify_text text source true false)
  <= NLP.confidence (NLP.classify_text text source true true).
Proof.
  destruct (Py.is_blank text) eqn:B.
  - unfold NLP.classify_text. rewrite B. cbn [NLP.confidence]. lra.
  - rewrite !(classify_text_not_blank text source _ _ B).
    cbn [NLP.confidence].
    destruct (progressive_confidence_range _ source (extract_base_range text))
      as [Hr _].
    unfold NLP._apply_media_verification_boost. cbn [negb].
    split; minmax; lra.
Qed.

(** ** The classifier: which kind wins *)

Lemma max_from_score_first_maximum (d : list (string * (nat * list string))) :
  forall best,
  exists l1 l2,
    best :: d = (l1 ++ Py.max_from NLP.score_gt best d :: l2)%list /\
    (forall kv, In kv l1 ->
       (fst (snd kv) < fst (snd (Py.max_from NLP.score_gt best d)))%nat) /\
    (forall kv, In kv l2 ->
       (fst (snd kv) <= fst (snd (Py.max_from NLP.score_gt best d)))%nat).
Proof.
  induction d as [|kv d IH]; intros best.
  - exists [], []. simpl. repeat split; intros ? [].
  - simpl. destruct (NLP.score_gt (snd best) (snd kv)) eqn:G; unfold NLP.score_gt in G.
    + apply Nat.ltb_lt in G.
      destruct (IH kv) as (l1 & l2 & E & H1 & H2).
      exists (best :: l1), l2. split; [simpl; f_equal; exact E|].
      split; [|exact H2].
      intros x [<-|Hx]; [|auto].
      destruct l1 as [|y l1]; simpl in E; injection E as E1 E2.
      * rewrite <- E1. exact G.
      * subst y. specialize (H1 kv (or_introl eq_refl)). lia.
    + apply Nat.ltb_ge in G.
      destruct (IH best) as (l1 & l2 & E & H1 & H2).
      destruct l1 as [|y l1]; simpl in E; injection E as E1 E2.
      * exists [], (kv :: l2). split; [simpl; rewrite <- E1, <- E2; reflexivity|].
        split; [intros ? []|].
        intros x [<-|Hx]; [rewrite <- E1; lia|auto].
      * subst y. exists (best :: kv :: l1), l2.
        split; [simpl; do 2 f_equal; exact E2|]. split; [|exact H2].
        pose proof (H1 best (or_introl eq_refl)).
        intros x [<-|[<-|Hx]]; [assumption|lia|apply H1; right; exact Hx].
Qed.

Lemma hazard_scores_of_keys (t : string) (table : list (string * list string)) :
  map fst (NLP.hazard_scores_of t table)
  = filter (fun hazard => Py.mem_str hazard (map fst (NLP.hazard_scores_of t table)))
           (map fst table)
  \/ ~ NoDup (map fst table).
Proof.
  destruct (ListDec.NoDup_dec string_dec (map fst table)) as [Hnd|Hnd]; [left|right; exact Hnd].
  induction table as [|[hazard keywords] rest IH]; [reflexivity|].
  cbn [map fst NLP.hazard_scores_of filter] in *.
  inversion Hnd as [|? ? Hnotin Hnd']; subst.
  assert (Hsub : forall k, In k (map fst (NLP.hazard_scores_of t rest)) ->
                           In k (map fst rest)).
  { clear. induction rest as [|[h ks] rest IH]; simpl; [tauto|].
    intros k. destruct (0 <? fst (NLP.score_keywords t ks 0 []))%nat; simpl; intuition. }
  destruct (0 <? fst (NLP.score_keywords t keywords 0 []))%nat.
  - cbn [map fst Py.mem_str existsb]. rewrite String.eqb_refl. cbn [orb].
    f_equal. rewrite (IH Hnd') at 1.
    apply filter_ext_in. intros k Hk.
    destruct (String.eqb_spec k hazard) as [->|Hneq]; [contradiction|].
    reflexivity.
  - assert (Hno : Py.mem_str hazard (map fst (NLP.hazard_scores_of t rest)) = false).
    { apply mem_str_false. intros Hin. apply Hnotin, Hsub, Hin. }
    rewrite Hno. exact (IH Hnd').
Qed.

Lemma hazard_keywords_keys :
  map fst NLP.hazard_keywords = ["flood"; "tsunami"; "tides"; "earthquake"; "landslide"].
Proof. reflexivity. Qed.

(** X4.  When some keyword is found, the classifier returns the first kind, in
    the order flood, tsunami, tides, earthquake, landslide, whose score is
    the highest: the kinds with a positive score are listed in that order,
    the ones before the winner have a smaller score and the ones after it
    none greater; the base confidence is 0.4 + 0.05 x score, capped at 0.7. *)
Theorem classifier_takes_first_highest_score
        (text kind : string) (base : R) (kws : list string) :
  NLP.hazard_scores text <> [] ->
  NLP.extract_hazard_type text = (kind, base, kws) ->
  exists l1 score l2,
    NLP.hazard_scores text = (l1 ++ (kind, (score, kws)) :: l2)%list /\
    (forall kv, In kv l1 -> (fst (snd kv) < score)%nat) /\
    (forall kv, In kv l2 -> (fst (snd kv) <= score)%nat) /\
    (0 < score)%nat /\
    base = Rmin (0.4 + INR score * 0.05) 0.7 /\
    map fst (NLP.hazard_scores text)
    = filter (fun hazard => Py.mem_str hazard (map fst (NLP.hazard_scores text)))
             ["flood"; "tsunami"; "tides"; "earthquake"; "landslide"].
Proof.
  intros Hne H. rewrite extract_hazard_type_unfold in H.
  pose proof (hazard_scores_positive text) as Hpos.
  assert (Hkeys : map fst (NLP.hazard_scores text)
                  = filter (fun hazard =>
                              Py.mem_str hazard (map fst (NLP.hazard_scores text)))
                           ["flood"; "tsunami"; "tides"; "earthquake"; "landslide"]).
  { rewrite hazard_scores_unfold, <- hazard_keywords_keys.
    destruct (hazard_scores_of_keys (NLP.preprocess_text text) NLP.hazard_keywords)
      as [E|E]; [exact E|].
    exfalso. apply E. rewrite hazard_keywords_keys.
    repeat constructor; simpl; intuition discriminate. }
  revert Hne H Hpos Hkeys. generalize (NLP.hazard_scores text) as scores.
  intros scores Hne H Hpos Hkeys.
  destruct scores as [|first rest]; [congruence|].
  cbn [Py.max_by_value] in H.
  destruct (max_from_score_first_maximum rest first) as (l1 & l2 & E & H1 & H2).
  destruct (Py.max_from NLP.score_gt first rest) as [k [sc fd]] eqn:Em.
  injection H as -> <- ->.
  exists l1, sc, l2. cbn [fst snd] in H1, H2.
  split; [exact E|]. split; [exact H1|]. split; [exact H2|].
  split; [|split; [reflexivity|exact Hkeys]].
  apply (Hpos kind sc kws). rewrite E. apply in_or_app. right. left. reflexivity.
Qed.

Lemma hazard_scores_flood_quake :
  NLP.hazard_scores "flood quake"
  = [("flood", (2%nat, ["flood"])); ("earthquake", (2%nat, ["quake"]))].
Proof. vm_compute. reflexivity. Qed.

Lemma extract_hazard_type_flood_quake :
  NLP.extract_hazard_type "flood quake" = ("flood", 0.5, ["flood"]).
Proof.
  rewrite extract_hazard_type_unfold, hazard_scores_flood_quake.
  cbv [Py.max_by_value Py.max_from NLP.score_gt fst snd Nat.ltb Nat.leb].
  f_equal. f_equal. cbn [INR]. minmax; lra.
Qed.

Lemma classifier_takes_first_highest_score_witness :
  NLP.hazard_scores "flood quake" <> [] /\
  NLP.extract_hazard_type "flood quake" = ("flood", 0.5, ["flood"]) /\
  exists l1 score l2,
    NLP.hazard_scores "flood quake" = (l1 ++ ("flood", (score, ["flood"])) :: l2)%list /\
    (forall kv, In kv l1 -> (fst (snd kv) < score)%nat) /\
    (forall kv, In kv l2 -> (fst (snd kv) <= score)%nat) /\
    (0 < score)%nat /\
    0.5 = Rmin (0.4 + INR score * 0.05) 0.7 /\
    map fst (NLP.hazard_scores "flood quake")
    = filter (fun hazard =>
                Py.mem_str hazard (map fst (NLP.hazard_scores "flood quake")))
             ["flood"; "tsunami"; "tides"; "earthquake"; "landslide"].
Proof.
  assert (Hne : NLP.hazard_scores "flood quake" <> [])
    by (rewrite hazard_scores_flood_quake; discriminate).
  split; [exact Hne|]. split; [exact extract_hazard_type_flood_quake|].
  exact (classifier_takes_first_highest_score
           "flood quake" "flood" 0.5 ["flood"] Hne extract_hazard_type_flood_quake).
Defined.

Lemma score_keywords_ge (t : string) (keywords : list string) :
  forall score found, (score <= fst (NLP.score_keywords t keywords score found))%nat.
Proof.
  induction keywords as [|keyword rest IH]; intros score found; simpl; [lia|].
  destruct (0 <? Py.count t keyword)%nat.
  - specialize (IH (score + Py.count t keyword * 2)%nat (found ++ [keyword])%list). lia.
  - destruct (Py.contains keyword t).
    + specialize (IH (score + 1)%nat (found ++ [keyword])%list). lia.
    + apply IH.
Qed.

Lemma score_keywords_found (t : string) (keywords : list string) (keyword : string) :
  In keyword keywords -> Py.contains keyword t = true ->
  forall score found, (score < fst (NLP.score_keywords t keywords score found))%nat.
Proof.
  intros Hin Hc.
  induction keywords as [|k rest IH]; intros score found; [contradiction|].
  simpl. destruct Hin as [->|Hin].
  - destruct (0 <? Py.count t keyword)%nat eqn:E.
    + apply Nat.ltb_lt in E.
      pose proof (score_keywords_ge t rest (score + Py.count t keyword * 2)%nat
                                    (found ++ [keyword])%list). lia.
    + rewrite Hc.
      pose proof (score_keywords_ge t rest (score + 1)%nat (found ++ [keyword])%list).
      lia.
  - destruct (0 <? Py.count t k)%nat; [|destruct (Py.contains k t)].
    + specialize (IH Hin (score + Py.count t k * 2)%nat (found ++ [k])%list). lia.
    + specialize (IH Hin (score + 1)%nat (found ++ [k])%list). lia.
    + apply IH, Hin.
Qed.

Lemma hazard_scores_of_found (t : string) (table : list (string * list string))
      (keyword : string) :
  In keyword (flat_map snd table) -> Py.contains keyword t = true ->
  NLP.hazard_scores_of t table <> [].
Proof.
  intros Hin Hc. induction table as [|[hazard keywords] rest IH]; [contradiction|].
  simpl in Hin. apply in_app_or in Hin. cbn [NLP.hazard_scores_of].
  destruct (0 <? fst (NLP.score_keywords t keywords 0 []))%nat eqn:E; [discriminate|].
  apply Nat.ltb_ge in E. destruct Hin as [Hin|Hin]; [|apply IH, Hin].
  pose proof (score_keywords_found t keywords keyword Hin Hc 0%nat []). lia.
Qed.

Lemma hazard_scores_of_kinds (t : string) (table : list (string * list string)) :
  forall kv, In kv (NLP.hazard_scores_of t table) -> In (fst kv) (map fst table).
Proof.
  induction table as [|[hazard keywords] rest IH]; intros kv; simpl; [tauto|].
  destruct (0 <? fst (NLP.score_keywords t keywords 0 []))%nat; simpl.
  - intros [<-|H]; [left; reflexivity|right; apply IH, H].
  - intros H. right. apply IH, H.
Qed.

(** X5.  A text that is not blank and whose cleaned form has one of the keywords
    of the table is never classified as unknown: the classifier returns one
    of the five kinds, with a base confidence of at least 0.45. *)
Theorem keyword_found_is_classified
        (text source keyword : string) (has_media media_verified : bool) :
  Py.is_blank text = false ->
  In keyword (flat_map snd NLP.hazard_keywords) ->
  Py.contains keyword (NLP.preprocess_text text) = true ->
  In (NLP.hazard_type (NLP.classify_text text source has_media media_verified))
     ["flood"; "tsunami"; "tides"; "earthquake"; "landslide"] /\
  0.45 <= snd (fst (NLP.extract_hazard_type text)) <= 0.7.
Proof.
  intros B Hin Hc.
  rewrite (classify_text_not_blank text source has_media media_verified B).
  cbn [NLP.hazard_type].
  assert (Hne : NLP.hazard_scores text <> []).
  { rewrite hazard_scores_unfold. exact (hazard_scores_of_found _ _ keyword Hin Hc). }
  destruct (NLP.extract_hazard_type text) as [[k b] kws] eqn:Ex. cbn [fst snd].
  split; [|exact (base_confidence_range text k b kws Hne Ex)].
  rewrite extract_hazard_type_unfold in Ex.
  destruct (Py.max_by_value NLP.score_gt (NLP.hazard_scores text))
    as [[k' [sc fd]]|] eqn:Em.
  - injection Ex as <- _ _. apply max_by_value_in in Em.
    rewrite hazard_scores_unfold in Em.
    apply hazard_scores_of_kinds in Em. rewrite hazard_keywords_keys in Em. exact Em.
  - destruct (NLP.hazard_scores text); [congruence|discriminate].
Qed.

Lemma keyword_found_is_classified_witness :
  Py.is_blank "Tsunami!" = false /\
  In "tsunami" (flat_map snd NLP.hazard_keywords) /\
  Py.contains "tsunami" (NLP.preprocess_text "Tsunami!") = true /\
  In (NLP.hazard_type (NLP.classify_text "Tsunami!" "citizen" false false))
     ["flood"; "tsunami"; "tides"; "earthquake"; "landslide"] /\
  0.45 <= snd (fst (NLP.extract_hazard_type "Tsunami!")) <= 0.7.
Proof.
  assert (Hin : In "tsunami" (flat_map snd NLP.hazard_keywords)).
  { apply (proj1 (mem_str_In _ _)). vm_compute. reflexivity. }
  assert (Hc : Py.contains "tsunami" (NLP.preprocess_text "Tsunami!") = true)
    by (vm_compute; reflexivity).
  split; [reflexivity|]. split; [exact Hin|]. split; [exact Hc|].
  exact (keyword_found_is_classified "Tsunami!" "citizen" "tsunami" false false
                                     eq_refl Hin Hc).
Defined.

(** ** Blank texts *)

Lemma lstrip_spaces (s : string) :
  Forall (fun c => Py.is_space c = true) (Notions.chars s) -> Py.lstrip s = "".
Proof.
  induction s as [|c s IH]; [reflexivity|].
  cbn [Notions.chars list_ascii_of_string]. intros H. inversion H as [|? ? Hc Hs]; subst.
  cbn [Py.lstrip]. rewrite Hc. apply IH, Hs.
Qed.

Lemma is_blank_spaces (s : string) :
  Forall (fun c => Py.is_space c = true) (Notions.chars s) -> Py.is_blank s = true.
Proof.
  intros H. unfold Py.is_blank, Py.strip. rewrite (lstrip_spaces s H).
  apply orb_true_r.
Qed.

(** A text made of white space only, the empty text included, is classified
    as unknown with confidence 0.1, and the credibility scorer gives its text
    quality the score 0. *)
Lemma classify_text_whitespace
      (text source : string) (has_media media_verified : bool) :
  Forall (fun c => Py.is_space c = true) (Notions.chars text) ->
  NLP.classify_text text source has_media media_verified
  = NLP.mkNLPResult "unknown" 0.1 0 [] /\
  Credibility.score_text_quality text = 0.
Proof.
  intros H. apply is_blank_spaces in H.
  unfold NLP.classify_text, Credibility.score_text_quality. rewrite H.
  split; [reflexivity|lra].
Qed.

(** ** The clusterer: ranges of the similarities *)

Lemma asin_nonneg (x : R) : 0 <= x <= 1 -> 0 <= asin x <= PI / 2.
Proof.
  intros Hx. pose proof (asin_bound x) as [Hlo Hhi]. split; [|exact Hhi].
  destruct (Rle_dec 0 (asin x)) as [|Hneg]; [assumption|exfalso].
  assert (Hs : sin (asin x) < 0).
  { apply sin_lt_0_var; [|lra]. pose proof PI_RGT_0. lra. }
  rewrite sin_asin in Hs by lra. lra.
Qed.

Lemma haversine_distance_value (lat1 lon1 lat2 lon2 : R) :
  exists angle,
    Dedupe.haversine_distance lat1 lon1 lat2 lon2 = Py.Ok (6371 * (2 * angle)) /\
    0 <= angle <= PI / 2.
Proof.
  unfold Dedupe.haversine_distance.
  pose proof (haversine_arg_range (Py.math_radians lat1) (Py.math_radians lon1)
                                  (Py.math_radians lat2) (Py.math_radians lon2)) as Ha.
  unfold Py.math_sqrt.
  destruct (Rlt_dec _ 0); [lra|]. cbn [Py.bind]. unfold Py.math_asin.
  match goal with |- context [sqrt ?a] => set (x := a) in * end.
  pose proof (sqrt_pos x).
  assert (sqrt x <= 1) by (rewrite <- sqrt_1; apply sqrt_le_1; lra).
  destruct (Rlt_dec (sqrt x) (-1)); [lra|].
  destruct (Rlt_dec 1 (sqrt x)); [lra|]. cbn [Py.bind].
  exists (asin (sqrt x)). split; [reflexivity|]. apply asin_nonneg. lra.
Qed.


Lemma spatial_similarity_value (lat1 lon1 lat2 lon2 d : R) :
  Dedupe.haversine_distance lat1 lon1 lat2 lon2 = Py.Ok d ->
  Dedupe.spatial_similarity lat1 lon1 lat2 lon2
  = Py.Ok (if Rlt_dec 5 d then 0 else 1 - d / 5).
Proof.
  intros Hd.
  destruct (haversine_distance_value lat1 lon1 lat2 lon2) as (angle & E & Ha).
  rewrite Hd in E. injection E as ->.
  unfold Dedupe.spatial_similarity, Dedupe.spatial_threshold_km. rewrite Hd.
  cbn [Py.bind].
  destruct (Rlt_dec 5.0 (6371 * (2 * angle))), (Rlt_dec 5 (6371 * (2 * angle)));
    try lra; f_equal; [lra|].
  minmax; lra.
Qed.


Lemma instant_make_aware (t : DT.datetime) :
  DT.instant (Dedupe.make_aware t) = DT.instant t.
Proof.
  unfold Dedupe.make_aware, DT.is_naive, DT.instant, DT.replace_utc.
  destruct (DT.tzoffset t) eqn:E; cbn [DT.tzoffset DT.wall]; [rewrite E; reflexivity|lia].
Qed.

Lemma temporal_similarity_value (t1 t2 : DT.datetime) :
  Dedupe.temporal_similarity (Some t1) (Some t2)
  = Py.Ok (let minutes :=
             Rabs (IZR (DT.instant t2 - DT.instant t1)) / 60000000 in
           if Rlt_dec 30 minutes then 0 else 1 - minutes / 30).
Proof.
  unfold Dedupe.temporal_similarity. rewrite make_aware_sub. cbn [Py.bind].
  rewrite !instant_make_aware.
  unfold DT.total_seconds, Dedupe.temporal_threshold_minutes. cbv zeta.
  set (delta := IZR (DT.instant t2 - DT.instant t1)).
  assert (E : Rabs (delta / 1000000) / 60 = Rabs delta / 60000000).
  { unfold Rdiv at 2. rewrite Rabs_mult, (Rabs_pos_eq (/ 1000000)); [lra|].
    apply Rlt_le, Rinv_0_lt_compat. lra. }
  rewrite E. pose proof (Rabs_pos delta).
  destruct (Rlt_dec 30 (Rabs delta / 60000000)); f_equal; [lra|].
  minmax; lra.
Qed.


Lemma intersection_length_le (s1 s2 : list string) :
  (List.length (Dedupe.intersection s1 s2) <= List.length (Dedupe.union s1 s2))%nat.
Proof.
  unfold Dedupe.intersection, Dedupe.union. rewrite length_app.
  pose proof (filter_length_le (fun x => Py.mem_str x s2) s1). lia.
Qed.

Lemma jaccard_similarity_range (text1 text2 : string) :
  0 <= Dedupe.jaccard_similarity text1 text2 <= 1.
Proof.
  unfold Dedupe.jaccard_similarity.
  destruct (Py.is_empty text1 || Py.is_empty text2); [lra|].
  generalize (Py.set_of (Dedupe._tokenize (Py.lower text1))) as s1.
  generalize (Py.set_of (Dedupe._tokenize (Py.lower text2))) as s2.
  intros s2 s1.
  destruct (Dedupe.is_nil s1 && Dedupe.is_nil s2); [lra|].
  destruct (Dedupe.is_nil s1 || Dedupe.is_nil s2); [lra|].
  destruct (0 <? List.length (Dedupe.union s1 s2))%nat eqn:E; [|lra].
  apply Nat.ltb_lt in E.
  pose proof (intersection_length_le s1 s2) as Hle.
  apply le_INR in Hle. apply lt_INR in E. cbn [INR] in E.
  pose proof (pos_INR (List.length (Dedupe.intersection s1 s2))).
  split.
  - apply Rmult_le_pos; [assumption|]. apply Rlt_le, Rinv_0_lt_compat, E.
  - apply Rmult_le_reg_r with (INR (List.length (Dedupe.union s1 s2))); [exact E|].
    unfold Rdiv. rewrite Rmult_assoc, Rinv_l by lra. lra.
Qed.


(** ** The clusterer: what can and what cannot be a duplicate *)

(** X7.  Two reports that are 5 km apart or more are never taken for duplicates
    unless they carry the same instant: their spatial similarity is 0, and
    when a timestamp is missing or the instants differ their combined
    similarity stays under the threshold 0.6. *)
Theorem distant_reports_are_not_duplicates (a b : Report.t) (d : R) :
  Dedupe.haversine_distance (Report.lat a) (Report.lon a)
                            (Report.lat b) (Report.lon b) = Py.Ok d ->
  5 <= d ->
  (forall ta tb, Report.timestamp a = Some ta -> Report.timestamp b = Some tb ->
                 DT.instant ta <> DT.instant tb) ->
  Dedupe.spatial_similarity (Report.lat a) (Report.lon a)
                            (Report.lat b) (Report.lon b) = Py.Ok 0 /\
  exists s, Dedupe.combined_similarity a b = Py.Ok s /\
            s < Dedupe.combined_threshold.
Proof.
  intros Hd Hfar Ht.
  assert (Es : Dedupe.spatial_similarity (Report.lat a) (Report.lon a)
                                         (Report.lat b) (Report.lon b) = Py.Ok 0).
  { rewrite (spatial_similarity_value _ _ _ _ _ Hd).
    destruct (Rlt_dec 5 d); f_equal; lra. }
  split; [exact Es|].
  pose proof (jaccard_similarity_range (Report.text a) (Report.text b)) as Hx.
  unfold Dedupe.combined_similarity, Dedupe.textual_similarity,
    Dedupe.combined_threshold, Dedupe.weight_spatial, Dedupe.weight_temporal,
    Dedupe.weight_textual.
  rewrite Es. cbn [Py.bind].
  destruct (Report.timestamp a) as [ta|] eqn:Ea, (Report.timestamp b) as [tb|] eqn:Eb;
    try (change (Dedupe.temporal_similarity _ _) with (@Py.Ok R 0.5);
         cbn [Py.bind]; eexists; split; [reflexivity|lra]).
  rewrite temporal_similarity_value. cbn [Py.bind]. cbv zeta.
  eexists; split; [reflexivity|].
  specialize (Ht ta tb eq_refl eq_refl).
  assert (Hpos : 0 < Rabs (IZR (DT.instant tb - DT.instant ta))).
  { apply Rabs_pos_lt. apply not_0_IZR. lia. }
  destruct (Rlt_dec 30 _); lra.
Qed.

Lemma haversine_half_way :
  Dedupe.haversine_distance 0 0 0 180 = Py.Ok (6371 * (2 * (PI / 2))).
Proof.
  unfold Dedupe.haversine_distance, Py.math_radians.
  replace ((0 * (PI / 180) - 0 * (PI / 180)) / 2) with 0 by lra.
  replace ((180 * (PI / 180) - 0 * (PI / 180)) / 2) with (PI / 2) by lra.
  replace (0 * (PI / 180)) with 0 by lra.
  rewrite sin_0, cos_0, sin_PI2.
  replace (0 ^ 2 + 1 * 1 * 1 ^ 2) with 1 by lra.
  unfold Py.math_sqrt. destruct (Rlt_dec 1 0); [lra|]. cbn [Py.bind].
  rewrite sqrt_1. unfold Py.math_asin.
  destruct (Rlt_dec 1 (-1)); [lra|]. destruct (Rlt_dec 1 1); [lra|].
  cbn [Py.bind]. rewrite asin_1. reflexivity.
Qed.

Lemma distant_reports_are_not_duplicates_witness :
  5 <= 6371 * (2 * (PI / 2)) /\
  Dedupe.spatial_similarity (Report.lat Samples.flood_report)
                            (Report.lon Samples.flood_report)
                            (Report.lat MoreSamples.far_report)
                            (Report.lon MoreSamples.far_report) = Py.Ok 0 /\
  exists s, Dedupe.combined_similarity Samples.flood_report MoreSamples.far_report
            = Py.Ok s /\
            s < Dedupe.combined_threshold.
Proof.
  assert (H5 : 5 <= 6371 * (2 * (PI / 2))).
  { pose proof PI2_3_2. lra. }
  split; [exact H5|].
  apply (distant_reports_are_not_duplicates
           Samples.flood_report MoreSamples.far_report _ haversine_half_way H5).
  intros ta tb H. discriminate H.
Defined.

Lemma temporal_same_instant (t : DT.datetime) :
  Dedupe.temporal_similarity (Some t) (Some t) = Py.Ok 1.
Proof.
  rewrite temporal_similarity_value. cbv zeta. rewrite Z.sub_diag, Rabs_R0.
  destruct (Rlt_dec 30 (0 / 60000000)); f_equal; lra.
Qed.

Lemma intersection_self (s : list string) : Dedupe.intersection s s = s.
Proof.
  unfold Dedupe.intersection. apply forallb_filter_id.
  apply forallb_forall. intros x Hx. apply mem_str_In, Hx.
Qed.

Lemma union_self (s : list string) : Dedupe.union s s = s.
Proof.
  unfold Dedupe.union.
  assert (E : forall l, incl l s -> filter (fun x => negb (Py.mem_str x s)) l = []).
  { induction l as [|x l IH]; intros Hl; [reflexivity|]. cbn [filter].
    rewrite (proj2 (mem_str_In x s) (Hl x (or_introl eq_refl))). cbn [negb].
    apply IH. intros y Hy. apply Hl. right. exact Hy. }
  rewrite (E s (incl_refl s)). apply app_nil_r.
Qed.

Lemma jaccard_same_text (text : string) :
  text <> "" -> Dedupe.jaccard_similarity text text = 1.
Proof.
  intros Hne. unfold Dedupe.jaccard_similarity.
  destruct text as [|c text]; [congruence|]. cbn [Py.is_empty orb].
  generalize (Py.set_of (Dedupe._tokenize (Py.lower (String c text)))) as s.
  intros s. rewrite intersection_self, union_self.
  destruct s as [|x s]; cbn [Dedupe.is_nil andb orb]; [lra|].
  change (0 <? List.length (x :: s))%nat with true. cbv iota.
  assert (0 < INR (List.length (x :: s))) by (apply lt_0_INR; simpl; lia).
  unfold Rdiv. rewrite Rinv_r; lra.
Qed.

Lemma combined_similarity_copy (new old : Report.t) (t : DT.datetime) :
  Report.lat new = Report.lat old -> Report.lon new = Report.lon old ->
  Report.timestamp new = Some t -> Report.timestamp old = Some t ->
  Report.text new = Report.text old -> Report.text new <> "" ->
  Dedupe.combined_similarity new old = Py.Ok (1 * 0.4 + 1 * 0.3 + 1 * 0.3).
Proof.
  intros Hlat Hlon Ht Ht' Htext Hne.
  unfold Dedupe.combined_similarity, Dedupe.textual_similarity.
  rewrite Hlat, Hlon, spatial_same_point, Ht, Ht', temporal_same_instant.
  rewrite <- Htext, (jaccard_same_text _ Hne). reflexivity.
Qed.

Lemma find_duplicates_copy (new old : Report.t) (t : DT.datetime) :
  Report.lat new = Report.lat old -> Report.lon new = Report.lon old ->
  Report.timestamp new = Some t -> Report.timestamp old = Some t ->
  Report.text new = Report.text old -> Report.text new <> "" ->
  exists r,
    Dedupe.find_duplicates new [old] = Py.Ok r /\
    Dedupe.is_duplicate r = true /\
    Dedupe.group_id r = Dedupe.group_of old /\
    Dedupe.similarity_score r = 1 /\
    Dedupe.matched_reports r = [Report.id old].
Proof.
  intros Hlat Hlon Ht Ht' Htext Hne.
  pose proof (combined_similarity_copy new old t Hlat Hlon Ht Ht' Htext Hne) as Hc.
  unfold Dedupe.find_duplicates. cbn [Dedupe.is_nil Dedupe.scan].
  rewrite Hc. cbn [Py.bind]. unfold Dedupe.combined_threshold.
  destruct (Rle_dec 0.6 (1 * 0.4 + 1 * 0.3 + 1 * 0.3)); [|lra].
  destruct (Rlt_dec 0.0 (1 * 0.4 + 1 * 0.3 + 1 * 0.3)); [|lra].
  cbn [Py.bind].
  destruct (explain_ok new old) as [parts ->].
  { rewrite Ht, Ht'. unfold Spec.same_awareness. apply Bool.eqb_reflx. }
  cbn [Py.bind]. eexists. split; [reflexivity|].
  cbn [Dedupe.is_duplicate Dedupe.group_id Dedupe.similarity_score
       Dedupe.matched_reports app].
  repeat split. lra.
Qed.

(** X8.  A report that has a timestamp and a text, compared with a stored copy
    of itself (same place, same timestamp, same text), is a duplicate: it
    joins the group of the copy with similarity 1. *)
Theorem copy_of_a_report_is_a_duplicate (new old : Report.t) (t : DT.datetime) :
  Report.lat new = Report.lat old -> Report.lon new = Report.lon old ->
  Report.timestamp new = Some t -> Report.timestamp old = Some t ->
  Report.text new = Report.text old -> Report.text new <> "" ->
  Dedupe.combined_similarity new old = Py.Ok 1 /\
  exists r,
    Dedupe.find_duplicates new [old] = Py.Ok r /\
    Dedupe.is_duplicate r = true /\
    Dedupe.group_id r = Dedupe.group_of old /\
    Dedupe.similarity_score r = 1 /\
    Dedupe.matched_reports r = [Report.id old].
Proof.
  intros Hlat Hlon Ht Ht' Htext Hne. split.
  - rewrite (combined_similarity_copy new old t Hlat Hlon Ht Ht' Htext Hne).
    f_equal. lra.
  - exact (find_duplicates_copy new old t Hlat Hlon Ht Ht' Htext Hne).
Qed.

Lemma copy_of_a_report_is_a_duplicate_witness :
  Dedupe.combined_similarity Samples.naive_report Samples.naive_report = Py.Ok 1 /\
  exists r,
    Dedupe.find_duplicates Samples.naive_report [Samples.naive_report] = Py.Ok r /\
    Dedupe.is_duplicate r = true /\
    Dedupe.group_id r = Dedupe.group_of Samples.naive_report /\
    Dedupe.similarity_score r = 1 /\
    Dedupe.matched_reports r = [Report.id Samples.naive_report].
Proof.
  apply (copy_of_a_report_is_a_duplicate
           Samples.naive_report Samples.naive_report (DT.mkdatetime 0 None));
    try reflexivity.
  discriminate.
Defined.

(** ** The clusterer: the group of a new report *)

Lemma scan_spec (new_report : Report.t) (existing_reports : list Report.t) :
  forall best_match best_score matched best_match' best_score' matched',
  Dedupe.scan new_report existing_reports best_match best_score matched
  = Py.Ok (best_match', best_score', matched') ->
  matched' = (matched ++ map Report.id
                           (filter (Notions.reaches_threshold new_report)
                                   existing_reports))%list /\
  best_score <= best_score' /\
  (forall e, In e existing_reports ->
     Notions.reaches_threshold new_report e = true ->
     exists s, Dedupe.combined_similarity new_report e = Py.Ok s /\ s <= best_score') /\
  ((best_match' = best_match /\ best_score' = best_score) \/
   (exists b, best_match' = Some b /\ In b existing_reports /\
              Dedupe.combined_similarity new_report b = Py.Ok best_score' /\
              Dedupe.combined_threshold <= best_score')).
Proof.
  induction existing_reports as [|e rest IH]; intros bm bs m bm' bs' m' H.
  - simpl in H. injection H as -> -> ->. cbn [filter map]. rewrite app_nil_r.
    split; [reflexivity|]. split; [lra|]. split; [intros ? []|]. left. auto.
  - cbn [Dedupe.scan] in H. cbn [filter]. unfold Notions.reaches_threshold at 1.
    destruct (combined_similarity_ok new_report e) as [s Es]. rewrite Es in H |- *.
    cbn [Py.bind] in H.
    destruct (Rle_dec Dedupe.combined_threshold s) as [Hs|Hs].
    + cbn [map].
      assert (Hhead : forall bs', s <= bs' ->
                forall x, e = x \/ In x rest ->
                  (In x rest -> Notions.reaches_threshold new_report x = true ->
                   exists s0, Dedupe.combined_similarity new_report x = Py.Ok s0 /\
                              s0 <= bs') ->
                  Notions.reaches_threshold new_report x = true ->
                  exists s0, Dedupe.combined_similarity new_report x = Py.Ok s0 /\
                             s0 <= bs').
      { intros b Hb x [<-|Hx] Hrest Hr; [exists s; auto|auto]. }
      destruct (Rlt_dec bs s) as [Hlt|Hge].
      * apply IH in H. destruct H as (Hm & Hle & Hall & Hbest).
        split; [rewrite Hm, <- app_assoc; reflexivity|].
        split; [lra|]. split.
        { intros x Hx. apply (Hhead bs' Hle x Hx). intros Hin. apply Hall, Hin. }
        right. destruct Hbest as [[-> ->]|(b & -> & Hin & Hc & Ht)].
        { exists e. repeat split; auto. left; reflexivity. }
        { exists b. repeat split; auto. right; exact Hin. }
      * apply IH in H. destruct H as (Hm & Hle & Hall & Hbest).
        split; [rewrite Hm, <- app_assoc; reflexivity|].
        split; [lra|]. split.
        { intros x Hx. apply (Hhead bs'); [lra|exact Hx|].
          intros Hin. apply Hall, Hin. }
        destruct Hbest as [[-> ->]|(b & -> & Hin & Hc & Ht)]; [left; auto|].
        right. exists b. repeat split; auto. right; exact Hin.
    + apply IH in H. destruct H as (Hm & Hle & Hall & Hbest).
      split; [exact Hm|]. split; [exact Hle|]. split.
      { intros x [<-|Hx] Hr; [|apply Hall; assumption].
        unfold Notions.reaches_threshold in Hr. rewrite Es in Hr.
        destruct (Rle_dec Dedupe.combined_threshold s); [contradiction|discriminate]. }
      destruct Hbest as [[-> ->]|(b & -> & Hin & Hc & Ht)]; [left; auto|].
      right. exists b. repeat split; auto. right; exact Hin.
Qed.

Lemma fold_left_max_ge (l : list Z) :
  forall x, (x <= fold_left Z.max l x)%Z /\
            (forall y, In y l -> (y <= fold_left Z.max l x)%Z).
Proof.
  induction l as [|a l IH]; intros x; simpl; [split; [lia|intros ? []]|].
  destruct (IH (Z.max x a)) as [H1 H2]. split; [lia|].
  intros y [<-|Hy]; [lia|apply H2, Hy].
Qed.

Lemma max_default0_ge (l : list Z) (y : Z) :
  In y l -> (y <= Dedupe.max_default0 l)%Z.
Proof.
  destruct l as [|x l]; [intros []|]. cbn [Dedupe.max_default0].
  destruct (fold_left_max_ge l x) as [H1 H2].
  intros [<-|Hy]; [exact H1|apply H2, Hy].
Qed.

Lemma find_duplicates_unique (new_report : Report.t) (existing_reports : list Report.t)
      (r : Dedupe.DedupeResult) :
  Dedupe.find_duplicates new_report existing_reports = Py.Ok r ->
  Dedupe.is_duplicate r = false ->
  exists new_group_id,
    Dedupe.group_id r = Some new_group_id /\
    (forall e, In e existing_reports ->
       exists g, Dedupe.group_of e = Some g /\ (g < new_group_id)%Z) /\
    (forall e, In e existing_reports ->
               Notions.reaches_threshold new_report e = false) /\
    Dedupe.matched_reports r = [] /\
    Dedupe.similarity_score r = 0 /\
    (existing_reports = [] -> new_group_id = 1%Z).
Proof.
  unfold Dedupe.find_duplicates.
  destruct existing_reports as [|e0 rest]; cbn [Dedupe.is_nil].
  - intros H _. injection H as <-. exists 1%Z.
    cbn [Dedupe.group_id Dedupe.matched_reports Dedupe.similarity_score].
    repeat split; try (intros ? []); lra.
  - set (existing := e0 :: rest).
    destruct (Dedupe.scan new_report existing None 0.0 [])
      as [[[bm bs] m]|] eqn:Escan; cbn [Py.bind]; [|discriminate].
    apply scan_spec in Escan. destruct Escan as (Hm & Hle & Hall & Hbest).
    destruct bm as [b|].
    + destruct (Dedupe.explain new_report b); cbn [Py.bind]; [|discriminate].
      intros H Hd. injection H as <-. discriminate Hd.
    + destruct (Dedupe.max_or_none (map Dedupe.group_of existing)) as [mx|] eqn:Emax;
        cbn [Py.bind]; [|discriminate].
      destruct (Dedupe.add_one mx) as [n|] eqn:Eadd; cbn [Py.bind]; [|discriminate].
      intros H _. injection H as <-.
      assert (Hn : (max_group_id <- Dedupe.max_or_none (map Dedupe.group_of existing) ;;
                    Dedupe.add_one max_group_id) = Py.Ok n)
        by (rewrite Emax; exact Eadd).
      destruct (new_group_id_inv _ _ Hn) as (ints & Hints & ->).
      exists (Dedupe.max_default0 ints + 1)%Z.
      cbn [Dedupe.group_id Dedupe.matched_reports Dedupe.similarity_score].
      destruct Hbest as [[_ ->]|(b & Hb & _)]; [|discriminate].
      split; [reflexivity|]. split.
      { intros e He.
        pose proof (in_map Dedupe.group_of _ _ He) as Hin. rewrite Hints in Hin.
        apply in_map_iff in Hin. destruct Hin as (g & Hg & Hgin).
        exists g. split; [symmetry; exact Hg|].
        pose proof (max_default0_ge ints g Hgin). lia. }
      split.
      { intros e He.
        destruct (Notions.reaches_threshold new_report e) eqn:Er; [|reflexivity].
        destruct (Hall e He Er) as (s & Es & Hs).
        unfold Notions.reaches_threshold in Er. rewrite Es in Er.
        unfold Dedupe.combined_threshold in Er.
        destruct (Rle_dec 0.6 s); [lra|discriminate]. }
      repeat split; [lra|discriminate].
Qed.

(** X9.  When the clusterer finds no duplicate, no stored report reaches the
    threshold 0.6 and the new report gets a group number, an integer greater
    than the group of every stored report, each of which is an integer too;
    with no stored report at all it gets group 1. *)
Theorem unique_report_gets_a_fresh_group
        (new_report : Report.t) (existing_reports : list Report.t)
        (r : Dedupe.DedupeResult) :
  Dedupe.find_duplicates new_report existing_reports = Py.Ok r ->
  Dedupe.is_duplicate r = false ->
  exists new_group_id,
    Dedupe.group_id r = Some new_group_id /\
    (forall e, In e existing_reports ->
       exists g, Dedupe.group_of e = Some g /\ (g < new_group_id)%Z) /\
    (forall e, In e existing_reports ->
               Notions.reaches_threshold new_report e = false) /\
    Dedupe.matched_reports r = [] /\
    Dedupe.similarity_score r = 0 /\
    (existing_reports = [] -> new_group_id = 1%Z).
Proof. exact (find_duplicates_unique new_report existing_reports r). Qed.

Lemma find_duplicates_flood_tsunami :
  Dedupe.find_duplicates Samples.flood_report [Samples.tsunami_report]
  = Py.Ok (Dedupe.mkDedupeResult (Some 3%Z) false 0.0 [] Dedupe.UniqueReport).
Proof.
  assert (Hc : Dedupe.combined_similarity Samples.flood_report Samples.tsunami_report
               = Py.Ok (1 * 0.4 + 0.5 * 0.3 + 0.0 * 0.3)).
  { unfold Dedupe.combined_similarity.
    change (Report.lat Samples.tsunami_report) with (Report.lat Samples.flood_report).
    change (Report.lon Samples.tsunami_report) with (Report.lon Samples.flood_report).
    rewrite spatial_same_point. reflexivity. }
  unfold Dedupe.find_duplicates. cbn [Dedupe.is_nil Dedupe.scan].
  rewrite Hc. cbn [Py.bind]. unfold Dedupe.combined_threshold.
  destruct (Rle_dec 0.6 (1 * 0.4 + 0.5 * 0.3 + 0.0 * 0.3)); [lra|].
  reflexivity.
Qed.

Lemma unique_report_gets_a_fresh_group_witness :
  Dedupe.find_duplicates Samples.flood_report [Samples.tsunami_report]
  = Py.Ok (Dedupe.mkDedupeResult (Some 3%Z) false 0.0 [] Dedupe.UniqueReport) /\
  (forall e, In e [Samples.tsunami_report] ->
     exists g, Dedupe.group_of e = Some g /\ (g < 3)%Z) /\
  (forall e, In e [Samples.tsunami_report] ->
             Notions.reaches_threshold Samples.flood_report e = false).
Proof.
  split; [exact find_duplicates_flood_tsunami|].
  destruct (unique_report_gets_a_fresh_group
              Samples.flood_report [Samples.tsunami_report] _
              find_duplicates_flood_tsunami eq_refl) as (n & Hn & H1 & H2 & _).
  cbn [Dedupe.group_id] in Hn. injection Hn as <-.
  split; [exact H1|exact H2].
Defined.

Lemma find_duplicates_duplicate (new_report : Report.t)
      (existing_reports : list Report.t) (r : Dedupe.DedupeResult) :
  Dedupe.find_duplicates new_report existing_reports = Py.Ok r ->
  Dedupe.is_duplicate r = true ->
  exists best_match,
    In best_match existing_reports /\
    Dedupe.group_id r = Dedupe.group_of best_match /\
    Dedupe.combined_similarity new_report best_match
    = Py.Ok (Dedupe.similarity_score r) /\
    Dedupe.combined_threshold <= Dedupe.similarity_score r /\
    (forall e s, In e existing_reports ->
       Dedupe.combined_similarity new_report e = Py.Ok s ->
       s <= Dedupe.similarity_score r) /\
    Dedupe.matched_reports r
    = map Report.id (filter (Notions.reaches_threshold new_report) existing_reports).
Proof.
  unfold Dedupe.find_duplicates.
  destruct (Dedupe.is_nil existing_reports).
  { intros H Hd. injection H as <-. discriminate Hd. }
  destruct (Dedupe.scan new_report existing_reports None 0.0 [])
    as [[[bm bs] m]|] eqn:Escan; cbn [Py.bind]; [|discriminate].
  apply scan_spec in Escan. destruct Escan as (Hm & Hle & Hall & Hbest).
  destruct bm as [b|].
  - destruct (Dedupe.explain new_report b); cbn [Py.bind]; [|discriminate].
    intros H _. injection H as <-.
    cbn [Dedupe.group_id Dedupe.matched_reports Dedupe.similarity_score].
    destruct Hbest as [[Hb _]|(b' & Hb & Hin & Hc & Ht)]; [discriminate|].
    injection Hb as <-. exists b.
    split; [exact Hin|]. split; [reflexivity|]. split; [exact Hc|].
    split; [exact Ht|]. split; [|exact Hm].
    intros e s He Es.
    destruct (Notions.reaches_threshold new_report e) eqn:Er.
    + destruct (Hall e He Er) as (s' & Es' & Hs'). congruence.
    + unfold Notions.reaches_threshold in Er. rewrite Es in Er.
      destruct (Rle_dec Dedupe.combined_threshold s); [discriminate|lra].
  - destruct (Dedupe.max_or_none _); cbn [Py.bind]; [|discriminate].
    destruct (Dedupe.add_one _); cbn [Py.bind]; [|discriminate].
    intros H Hd. injection H as <-. discriminate Hd.
Qed.

(** X10.  When the clusterer finds a duplicate, the new report joins the group of
    a stored report whose similarity with it is at least 0.6 and is the
    highest of all stored reports; the matched reports are the stored ones
    that reach 0.6, in the order of the list. *)
Theorem duplicate_joins_the_best_match
        (new_report : Report.t) (existing_reports : list Report.t)
        (r : Dedupe.DedupeResult) :
  Dedupe.find_duplicates new_report existing_reports = Py.Ok r ->
  Dedupe.is_duplicate r = true ->
  exists best_match,
    In best_match existing_reports /\
    Dedupe.group_id r = Dedupe.group_of best_match /\
    Dedupe.combined_similarity new_report best_match
    = Py.Ok (Dedupe.similarity_score r) /\
    Dedupe.combined_threshold <= Dedupe.similarity_score r /\
    (forall e s, In e existing_reports ->
       Dedupe.combined_similarity new_report e = Py.Ok s ->
       s <= Dedupe.similarity_score r) /\
    Dedupe.matched_reports r
    = map Report.id (filter (Notions.reaches_threshold new_report) existing_reports).
Proof. exact (find_duplicates_duplicate new_report existing_reports r). Qed.

Lemma duplicate_joins_the_best_match_witness :
  exists r,
    Dedupe.find_duplicates Samples.naive_report [Samples.naive_report] = Py.Ok r /\
    Dedupe.is_duplicate r = true /\
    exists best_match,
      In best_match [Samples.naive_report] /\
      Dedupe.group_id r = Dedupe.group_of best_match /\
      Dedupe.combined_similarity Samples.naive_report best_match
      = Py.Ok (Dedupe.similarity_score r) /\
      Dedupe.combined_threshold <= Dedupe.similarity_score r.
Proof.
  destruct (find_duplicates_copy Samples.naive_report Samples.naive_report
                                 (DT.mkdatetime 0 None))
    as (r & Hr & Hd & _); try reflexivity; [discriminate|].
  exists r. split; [exact Hr|]. split; [exact Hd|].
  destruct (duplicate_joins_the_best_match
              Samples.naive_report [Samples.naive_report] r Hr Hd)
    as (b & H1 & H2 & H3 & H4 & _).
  exists b. auto.
Defined.

(** ** The statistics of a group *)

Lemma increment_keys (counts : list (string * Z)) (source : string) :
  map fst (Dedupe.increment counts source)
  = if Py.mem_str source (map fst counts) then map fst counts
    else (map fst counts ++ [source])%list.
Proof.
  induction counts as [|[k n] counts IH]; simpl; [reflexivity|].
  unfold Py.mem_str in *. simpl. rewrite (String.eqb_sym source k).
  destruct (String.eqb k source); simpl; [reflexivity|].
  rewrite IH. destruct (existsb _ _); reflexivity.
Qed.

Lemma get_increment (counts : list (string * Z)) (source k : string) :
  Py.get (Dedupe.increment counts source) k 0%Z
  = (Py.get counts k 0 + (if String.eqb source k then 1 else 0))%Z.
Proof.
  induction counts as [|[k0 n0] counts IH]; simpl.
  - destruct (String.eqb source k); lia.
  - destruct (String.eqb k0 source) eqn:E; simpl.
    + apply String.eqb_eq in E. subst k0. destruct (String.eqb source k); lia.
    + destruct (String.eqb k0 k) eqn:E'; [|exact IH].
      apply String.eqb_eq in E'. subst k0. rewrite String.eqb_sym, E. lia.
Qed.

Lemma increment_sum (counts : list (string * Z)) (source : string) :
  fold_right Z.add 0%Z (map snd (Dedupe.increment counts source))
  = (fold_right Z.add 0 (map snd counts) + 1)%Z.
Proof.
  induction counts as [|[k n] counts IH]; simpl; [reflexivity|].
  destruct (String.eqb k source); simpl; [lia|]. rewrite IH. lia.
Qed.

Lemma source_counts_spec (sources : list string) :
  map fst (fold_left Dedupe.increment sources []) = Spec.first_seen sources /\
  fold_right Z.add 0%Z (map snd (fold_left Dedupe.increment sources []))
  = Z.of_nat (List.length sources) /\
  forall k, Py.get (fold_left Dedupe.increment sources []) k 0%Z
            = Z.of_nat (count_occ string_dec sources k).
Proof.
  induction sources as [|s sources (IH1 & IH2 & IH3)] using rev_ind.
  - repeat split.
  - rewrite fold_left_app. cbn [fold_left]. split; [|split].
    + rewrite increment_keys, IH1. unfold Spec.first_seen.
      rewrite fold_left_app. reflexivity.
    + rewrite increment_sum, IH2, length_app. simpl. lia.
    + intros k. rewrite get_increment, IH3, count_occ_app. cbn [count_occ].
      destruct (string_dec s k) as [->|Hne].
      * rewrite String.eqb_refl. lia.
      * destruct (String.eqb_spec s k); [contradiction|]. lia.
Qed.

Lemma get_group_statistics_counts (group_reports : list Report.t)
      (st : Dedupe.GroupStats) :
  Dedupe.get_group_statistics group_reports = Py.Ok (Some st) ->
  Dedupe.count st = List.length group_reports /\
  Dedupe.report_ids st = map Report.id group_reports /\
  map fst (Dedupe.source_distribution st)
  = Spec.first_seen (map Report.source group_reports) /\
  (forall source n, In (source, n) (Dedupe.source_distribution st) ->
     n = Z.of_nat (count_occ string_dec (map Report.source group_reports) source)) /\
  fold_right Z.add 0%Z (map snd (Dedupe.source_distribution st))
  = Z.of_nat (List.length group_reports) /\
  (List.length (Dedupe.unique_descriptions st) <= 5)%nat /\
  NoDup (Dedupe.unique_descriptions st) /\
  (forall t, In t (Dedupe.unique_descriptions st) ->
     t <> "" /\ In t (map Report.text group_reports)) /\
  Dedupe.centroid_lat st * INR (List.length group_reports)
  = Dedupe.sum_R (map Report.lat group_reports) /\
  Dedupe.centroid_lon st * INR (List.length group_reports)
  = Dedupe.sum_R (map Report.lon group_reports).
Proof.
  unfold Dedupe.get_group_statistics.
  destruct (Dedupe.is_nil group_reports) eqn:Enil; [discriminate|].
  set (reports := group_reports) in *.
  destruct (Dedupe.min_time _) as [earliest|]; cbv beta iota delta [Py.bind];
    [|discriminate].
  destruct (Dedupe.max_time _) as [latest|]; cbv beta iota delta [Py.bind];
    [|discriminate].
  match goal with
  | |- Py.Ok (Some ?x) = _ -> _ => remember x as expected eqn:Hexp
  end.
  intros H. injection H as <-. rewrite Hexp.
  cbv beta iota delta
      [Dedupe.count Dedupe.report_ids Dedupe.source_distribution
       Dedupe.unique_descriptions Dedupe.centroid_lat Dedupe.centroid_lon].
  destruct (source_counts_spec (map Report.source reports)) as (K1 & K2 & K3).
  split; [reflexivity|]. split; [reflexivity|]. split; [exact K1|].
  split.
  { intros source n Hin. rewrite <- K3. symmetry.
    apply get_of_entry; [|exact Hin]. rewrite K1. apply first_seen_NoDup. }
  split; [etransitivity; [exact K2|rewrite length_map; reflexivity]|].
  split; [apply firstn_le_length|].
  split.
  { set (u := Py.set_of _).
    pose proof (set_of_NoDup
                  (filter (fun t => negb (Py.is_empty t)) (map Report.text reports)))
      as Hnd.
    fold u in Hnd. rewrite <- (firstn_skipn 5 u) in Hnd.
    apply NoDup_app_remove_r in Hnd. exact Hnd. }
  split.
  { intros t Ht.
    assert (Hin : In t (Py.set_of (filter (fun t => negb (Py.is_empty t))
                                          (map Report.text reports)))).
    { rewrite <- (firstn_skipn 5 (Py.set_of _)). apply in_or_app. left. exact Ht. }
    unfold Py.set_of in Hin. apply nodup_In in Hin. apply filter_In in Hin.
    destruct Hin as [Hin Hne]. split; [|exact Hin].
    intros ->. discriminate Hne. }
  assert (Hn : INR (List.length reports) <> 0).
  { apply not_0_INR. destruct reports; discriminate. }
  split; unfold Rdiv; rewrite Rmult_assoc, Rinv_l by exact Hn; lra.
Qed.

(** X11.  The statistics of a non-empty group count every report once: the count
    and the list of keys follow the reports, the sources are listed in the
    order of their first report, each with the number of its reports, and
    these numbers add up to the count.  At most five descriptions are kept,
    all distinct, none empty, each the text of a report; the centroid is the
    plain mean of the coordinates. *)
Theorem group_statistics_count_every_report
        (group_reports : list Report.t) (st : Dedupe.GroupStats) :
  Dedupe.get_group_statistics group_reports = Py.Ok (Some st) ->
  Dedupe.count st = List.length group_reports /\
  Dedupe.report_ids st = map Report.id group_reports /\
  map fst (Dedupe.source_distribution st)
  = Spec.first_seen (map Report.source group_reports) /\
  (forall source n, In (source, n) (Dedupe.source_distribution st) ->
     n = Z.of_nat (count_occ string_dec (map Report.source group_reports) source)) /\
  fold_right Z.add 0%Z (map snd (Dedupe.source_distribution st))
  = Z.of_nat (List.length group_reports) /\
  (List.length (Dedupe.unique_descriptions st) <= 5)%nat /\
  NoDup (Dedupe.unique_descriptions st) /\
  (forall t, In t (Dedupe.unique_descriptions st) ->
     t <> "" /\ In t (map Report.text group_reports)) /\
  Dedupe.centroid_lat st * INR (List.length group_reports)
  = Dedupe.sum_R (map Report.lat group_reports) /\
  Dedupe.centroid_lon st * INR (List.length group_reports)
  = Dedupe.sum_R (map Report.lon group_reports).
Proof. exact (get_group_statistics_counts group_reports st). Qed.

Lemma group_statistics_sample :
  exists st,
    Dedupe.get_group_statistics [Samples.flood_report; Samples.tsunami_report]
    = Py.Ok (Some st).
Proof. eexists. unfold Dedupe.get_group_statistics. cbn [Dedupe.is_nil]. reflexivity. Qed.

Lemma group_statistics_count_every_report_witness :
  exists st,
    Dedupe.get_group_statistics [Samples.flood_report; Samples.tsunami_report]
    = Py.Ok (Some st) /\
    Dedupe.count st = 2%nat /\
    fold_right Z.add 0%Z (map snd (Dedupe.source_distribution st)) = 2%Z.
Proof.
  destruct group_statistics_sample as [st Hst]. exists st.
  split; [exact Hst|].
  destruct (group_statistics_count_every_report _ st Hst)
    as (H1 & _ & _ & _ & H5 & _).
  split; [exact H1|exact H5].
Defined.

(** ** Grouping a list of reports *)





(** Among reports whose groups are integers the clusterer returns an
    integer. *)
Lemma find_duplicates_group (new_report : Report.t) (existing_reports : list Report.t)
      (r : Dedupe.DedupeResult) :
  Dedupe.find_duplicates new_report existing_reports = Py.Ok r ->
  (forall e, In e existing_reports -> Spec.has_group e = true) ->
  exists g, Dedupe.group_id r = Some g.
Proof.
  intros Hr Hg. destruct (Dedupe.is_duplicate r) eqn:Ed.
  - destruct (find_duplicates_duplicate new_report existing_reports r Hr Ed)
      as (b & Hin & -> & _).
    pose proof (Hg b Hin) as Hb. unfold Spec.has_group in Hb.
    destruct (Dedupe.group_of b) as [g|]; [eauto|discriminate].
  - destruct (find_duplicates_unique new_report existing_reports r Hr Ed)
      as (g & -> & _). eauto.
Qed.




(** ** Fusion: the volume factor and the multipliers *)

Lemma volume_factor_le_cap (n : nat) (source : string) :
  Fusion._calculate_volume_factor n source <= 1 /\
  (Py.mem_str source ["incois"; "lora"] = false ->
   Fusion._calculate_volume_factor n source <= 0.95).
Proof.
  unfold Fusion._calculate_volume_factor.
  destruct (n <=? 0)%nat; [split; [|intros _]; lra|].
  destruct (Py.mem_str source _); [split; [|discriminate]; minmax; lra|].
  destruct (String.eqb source "citizen"); [split; [|intros _]; minmax; lra|].
  destruct (String.eqb source "social"); split; try intros _; minmax; lra.
Qed.

Lemma volume_factor_le (m n : nat) (source : string) :
  (m <= n)%nat ->
  Fusion._calculate_volume_factor m source <= Fusion._calculate_volume_factor n source.
Proof.
  induction 1 as [|n Hle IH]; [lra|].
  pose proof (volume_factor_monotone n source). lra.
Qed.

(** X13.  The volume factor of a source is 0 for no report, never decreases when
    the number of reports grows, and never exceeds 1; for every source other
    than incois and lora it never exceeds 0.95. *)
Theorem volume_factor_is_monotone_and_capped (m n : nat) (source : string) :
  (m <= n)%nat ->
  Fusion._calculate_volume_factor 0 source = 0 /\
  0 <= Fusion._calculate_volume_factor m source
    <= Fusion._calculate_volume_factor n source /\
  Fusion._calculate_volume_factor n source <= 1 /\
  (Py.mem_str source ["incois"; "lora"] = false ->
   Fusion._calculate_volume_factor n source <= 0.95).
Proof.
  intros Hle. split.
  { unfold Fusion._calculate_volume_factor. cbn [Nat.leb]. lra. }
  split; [split; [apply volume_factor_nonneg|apply volume_factor_le, Hle]|].
  apply volume_factor_le_cap.
Qed.

Lemma volume_factor_is_monotone_and_capped_witness :
  (1 <= 1000)%nat /\
  Fusion._calculate_volume_factor 0 "citizen" = 0 /\
  0 <= Fusion._calculate_volume_factor 1 "citizen"
    <= Fusion._calculate_volume_factor 1000 "citizen" /\
  Fusion._calculate_volume_factor 1000 "citizen" <= 1 /\
  (Py.mem_str "citizen" ["incois"; "lora"] = false ->
   Fusion._calculate_volume_factor 1000 "citizen" <= 0.95).
Proof.
  assert (H : (1 <= 1000)%nat) by lia.
  split; [exact H|].
  exact (volume_factor_is_monotone_and_capped 1 1000 "citizen" H).
Defined.

Lemma log10_double (x : R) : 0 < x -> Py.log10 (2 * x) = Py.log10 2 + Py.log10 x.
Proof.
  intros Hx. unfold Py.log10. rewrite ln_mult by lra.
  pose proof ln_10_pos. unfold Rdiv. lra.
Qed.

Lemma sqrt_double (x : R) : 0 <= x -> sqrt (2 * x) <= 2 * sqrt x.
Proof.
  intros Hx.
  replace (2 * sqrt x) with (sqrt (4 * x)).
  - apply sqrt_le_1_alt. lra.
  - rewrite sqrt_mult by lra. replace 4 with (2 * 2) by lra.
    rewrite sqrt_square by lra. reflexivity.
Qed.

(** X14.  Returns diminish: doubling the number of reports of a source never more
    than doubles its volume factor. *)
Theorem doubling_the_volume_at_most_doubles_the_factor (n : nat) (source : string) :
  Fusion._calculate_volume_factor (2 * n) source
  <= 2 * Fusion._calculate_volume_factor n source.
Proof.
  destruct n as [|n].
  { change (2 * 0)%nat with 0%nat.
    assert (E : Fusion._calculate_volume_factor 0 source = 0)
      by (unfold Fusion._calculate_volume_factor; cbn [Nat.leb]; lra).
    rewrite E. lra. }
  unfold Fusion._calculate_volume_factor.
  replace (2 * S n <=? 0)%nat with false by (symmetry; apply Nat.leb_gt; lia).
  change (S n <=? 0)%nat with false. cbv iota.
  rewrite mult_INR. change (INR 2) with 2.
  set (x := INR (S n)).
  assert (Hx : 1 <= x).
  { unfold x. change 1 with (INR 1). apply le_INR. lia. }
  assert (H2 : 0 <= Py.log10 2) by (apply log10_nonneg; lra).
  assert (HL1 : Py.log10 2 <= Py.log10 (x + 1)) by (apply log10_le; lra).
  assert (HL2 : Py.log10 (2 * x + 1) <= Py.log10 2 + Py.log10 (x + 1)).
  { rewrite <- log10_double by lra. apply log10_le; lra. }
  assert (H10 : sqrt (2 * x / 10) <= 2 * sqrt (x / 10)).
  { replace (2 * x / 10) with (2 * (x / 10)) by lra. apply sqrt_double. lra. }
  assert (H5 : sqrt (2 * x / 5) <= 2 * sqrt (x / 5)).
  { replace (2 * x / 5) with (2 * (x / 5)) by lra. apply sqrt_double. lra. }
  pose proof (sqrt_pos (x / 10)). pose proof (sqrt_pos (x / 5)).
  pose proof (sqrt_pos (2 * x / 10)). pose proof (sqrt_pos (2 * x / 5)).
  destruct (Py.mem_str source _); [minmax; lra|].
  destruct (String.eqb source "citizen").
  { assert (Hb : Rmin 0.45 (0.1 * sqrt (2 * x / 10))
                 <= 2 * Rmin 0.45 (0.1 * sqrt (x / 10))) by (minmax; lra).
    set (b2 := Rmin 0.45 (0.1 * sqrt (2 * x / 10))) in *.
    set (b1 := Rmin 0.45 (0.1 * sqrt (x / 10))) in *.
    minmax; lra. }
  destruct (String.eqb source "social").
  { assert (Hb : Rmin 0.35 (0.08 * sqrt (2 * x / 5))
                 <= 2 * Rmin 0.35 (0.08 * sqrt (x / 5))) by (minmax; lra).
    set (b2 := Rmin 0.35 (0.08 * sqrt (2 * x / 5))) in *.
    set (b1 := Rmin 0.35 (0.08 * sqrt (x / 5))) in *.
    minmax; lra. }
  minmax; lra.
Qed.

Lemma source_diversity_boost_range (unique_sources : list string) (n : nat) (b : R) :
  Fusion._calculate_source_diversity_boost unique_sources n = Py.Ok b -> 1 <= b <= 3.
Proof.
  unfold Fusion._calculate_source_diversity_boost.
  destruct (Nat.eqb n 1); [intros H; injection H as <-; lra|].
  assert (G : forall b0, 1.5 <= b0 ->
            (boost <- Py.Ok b0 ;;
             Py.Ok (Rmin 3.0
               (let boost0 :=
                  if Py.mem_str "incois" unique_sources
                  then
                    let boost1 :=
                      if Py.mem_str "citizen" unique_sources then boost + 0.3 else boost in
                    if Py.mem_str "lora" unique_sources then boost1 + 0.4 else boost1
                  else boost in
                if Py.mem_str "lora" unique_sources && Py.mem_str "citizen" unique_sources
                then boost0 + 0.2 else boost0))) = Py.Ok b -> 1 <= b <= 3).
  { intros b0 Hb0. cbn [Py.bind]. cbv zeta. intros H. injection H as <-.
    destruct (Py.mem_str "incois" unique_sources),
             (Py.mem_str "citizen" unique_sources),
             (Py.mem_str "lora" unique_sources); cbn [andb]; minmax; lra. }
  destruct (Nat.eqb n 2); [apply G; lra|].
  destruct (Nat.eqb n 3); [apply G; lra|].
  destruct (4 <=? n)%nat; [apply G; lra|].
  cbn [Py.bind]. discriminate.
Qed.

Lemma source_diversity_boost_raises (unique_sources : list string) (n : nat) :
  Fusion._calculate_source_diversity_boost unique_sources n
  = Py.Raise Py.UnboundLocalError <-> n = 0%nat.
Proof.
  split.
  - intros H. destruct n as [|n]; [reflexivity|exfalso].
    assert (Hok : exists b, Fusion._calculate_source_diversity_boost
                              unique_sources (S n) = Py.Ok b).
    { unfold Fusion._calculate_source_diversity_boost.
      destruct n as [|[|[|n]]]; cbn [Nat.eqb Nat.leb Py.bind]; eauto. }
    destruct Hok as [b Hb]. congruence.
  - intros ->. reflexivity.
Qed.

Lemma media_evidence_boost_range (v t : nat) :
  1 <= Fusion._calculate_media_evidence_boost v t <= 2.5.
Proof.
  unfold Fusion._calculate_media_evidence_boost.
  destruct (Nat.eqb t 0) eqn:E; [lra|]. apply Nat.eqb_neq in E.
  assert (0 <= INR v / INR t).
  { apply Rmult_le_pos; [apply pos_INR|].
    left. apply Rinv_0_lt_compat. apply lt_0_INR. lia. }
  destruct (3 <=? v)%nat; [minmax; nra|].
  destruct (2 <=? v)%nat; minmax; nra.
Qed.

(** X15.  The two multipliers of fusion never reduce a confidence: the boost for
    the diversity of the sources lies between 1 and 3 and the boost for the
    media between 1 and 2.5.  The diversity boost fails, on a variable read
    before it is bound, exactly when it is asked about no source at all. *)
Theorem fusion_multipliers_never_reduce :
  (forall unique_sources num_sources b,
     Fusion._calculate_source_diversity_boost unique_sources num_sources = Py.Ok b ->
     1 <= b <= 3) /\
  (forall unique_sources num_sources,
     Fusion._calculate_source_diversity_boost unique_sources num_sources
     = Py.Raise Py.UnboundLocalError <-> num_sources = 0%nat) /\
  (forall verified_media_count total_media_count,
     1 <= Fusion._calculate_media_evidence_boost verified_media_count total_media_count
       <= 2.5).
Proof.
  split; [exact source_diversity_boost_range|].
  split; [exact source_diversity_boost_raises|exact media_evidence_boost_range].
Qed.

Lemma fusion_multipliers_never_reduce_witness :
  exists b,
    Fusion._calculate_source_diversity_boost ["incois"; "citizen"] 2 = Py.Ok b /\
    1 <= b <= 3.
Proof.
  eexists. split; [reflexivity|].
  apply (proj1 fusion_multipliers_never_reduce ["incois"; "citizen"] 2%nat).
  reflexivity.
Defined.

(** ** Fusion: the ranges of the result *)

Lemma append_to_all_nonneg (groups : list (string * list R)) (s : string) (c : R) :
  Forall (fun g => Forall (fun x => 0 <= x) (snd g)) groups -> 0 <= c ->
  Forall (fun g => Forall (fun x => 0 <= x) (snd g)) (Fusion.append_to groups s c).
Proof.
  intros Hg Hc. induction groups as [|[k l] groups IH]; simpl.
  - constructor; [|constructor]. cbn [snd]. constructor; [exact Hc|constructor].
  - inversion Hg as [|? ? Hl Hrest]; subst. destruct (String.eqb k s).
    + constructor; [|exact Hrest]. cbn [snd] in *.
      apply Forall_app. split; [exact Hl|constructor; [exact Hc|constructor]].
    + constructor; [exact Hl|apply IH, Hrest].
Qed.

Lemma collect_all_nonneg (reports : list Report.t) :
  (forall x, In x reports -> 0 <= Report.nlp_conf x /\ 0 <= Report.credibility x) ->
  Forall (fun g => Forall (fun x => 0 <= x) (snd g)) (fst (fst (Fusion.collect reports))).
Proof.
  induction reports as [|r reports IH] using rev_ind; intros H; [constructor|].
  rewrite collect_groups_snoc. apply append_to_all_nonneg.
  - apply IH. intros x Hx. apply H, in_or_app. left. exact Hx.
  - destruct (H r) as [H1 H2]; [apply in_or_app; right; left; reflexivity|].
    apply media_boosted_confidence_nonneg; assumption.
Qed.

Lemma source_totals_nonneg (groups : list (string * list R)) :
  Forall (fun g => Forall (fun x => 0 <= x) (snd g)) groups ->
  0 <= fst (Fusion.source_totals groups 0 0).
Proof.
  induction groups as [|[s confs] groups IH]; intros H; [simpl; lra|].
  inversion H as [|? ? Hc Hrest]; subst. cbn [snd] in Hc.
  rewrite source_totals_cons.
  destruct (source_totals_shift groups
              (0 + Dedupe.sum_R confs / INR (List.length confs)
                   * Fusion._calculate_volume_factor (List.length confs) s
                   * Py.get Fusion.source_weights s 0.3)
              (0 + Py.get Fusion.source_weights s 0.3)) as [-> _].
  specialize (IH Hrest).
  pose proof (sum_R_nonneg confs Hc) as Hs.
  pose proof (volume_factor_nonneg (List.length confs) s) as Hv.
  pose proof (source_weight_pos s) as Hw.
  assert (Hi : 0 <= / INR (List.length confs)).
  { destruct confs as [|c confs]; [cbn [List.length INR]; rewrite Rinv_0; lra|].
    left. apply Rinv_0_lt_compat, lt_0_INR. simpl. lia. }
  assert (0 <= Dedupe.sum_R confs / INR (List.length confs)
               * Fusion._calculate_volume_factor (List.length confs) s
               * Py.get Fusion.source_weights s 0.3).
  { repeat apply Rmult_le_pos; lra. }
  lra.
Qed.

Lemma collect_verified_count (reports : list Report.t) :
  snd (fst (Fusion.collect reports))
  = List.length (filter (fun r => Report.has_media r && Report.media_verified r) reports).
Proof.
  induction reports as [|r reports IH] using rev_ind; [reflexivity|].
  rewrite collect_snoc, filter_app, length_app.
  destruct (Fusion.collect reports) as [[g v] t]. cbn [fst snd] in IH. subst v.
  cbn [Fusion.collect_step fst snd filter].
  destruct (Report.has_media r && Report.media_verified r); cbn [List.length]; lia.
Qed.

Lemma calculate_weighted_confidence_range (reports : list Report.t) :
  (forall x, In x reports -> 0 <= Report.nlp_conf x /\ 0 <= Report.credibility x) ->
  exists c,
    Fusion.calculate_weighted_confidence reports = Py.Ok c /\
    0 <= c <= 0.98 /\
    ((forall x, In x reports ->
        Report.has_media x && Report.media_verified x = false) ->
     c <= 0.95).
Proof.
  intros Hpos. destruct reports as [|r0 rest].
  { exists 0.0. split; [reflexivity|]. split; [lra|intros _; lra]. }
  set (reports := r0 :: rest) in *.
  destruct (calculate_weighted_confidence_value reports) as (b & Hb & Hb0 & ->);
    [discriminate|].
  eexists; split; [reflexivity|].
  pose proof (source_totals_nonneg _ (collect_all_nonneg reports Hpos)) as Htc.
  pose proof (media_evidence_boost_nonneg (snd (fst (Fusion.collect reports)))
                                          (snd (Fusion.collect reports))) as Hm.
  set (tc := fst (Fusion.source_totals _ 0 0)) in *.
  set (tw := snd (Fusion.source_totals _ 0 0)) in *.
  set (m := Fusion._calculate_media_evidence_boost _ _) in *.
  assert (Hbase : 0 <= (if Rlt_dec 0 tw then tc / tw else 0.0)).
  { destruct (Rlt_dec 0 tw); [|lra].
    apply Rmult_le_pos; [exact Htc|]. left. apply Rinv_0_lt_compat. assumption. }
  set (base := if Rlt_dec 0 tw then tc / tw else 0.0) in *.
  assert (Hprod : 0 <= base * b * m) by (repeat apply Rmult_le_pos; assumption).
  split.
  - destruct (0 <? snd (fst (Fusion.collect reports)))%nat; minmax; lra.
  - intros Hnone. rewrite collect_verified_count.
    assert (E : filter (fun r => Report.has_media r && Report.media_verified r) reports
                = []).
    { clear -Hnone. induction reports as [|r l IH]; [reflexivity|]. cbn [filter].
      rewrite (Hnone r (or_introl eq_refl)). apply IH.
      intros x Hx. apply Hnone. right. exact Hx. }
    rewrite E. cbn [List.length Nat.ltb Nat.leb]. minmax; lra.
Qed.

(** X16.  For reports whose confidences and credibilities are not negative, the
    fused confidence is defined and lies between 0 and 0.98; it stays at or
    under 0.95 when no report has a verified image. *)
Theorem fused_confidence_range (reports : list Report.t) :
  (forall x, In x reports -> 0 <= Report.nlp_conf x /\ 0 <= Report.credibility x) ->
  exists c,
    Fusion.calculate_weighted_confidence reports = Py.Ok c /\
    0 <= c <= 0.98 /\
    ((forall x, In x reports ->
        Report.has_media x && Report.media_verified x = false) ->
     c <= 0.95).
Proof. exact (calculate_weighted_confidence_range reports). Qed.

Lemma fused_confidence_range_witness :
  exists c,
    Fusion.calculate_weighted_confidence [Samples.flood_report; Samples.verified_report]
    = Py.Ok c /\
    0 <= c <= 0.98.
Proof.
  destruct (fused_confidence_range [Samples.flood_report; Samples.verified_report])
    as (c & Hc & Hr & _).
  - intros x [<-|[<-|[]]]; cbn [Report.nlp_conf Report.credibility
                                  Samples.flood_report Samples.verified_report
                                  Samples.report]; lra.
  - exists c. split; [exact Hc|exact Hr].
Defined.

Lemma fuse_reports_inv (float_repr : R -> string) (isoformat : DT.datetime -> string)
      (reports : list Report.t) (group_stats : option Dedupe.GroupStats)
      (fusion_result : Fusion.FusionResult) :
  Fusion.fuse_reports float_repr isoformat reports group_stats = Py.Ok fusion_result ->
  reports <> [] /\
  Fusion.calculate_weighted_confidence reports
  = Py.Ok (Fusion.confidence fusion_result) /\
  Fusion.calculate_weighted_severity reports = Py.Ok (Fusion.severity fusion_result) /\
  Fusion.hazard_type fusion_result = Fusion.determine_consensus_hazard_type reports /\
  Fusion.status fusion_result
  = Fusion.determine_status
      (Fusion.confidence fusion_result) (Fusion.hazard_type fusion_result)
      (existsb (fun r => String.eqb (Py.lower (Report.source r)) "lora") reports) /\
  Fusion.priority_score fusion_result
  = Fusion.calculate_priority_score
      (Fusion.hazard_type fusion_result) (Fusion.confidence fusion_result)
      (Fusion.severity fusion_result) /\
  (Fusion.centroid_lat fusion_result, Fusion.centroid_lon fusion_result)
  = Fusion.calculate_centroid reports /\
  Fusion.evidence_json fusion_result
  = Fusion.create_evidence_json float_repr isoformat reports group_stats.
Proof.
  unfold Fusion.fuse_reports.
  destruct (Dedupe.is_nil reports) eqn:Enil; [discriminate|].
  destruct (Fusion.calculate_weighted_confidence reports) as [c|]; [|discriminate].
  destruct (Fusion.calculate_weighted_severity reports) as [s|]; [|discriminate].
  cbn [Py.bind]. destruct (Fusion.calculate_centroid reports) as [clat clon].
  intros H. injection H as <-.
  cbn [Fusion.confidence Fusion.severity Fusion.hazard_type Fusion.status
       Fusion.priority_score Fusion.centroid_lat Fusion.centroid_lon
       Fusion.evidence_json].
  split; [intros ->; discriminate|]. repeat split.
Qed.

Lemma calculate_weighted_severity_range (reports : list Report.t) (s : Z) :
  Fusion.calculate_weighted_severity reports = Py.Ok s -> (1 <= s <= 5)%Z.
Proof.
  unfold Fusion.calculate_weighted_severity.
  destruct (Dedupe.is_nil reports); [intros H; injection H as <-; lia|].
  destruct (Py.truediv _ _) as [avg|]; cbn [Py.bind]; [|discriminate].
  intros H. injection H as <-. lia.
Qed.

Lemma alert_iff_status (confidence : R) (hazard_type : string) (has_lora : bool) :
  (Fusion.threshold_auto_alert <= confidence \/
   Fusion.determine_status confidence hazard_type has_lora = "emergency") <->
  (Fusion.determine_status confidence hazard_type has_lora = "emergency" \/
   Fusion.determine_status confidence hazard_type has_lora = "confirmed").
Proof.
  unfold Fusion.determine_status, Fusion.threshold_auto_alert,
    Fusion.threshold_emergency, Fusion.threshold_review_required.
  destruct (has_lora || String.eqb hazard_type "emergency"); [tauto|].
  destruct (Rle_dec 0.9 confidence).
  { destruct (Py.mem_str hazard_type _); split; intros _; [left|right|right|left];
      try reflexivity; lra. }
  destruct (Rle_dec 0.85 confidence); [split; intros _; [right; reflexivity|left; lra]|].
  destruct (Rle_dec 0.3 confidence); split; intros [H|H]; try discriminate; lra.
Qed.

(** X17.  Whatever fusion returns, the severity is between 1 and 5, the confidence
    is at most 0.98, the priority score is at most 1, the status is one of
    emergency, confirmed, pending and review, and an alert is due exactly
    when the status is emergency or confirmed. *)
Theorem fusion_result_ranges
        (float_repr : R -> string) (isoformat : DT.datetime -> string)
        (reports : list Report.t) (group_stats : option Dedupe.GroupStats)
        (fusion_result : Fusion.FusionResult) :
  Fusion.fuse_reports float_repr isoformat reports group_stats = Py.Ok fusion_result ->
  (1 <= Fusion.severity fusion_result <= 5)%Z /\
  Fusion.confidence fusion_result <= 0.98 /\
  Fusion.priority_score fusion_result <= 1 /\
  In (Fusion.status fusion_result) ["emergency"; "confirmed"; "pending"; "review"] /\
  (Fusion.should_create_alert fusion_result = true <->
   Fusion.status fusion_result = "emergency" \/
   Fusion.status fusion_result = "confirmed").
Proof.
  intros H. pose proof (fuse_reports_status _ _ _ _ _ H) as Hst.
  apply fuse_reports_inv in H.
  destruct H as (Hne & Hc & Hs & Hk & Hstatus & Hp & _).
  split; [exact (calculate_weighted_severity_range reports _ Hs)|].
  split.
  { destruct (calculate_weighted_confidence_value reports Hne) as (b & _ & _ & E).
    rewrite E in Hc. injection Hc as <-.
    destruct (0 <? snd (fst (Fusion.collect reports)))%nat; minmax; lra. }
  split.
  { rewrite Hp. unfold Fusion.calculate_priority_score. minmax; lra. }
  split; [exact Hst|].
  unfold Fusion.should_create_alert. rewrite Hstatus.
  rewrite <- alert_iff_status.
  destruct (Rle_dec Fusion.threshold_auto_alert (Fusion.confidence fusion_result))
    as [Hge|Hlt]; cbn [orb].
  - split; [intros _; left; exact Hge|reflexivity].
  - rewrite String.eqb_eq. split; [intros E; right; exact E|].
    intros [Hge|E]; [contradiction|exact E].
Qed.

Lemma fuse_sample :
  exists fr, Fusion.fuse_reports Samples.float_repr Samples.isoformat
                                 [Samples.flood_report] None = Py.Ok fr.
Proof.
  destruct (fuse_reports_ok Samples.float_repr Samples.isoformat
                            [Samples.flood_report] None)
    as (c & s & _ & _ & H); [discriminate|exact sample_severity_weight|].
  eexists. exact H.
Qed.

Lemma fusion_result_ranges_witness :
  exists fr,
    Fusion.fuse_reports Samples.float_repr Samples.isoformat [Samples.flood_report] None
    = Py.Ok fr /\
    (1 <= Fusion.severity fr <= 5)%Z /\
    Fusion.confidence fr <= 0.98 /\
    Fusion.priority_score fr <= 1.
Proof.
  destruct fuse_sample as [fr Hfr]. exists fr. split; [exact Hfr|].
  destruct (fusion_result_ranges _ _ _ _ fr Hfr) as (H1 & H2 & H3 & _).
  auto.
Defined.

(** X18.  A higher confidence never gives a lower status: in the order review,
    pending, confirmed, emergency, the status of a kind of hazard does not go
    down when the confidence goes up; and with a beacon report or the kind
    emergency the status is emergency whatever the confidence. *)
Theorem status_never_drops_when_confidence_rises
        (c1 c2 : R) (hazard_type : string) (has_lora : bool) :
  c1 <= c2 ->
  (Notions.status_rank (Fusion.determine_status c1 hazard_type has_lora)
   <= Notions.status_rank (Fusion.determine_status c2 hazard_type has_lora))%nat /\
  (has_lora = true \/ hazard_type = "emergency" ->
   Fusion.determine_status c1 hazard_type has_lora = "emergency").
Proof.
  intros Hle. unfold Fusion.determine_status, Fusion.threshold_auto_alert,
    Fusion.threshold_emergency, Fusion.threshold_review_required.
  split.
  - destruct (has_lora || String.eqb hazard_type "emergency"); [lia|].
    destruct (Rle_dec 0.9 c1), (Rle_dec 0.9 c2); try lra;
      destruct (Rle_dec 0.85 c1), (Rle_dec 0.85 c2); try lra;
      destruct (Rle_dec 0.3 c1), (Rle_dec 0.3 c2); try lra;
      destruct (Py.mem_str hazard_type ["tsunami"; "earthquake"]);
      vm_compute; lia.
  - intros [-> | ->]; [reflexivity|]. rewrite orb_true_r. reflexivity.
Qed.

Lemma status_never_drops_when_confidence_rises_witness :
  0.5 <= 0.92 /\
  (Notions.status_rank (Fusion.determine_status 0.5 "tsunami" false)
   <= Notions.status_rank (Fusion.determine_status 0.92 "tsunami" false))%nat.
Proof.
  assert (H : 0.5 <= 0.92) by lra.
  split; [exact H|].
  exact (proj1 (status_never_drops_when_confidence_rises 0.5 0.92 "tsunami" false H)).
Defined.

(** ** Fusion: the centroid *)

Lemma weighted_sum_bounds (f w : Report.t -> R) (lo hi : R) (reports : list Report.t) :
  (forall r, In r reports -> lo <= f r <= hi) ->
  (forall r, In r reports -> 0 <= w r) ->
  lo * Dedupe.sum_R (map w reports)
  <= Dedupe.sum_R (map (fun r => f r * w r) reports)
  <= hi * Dedupe.sum_R (map w reports).
Proof.
  induction reports as [|r reports IH]; intros Hf Hw; simpl; [lra|].
  destruct IH as [IH1 IH2];
    [intros x Hx; apply Hf; right; exact Hx|intros x Hx; apply Hw; right; exact Hx|].
  pose proof (Hf r (or_introl eq_refl)). pose proof (Hw r (or_introl eq_refl)).
  split; nra.
Qed.

Lemma plain_sum_bounds (f : Report.t -> R) (lo hi : R) (reports : list Report.t) :
  (forall r, In r reports -> lo <= f r <= hi) ->
  lo * INR (List.length reports) <= Dedupe.sum_R (map f reports)
  <= hi * INR (List.length reports).
Proof.
  induction reports as [|r reports IH]; intros Hf; [simpl; lra|].
  destruct IH as [IH1 IH2]; [intros x Hx; apply Hf; right; exact Hx|].
  pose proof (Hf r (or_introl eq_refl)).
  change (List.length (r :: reports)) with (S (List.length reports)).
  rewrite S_INR. cbn [map Dedupe.sum_R]. split; lra.
Qed.

Lemma quotient_bounds (lo hi x t : R) :
  0 < t -> lo * t <= x <= hi * t -> lo <= x / t <= hi.
Proof.
  intros Ht [H1 H2]. pose proof (Rinv_0_lt_compat t Ht) as Hi.
  assert (E : forall k, k * t / t = k) by (intros k; field; lra).
  rewrite <- (E lo), <- (E hi). unfold Rdiv.
  split; apply Rmult_le_compat_r; lra.
Qed.

Lemma severity_weight_nonneg (r : Report.t) :
  0 <= Report.credibility r -> 0 <= Fusion.severity_weight r.
Proof.
  intros H. unfold Fusion.severity_weight.
  pose proof (source_weight_pos (Py.lower (Report.source r))).
  apply Rmult_le_pos; lra.
Qed.

(** X19.  The centroid of a non-empty group whose credibilities are not negative
    lies inside the box of its reports: its latitude is between the smallest
    and the greatest latitude of the reports, and so is its longitude. *)
Theorem centroid_is_inside_the_box
        (reports : list Report.t) (lat_lo lat_hi lon_lo lon_hi : R) :
  reports <> [] ->
  (forall r, In r reports -> 0 <= Report.credibility r) ->
  (forall r, In r reports ->
     lat_lo <= Report.lat r <= lat_hi /\ lon_lo <= Report.lon r <= lon_hi) ->
  lat_lo <= fst (Fusion.calculate_centroid reports) <= lat_hi /\
  lon_lo <= snd (Fusion.calculate_centroid reports) <= lon_hi.
Proof.
  intros Hne Hc Hbox. unfold Fusion.calculate_centroid.
  rewrite (is_nil_false reports Hne).
  assert (Hw : forall r, In r reports -> 0 <= Fusion.severity_weight r).
  { intros r Hr. apply severity_weight_nonneg, Hc, Hr. }
  destruct (Rlt_dec 0 (Dedupe.sum_R (map Fusion.severity_weight reports))) as [Ht|Ht];
    cbn [fst snd].
  - split; apply quotient_bounds; try exact Ht;
      apply weighted_sum_bounds; try exact Hw; intros r Hr; apply Hbox, Hr.
  - assert (Hn : 0 < INR (List.length reports)).
    { apply lt_0_INR. destruct reports; [congruence|simpl; lia]. }
    split; apply quotient_bounds; try exact Hn;
      apply plain_sum_bounds; intros r Hr; apply Hbox, Hr.
Qed.

Lemma centroid_is_inside_the_box_witness :
  0 <= fst (Fusion.calculate_centroid [Samples.flood_report; MoreSamples.far_report])
    <= 0 /\
  0 <= snd (Fusion.calculate_centroid [Samples.flood_report; MoreSamples.far_report])
    <= 180.
Proof.
  apply (centroid_is_inside_the_box
           [Samples.flood_report; MoreSamples.far_report] 0 0 0 180).
  - discriminate.
  - intros r [<-|[<-|[]]]; cbn [Report.credibility Samples.flood_report Samples.report
                                  MoreSamples.far_report]; lra.
  - intros r [<-|[<-|[]]]; cbn [Report.lat Report.lon Samples.flood_report
                                  Samples.report MoreSamples.far_report]; lra.
Defined.

(** ** The credibility scorer *)

Lemma score_source_reliability_floor (source : string) :
  0.3 <= Credibility.score_source_reliability source <= 1.
Proof.
  unfold Credibility.score_source_reliability.
  apply get_invariant; [|lra].
  unfold Credibility.source_weights.
  repeat (constructor; [simpl; lra|]). constructor.
Qed.

Lemma score_media_presence_values (media_path : option string) :
  0.2 <= Credibility.score_media_presence media_path <= 0.8.
Proof.
  unfold Credibility.score_media_presence.
  destruct media_path as [p|]; [destruct (negb (Py.is_blank p))|]; lra.
Qed.

Lemma score_gps_accuracy_default (float_str : R -> string) (lat lon : R) :
  0 <= Credibility.score_gps_accuracy float_str lat lon None <= 0.7.
Proof.
  unfold Credibility.score_gps_accuracy.
  destruct (negb _); [lra|].
  destruct (_ || _); [lra|].
  destruct (_ || _); lra.
Qed.

Lemma calculate_credibility_bounds
      (float_str : R -> string) (now : Z)
      (source text : string) (lat lon : R) (timestamp : option DT.datetime)
      (media_path : option string) (gps_accuracy : option R)
      (reporter_id : option string) (result : Credibility.CredibilityResult) :
  Credibility.calculate_credibility float_str now source text lat lon timestamp
                                    media_path gps_accuracy reporter_id
  = Py.Ok result ->
  0.185 <= Credibility.score result <= 0.945 /\
  (gps_accuracy = None -> Credibility.score result <= 0.9) /\
  Ingest.or_half (Some (Credibility.score result)) = Credibility.score result.
Proof.
  intros H.
  destruct (calculate_credibility_inv _ _ _ _ _ _ _ _ _ _ _ H) as [temporal Ht].
  destruct (calculate_credibility_value float_str now source text lat lon timestamp
              media_path gps_accuracy reporter_id temporal Ht)
    as (result' & E & Hs & _).
  rewrite E in H. injection H as <-.
  pose proof (score_source_reliability_floor source).
  pose proof (score_media_presence_values media_path).
  pose proof (score_gps_accuracy_range float_str lat lon gps_accuracy).
  pose proof (score_text_quality_range text).
  pose proof (score_temporal_consistency_floor now timestamp temporal Ht).
  assert (Hr : 0.185 <= Credibility.score result' <= 0.945)
    by (rewrite Hs; unfold Credibility.score_past_accuracy; lra).
  split; [exact Hr|]. split.
  - intros ->. pose proof (score_gps_accuracy_default float_str lat lon).
    rewrite Hs. unfold Credibility.score_past_accuracy. lra.
  - unfold Ingest.or_half. destruct (Req_dec_T _ 0) as [E0|E0]; [lra|reflexivity].
Qed.

(** X20.  For every input whose timestamp is missing, naive or in UTC, or has
    an instant that a datetime can hold, the scorer returns a score that is
    never below 0.185 and never above 0.945, and at most 0.9 when no accuracy
    of the position is given, as in the pipeline.  The score is never 0, so
    the pipeline, which reads a stored credibility of 0 as 0.5, reads every
    score of the scorer as it is. *)
Theorem credibility_score_is_positive
        (float_str : R -> string) (now : Z)
        (source text : string) (lat lon : R) (timestamp : option DT.datetime)
        (media_path : option string) (gps_accuracy : option R)
        (reporter_id : option string) :
  Spec.utc_in_range timestamp = true ->
  exists result,
    Credibility.calculate_credibility float_str now source text lat lon timestamp
                                      media_path gps_accuracy reporter_id
    = Py.Ok result /\
    0.185 <= Credibility.score result <= 0.945 /\
    (gps_accuracy = None -> Credibility.score result <= 0.9) /\
    Ingest.or_half (Some (Credibility.score result)) = Credibility.score result.
Proof.
  intros Hr.
  destruct (score_temporal_consistency_ok now timestamp Hr) as [temporal Ht].
  destruct (calculate_credibility_value float_str now source text lat lon timestamp
              media_path gps_accuracy reporter_id temporal Ht) as (result & E & _).
  exists result. split; [exact E|].
  exact (calculate_credibility_bounds float_str now source text lat lon timestamp
                                      media_path gps_accuracy reporter_id result E).
Qed.

Lemma credibility_score_is_positive_witness :
  exists result,
    Credibility.calculate_credibility
      Samples.float_str 1735725600000000 "citizen" "flood near the river" 13.05 80.27
      (Some Samples.t0) None None None
    = Py.Ok result /\
    0.185 <= Credibility.score result <= 0.945 /\
    Credibility.score result <= 0.9.
Proof.
  destruct (credibility_score_is_positive
              Samples.float_str 1735725600000000 "citizen" "flood near the river"
              13.05 80.27 (Some Samples.t0) None None None eq_refl)
    as (result & E & Hr & Hgps & _).
  exists result. split; [exact E|]. split; [exact Hr|exact (Hgps eq_refl)].
Defined.

Lemma instant_in_utc (w : Z) : DT.instant (DT.mkdatetime w (Some 0%Z)) = w.
Proof. unfold DT.instant. cbn [DT.tzoffset DT.wall]. lia. Qed.

Lemma score_temporal_consistency_value (now : Z) (t : DT.datetime) :
  Spec.utc_in_range (Some t) = true ->
  Credibility.score_temporal_consistency now (Some t)
  = Py.Ok (if (now <? DT.instant t)%Z then 0.1
           else
             let age := IZR (now - DT.instant t) / 1000000 in
             if Rle_dec age 3600 then 1.0
             else if Rle_dec age 86400 then 0.9
             else if Rle_dec age 604800 then 0.7
             else if Rle_dec age 2592000 then 0.4
             else 0.2).
Proof.
  intros Hr. unfold Credibility.score_temporal_consistency.
  rewrite normalise_timestamp, Hr. cbn [Py.bind]. rewrite instant_in_utc.
  destruct (now <? DT.instant t)%Z eqn:E; [reflexivity|].
  apply Z.ltb_ge in E. cbv zeta. unfold DT.total_seconds.
  rewrite Rabs_pos_eq.
  - repeat (destruct (Rle_dec _ _); [reflexivity|]). reflexivity.
  - apply Rmult_le_pos; [apply IZR_le; lia|].
    left. apply Rinv_0_lt_compat. lra.
Qed.

(** X21.  For two timestamps that are naive or in UTC, or have an instant that
    a datetime can hold, the scorer returns a score that depends on the
    instant only, not on the time zone or on whether the timestamp is naive;
    among timestamps that are not in the future an older one never scores
    higher than a more recent one and none scores under 0.2, and a timestamp
    in the future scores 0.1, under every timestamp of the past. *)
Theorem older_timestamp_never_scores_higher (now : Z) (t1 t2 : DT.datetime) :
  Spec.utc_in_range (Some t1) = true ->
  Spec.utc_in_range (Some t2) = true ->
  (DT.instant t1 <= DT.instant t2)%Z ->
  exists s1 s2,
    Credibility.score_temporal_consistency now (Some t1) = Py.Ok s1 /\
    Credibility.score_temporal_consistency now (Some t2) = Py.Ok s2 /\
    (DT.instant t1 = DT.instant t2 -> s1 = s2) /\
    ((DT.instant t2 <= now)%Z -> 0.2 <= s1 <= s2) /\
    ((now < DT.instant t2)%Z -> s2 = 0.1).
Proof.
  intros Hr1 Hr2 Hle.
  rewrite (score_temporal_consistency_value now t1 Hr1),
    (score_temporal_consistency_value now t2 Hr2).
  eexists. eexists. split; [reflexivity|]. split; [reflexivity|]. cbv zeta.
  split; [intros ->; reflexivity|]. split.
  - intros Hnow.
    destruct (now <? DT.instant t1)%Z eqn:E1; [apply Z.ltb_lt in E1; lia|].
    destruct (now <? DT.instant t2)%Z eqn:E2; [apply Z.ltb_lt in E2; lia|].
    assert (Hage : IZR (now - DT.instant t2) / 1000000
                   <= IZR (now - DT.instant t1) / 1000000).
    { apply Rmult_le_compat_r; [left; apply Rinv_0_lt_compat; lra|].
      apply IZR_le. lia. }
    set (a1 := IZR (now - DT.instant t1) / 1000000) in *.
    set (a2 := IZR (now - DT.instant t2) / 1000000) in *.
    repeat match goal with
           | |- context [Rle_dec ?x ?y] => destruct (Rle_dec x y)
           end; lra.
  - intros Hnow. rewrite (proj2 (Z.ltb_lt _ _) Hnow). reflexivity.
Qed.

Lemma older_timestamp_never_scores_higher_witness :
  exists s1 s2,
    Credibility.score_temporal_consistency 7200000000 (Some (DT.mkdatetime 0 None))
    = Py.Ok s1 /\
    Credibility.score_temporal_consistency
      7200000000 (Some (DT.mkdatetime 19800000000 (Some 19800000000%Z)))
    = Py.Ok s2 /\
    s1 = s2.
Proof.
  assert (H : (DT.instant (DT.mkdatetime 0 None)
               <= DT.instant (DT.mkdatetime 19800000000 (Some 19800000000%Z)))%Z)
    by (vm_compute; discriminate).
  destruct (older_timestamp_never_scores_higher
              7200000000 (DT.mkdatetime 0 None)
              (DT.mkdatetime 19800000000 (Some 19800000000%Z)) eq_refl eq_refl H)
    as (s1 & s2 & E1 & E2 & Heq & _).
  exists s1, s2. split; [exact E1|]. split; [exact E2|]. exact (Heq eq_refl).
Defined.

(** ** The pipeline: one fusion pass *)

Lemma process_group_fusion_cases
      (float_repr : R -> string) (isoformat : DT.datetime -> string)
      (now : Z) (group_id : option Z) (d : Models.db) :
  let rows := filter (Ingest.in_group group_id) (Models.raw_reports d) in
  (exists kind,
     Ingest._process_group_fusion float_repr isoformat now group_id d
     = (d, Ingest.MinimalFusion 0.0 kind)) \/
  (exists group_stats fusion_result,
     rows <> [] /\
     Dedupe.get_group_statistics (map Ingest.fusion_dict rows) = Py.Ok group_stats /\
     Fusion.fuse_reports float_repr isoformat (map Ingest.fusion_dict rows) group_stats
     = Py.Ok fusion_result /\
     Ingest._process_group_fusion float_repr isoformat now group_id d
     = match Ingest.first_match group_id (Models.hazard_events d) with
       | Some existing_event =>
           (Models.mkdb (Models.raw_reports d)
                        (Ingest.replace_event
                           (Ingest.update_event now fusion_result existing_event)
                           (Models.hazard_events d)),
            Ingest.Fused fusion_result (Models.event_id existing_event) "updated")
       | None =>
           (Models.mkdb (Models.raw_reports d)
                        (Models.hazard_events d
                         ++ [Ingest.new_event now fusion_result
                               (Ingest.next_event_id (Models.hazard_events d))]),
            Ingest.Fused fusion_result (Ingest.next_event_id (Models.hazard_events d))
                         "created")
       end).
Proof.
  cbv zeta.
  destruct (filter (Ingest.in_group group_id) (Models.raw_reports d)) as [|r0 rows] eqn:Er.
  { left. exists "unknown". unfold Ingest._process_group_fusion. rewrite Er. reflexivity. }
  destruct (Dedupe.get_group_statistics (map Ingest.fusion_dict (r0 :: rows)))
    as [stats|e] eqn:Es.
  2:{ left. exists "error". unfold Ingest._process_group_fusion, Ingest.fuse_and_upsert.
      rewrite Er. cbn [Dedupe.is_nil]. rewrite Es. reflexivity. }
  destruct (Fusion.fuse_reports float_repr isoformat
              (map Ingest.fusion_dict (r0 :: rows)) stats) as [fr|e] eqn:Ef.
  2:{ left. exists "error". unfold Ingest._process_group_fusion, Ingest.fuse_and_upsert.
      rewrite Er. cbn [Dedupe.is_nil]. rewrite Es. cbn [Py.bind]. rewrite Ef.
      reflexivity. }
  right. exists stats, fr. split; [discriminate|]. split; [reflexivity|].
  split; [exact Ef|].
  rewrite <- Er in Es, Ef.
  apply (process_group_fusion_value float_repr isoformat now group_id d stats fr);
    [rewrite Er; discriminate|exact Es|exact Ef].
Qed.

Lemma next_event_id_fresh (events : list Models.HazardEvent) :
  ~ In (Ingest.next_event_id events) (map Models.event_id events).
Proof.
  unfold Ingest.next_event_id. intros Hin.
  apply max_default0_ge in Hin. lia.
Qed.

(** Below the greatest key of the table, the key of a new row is a key of
    the table. *)
Lemma next_event_id_in_range (d : Models.db) :
  Notions.keys_below_limit d ->
  (Ingest.next_event_id (Models.hazard_events d) <= Ingest.max_rowid)%Z.
Proof.
  intros Hlimit. unfold Ingest.next_event_id.
  destruct (Models.hazard_events d) as [|e0 events] eqn:Ee.
  - cbn [map Dedupe.max_default0]. unfold Ingest.max_rowid. lia.
  - assert (Hin : In (Dedupe.max_default0 (map Models.event_id (e0 :: events)))
                     (map Models.event_id (e0 :: events))).
    { cbn [map Dedupe.max_default0].
      generalize (Models.event_id e0) as x.
      induction (map Models.event_id events) as [|y l IH]; intros x;
        cbn [fold_left]; [left; reflexivity|].
      destruct (IH (Z.max x y)) as [H|H]; [|right; right; exact H].
      destruct (Z.max_spec x y) as [[_ E]|[_ E]]; rewrite E in *.
      - right; left; exact H.
      - left; exact H. }
    apply in_map_iff in Hin. destruct Hin as (e & He & Hine).
    assert (Models.event_id e < Ingest.max_rowid)%Z
      by (apply Hlimit; rewrite Ee; exact Hine).
    lia.
Qed.

(** X22.  A fusion pass never touches the table of reports.  In the table of
    events, as long as its keys are below the greatest key of the table, the
    pass keeps every key: either the keys are the same as before, or one key
    was added at the end, greater than all the others and itself a key of
    the table; keys that were distinct stay distinct.  When the pass does
    not return a fusion result, because the group has no processed report or
    because an exception was caught, the store is left as it was. *)
Theorem fusion_pass_keeps_reports_and_event_keys
        (float_repr : R -> string) (isoformat : DT.datetime -> string)
        (now : Z) (group_id : option Z) (d : Models.db) :
  Notions.keys_below_limit d ->
  let result := Ingest._process_group_fusion float_repr isoformat now group_id d in
  Models.raw_reports (fst result) = Models.raw_reports d /\
  (map Models.event_id (Models.hazard_events (fst result))
   = map Models.event_id (Models.hazard_events d) \/
   map Models.event_id (Models.hazard_events (fst result))
   = (map Models.event_id (Models.hazard_events d)
      ++ [Ingest.next_event_id (Models.hazard_events d)])%list) /\
  (forall e, In e (Models.hazard_events d) ->
             (Models.event_id e < Ingest.next_event_id (Models.hazard_events d))%Z) /\
  (Ingest.next_event_id (Models.hazard_events d) <= Ingest.max_rowid)%Z /\
  (NoDup (map Models.event_id (Models.hazard_events d)) ->
   NoDup (map Models.event_id (Models.hazard_events (fst result)))) /\
  (forall confidence kind,
     snd result = Ingest.MinimalFusion confidence kind -> fst result = d).
Proof.
  intros Hlimit. cbv zeta.
  assert (Hfresh : forall e, In e (Models.hazard_events d) ->
            (Models.event_id e < Ingest.next_event_id (Models.hazard_events d))%Z).
  { intros e He. unfold Ingest.next_event_id.
    pose proof (max_default0_ge _ _ (in_map Models.event_id _ _ He)). lia. }
  assert (Hkey : (Ingest.next_event_id (Models.hazard_events d) <= Ingest.max_rowid)%Z)
    by (apply next_event_id_in_range, Hlimit).
  destruct (process_group_fusion_cases float_repr isoformat now group_id d)
    as [[kind ->]|(stats & fr & _ & _ & _ & ->)].
  - cbn [fst snd]. repeat split; auto.
  - destruct (Ingest.first_match group_id (Models.hazard_events d)) as [existing|];
      cbn [fst snd Models.raw_reports Models.hazard_events].
    + rewrite replace_event_ids.
      split; [reflexivity|]. split; [left; reflexivity|]. split; [exact Hfresh|].
      split; [exact Hkey|]. split; [auto|discriminate].
    + rewrite map_app. cbn [map Ingest.new_event Models.event_id].
      split; [reflexivity|]. split; [right; reflexivity|]. split; [exact Hfresh|].
      split; [exact Hkey|]. split; [|discriminate].
      intros Hnd. apply NoDup_app; [exact Hnd|constructor; [intros []|constructor]|].
      intros x Hx [Hxn|[]]. subst x. exact (next_event_id_fresh _ Hx).
Qed.

Lemma fusion_pass_keeps_reports_and_event_keys_witness :
  let result :=
    Ingest._process_group_fusion Samples.float_repr Samples.isoformat 0 (Some 7%Z)
                                 Samples.first_db in
  Models.raw_reports (fst result) = Models.raw_reports Samples.first_db /\
  fst result = Samples.first_db.
Proof.
  destruct (fusion_pass_keeps_reports_and_event_keys
              Samples.float_repr Samples.isoformat 0 (Some 7%Z) Samples.first_db)
    as (H1 & _ & _ & _ & _ & H5).
  { intros e []. }
  cbv zeta. split; [exact H1|].
  apply (H5 0.0 "unknown"). reflexivity.
Defined.

Lemma round_IZR (z : Z) : Fusion.round (IZR z) = z.
Proof.
  unfold Fusion.round. rewrite ZfloorZ.
  destruct (Rlt_dec (IZR z - IZR z) (1 / 2)); [reflexivity|lra].
Qed.

Lemma fusion_dict_severity_sum (rows : list Models.RawReport) :
  Dedupe.sum_R
    (map (fun sw => IZR (fst sw) * snd sw)
         (combine (map Fusion.report_severity (map Ingest.fusion_dict rows))
                  (map Fusion.severity_weight (map Ingest.fusion_dict rows))))
  = 3 * Dedupe.sum_R (map Fusion.severity_weight (map Ingest.fusion_dict rows)).
Proof.
  induction rows as [|r rows IH]; [simpl; lra|].
  cbn [map combine Dedupe.sum_R fst snd]. rewrite IH.
  change (Fusion.report_severity (Ingest.fusion_dict r)) with 3%Z. lra.
Qed.

Lemma pipeline_weighted_severity (rows : list Models.RawReport) (s : Z) :
  rows <> [] ->
  Fusion.calculate_weighted_severity (map Ingest.fusion_dict rows) = Py.Ok s ->
  s = 3%Z.
Proof.
  intros Hne. unfold Fusion.calculate_weighted_severity.
  rewrite is_nil_false by (destruct rows; [congruence|discriminate]).
  rewrite fusion_dict_severity_sum. unfold Py.truediv.
  destruct (Req_dec_T _ 0) as [E|E]; cbn [Py.bind]; [discriminate|].
  intros H. injection H as <-.
  replace (3 * _ / _) with (IZR 3) by (field; exact E).
  rewrite round_IZR. reflexivity.
Qed.

(** X23.  The pipeline stores neither the severity of a bulletin nor the
    severity boost of the classifier, so every event that a fusion pass
    writes has severity 3: the row of the event carries the severity, the
    confidence and the status of the fusion result, and that severity
    is 3. *)
Theorem pipeline_events_have_severity_three
        (float_repr : R -> string) (isoformat : DT.datetime -> string)
        (now : Z) (group_id : option Z) (d d' : Models.db)
        (fusion_result : Fusion.FusionResult) (event_id : Z) (action : string) :
  Ingest._process_group_fusion float_repr isoformat now group_id d
  = (d', Ingest.Fused fusion_result event_id action) ->
  Fusion.severity fusion_result = 3%Z /\
  (exists e, In e (Models.hazard_events d') /\ Models.event_id e = event_id) /\
  (forall e, In e (Models.hazard_events d') -> Models.event_id e = event_id ->
     Models.severity e = 3%Z /\
     Models.confidence e = Some (Fusion.confidence fusion_result) /\
     Models.status e = Fusion.status fusion_result /\
     Models.evidence_json e = Fusion.evidence_json fusion_result).
Proof.
  intros H.
  destruct (process_group_fusion_cases float_repr isoformat now group_id d)
    as [[kind E]|(stats & fr & Hne & _ & Hfuse & E)]; rewrite E in H; [discriminate|].
  assert (Hs : Fusion.severity fr = 3%Z).
  { apply fuse_reports_inv in Hfuse. destruct Hfuse as (_ & _ & Hsev & _).
    exact (pipeline_weighted_severity _ _ Hne Hsev). }
  destruct (Ingest.first_match group_id (Models.hazard_events d)) as [existing|] eqn:Em;
    injection H as <- <- <- _; cbn [Models.hazard_events].
  - split; [exact Hs|]. split.
    + exists (Ingest.update_event now fr existing). split; [|reflexivity].
      apply replace_event_present. exists existing. split; [|reflexivity].
      unfold Ingest.first_match in Em. apply find_some in Em. tauto.
    + intros e He Hid.
      rewrite (replace_event_status _ _ e He) by exact Hid.
      cbn [Ingest.update_event Models.severity Models.confidence Models.status
           Models.evidence_json]. auto.
  - split; [exact Hs|]. split.
    + eexists. split; [apply in_or_app; right; left; reflexivity|reflexivity].
    + intros e He Hid. apply in_app_or in He. destruct He as [He|[<-|[]]].
      * exfalso. apply (next_event_id_fresh (Models.hazard_events d)).
        rewrite <- Hid. apply in_map, He.
      * cbn [Ingest.new_event Models.severity Models.confidence Models.status
             Models.evidence_json]. auto.
Qed.

Lemma pipeline_events_have_severity_three_witness :
  exists d1 fr1,
    Ingest._process_group_fusion Samples.float_repr Samples.isoformat 0 (Some 1%Z)
                                 Samples.first_db
    = (d1, Ingest.Fused fr1 1 "created") /\
    Fusion.severity fr1 = 3%Z /\
    (forall e, In e (Models.hazard_events d1) -> Models.event_id e = 1%Z ->
       Models.severity e = 3%Z).
Proof.
  destruct approved_then_fused as (d1 & fr1 & _ & _ & _ & _ & H1 & _).
  destruct (pipeline_events_have_severity_three _ _ _ _ _ _ _ _ _ H1)
    as (Hs & _ & He).
  exists d1, fr1. split; [exact H1|]. split; [exact Hs|].
  intros e Hin Hid. exact (proj1 (He e Hin Hid)).
Defined.

Lemma min_from_naive (l : list DT.datetime) :
  forall best, DT.is_naive best = true -> Forall (fun t => DT.is_naive t = true) l ->
  exists m, Dedupe.min_from best l = Py.Ok m.
Proof.
  induction l as [|t l IH]; intros best Hb Hl; [eexists; reflexivity|].
  inversion Hl as [|? ? Ht Hl']; subst. cbn [Dedupe.min_from].
  unfold DT.lt. unfold DT.is_naive in Hb, Ht.
  destruct (DT.tzoffset t) eqn:Et; [discriminate|].
  destruct (DT.tzoffset best) eqn:Eb; [discriminate|]. cbn [Py.bind].
  apply IH; [|exact Hl'].
  destruct (DT.wall t <? DT.wall best)%Z; unfold DT.is_naive;
    [rewrite Et|rewrite Eb]; reflexivity.
Qed.

Lemma max_from_naive (l : list DT.datetime) :
  forall best, DT.is_naive best = true -> Forall (fun t => DT.is_naive t = true) l ->
  exists m, Dedupe.max_from best l = Py.Ok m.
Proof.
  induction l as [|t l IH]; intros best Hb Hl; [eexists; reflexivity|].
  inversion Hl as [|? ? Ht Hl']; subst. cbn [Dedupe.max_from].
  unfold DT.lt. unfold DT.is_naive in Hb, Ht.
  destruct (DT.tzoffset t) eqn:Et; [discriminate|].
  destruct (DT.tzoffset best) eqn:Eb; [discriminate|]. cbn [Py.bind].
  apply IH; [|exact Hl'].
  destruct (DT.wall best <? DT.wall t)%Z; unfold DT.is_naive;
    [rewrite Et|rewrite Eb]; reflexivity.
Qed.

Lemma some_values_naive (reports : list Report.t) :
  (forall r, In r reports -> MoreNotions.naive_timestamp (Report.timestamp r)) ->
  Forall (fun t => DT.is_naive t = true)
         (Dedupe.some_values (map Report.timestamp reports)).
Proof.
  induction reports as [|r reports IH]; intros H; [constructor|].
  cbn [map Dedupe.some_values].
  assert (IH' := IH (fun x Hx => H x (or_intror Hx))).
  specialize (H r (or_introl eq_refl)).
  destruct (Report.timestamp r); [constructor; assumption|exact IH'].
Qed.

Lemma get_group_statistics_naive (reports : list Report.t) :
  (forall r, In r reports -> MoreNotions.naive_timestamp (Report.timestamp r)) ->
  exists st, Dedupe.get_group_statistics reports = Py.Ok st.
Proof.
  intros H. unfold Dedupe.get_group_statistics.
  destruct (Dedupe.is_nil reports); [eexists; reflexivity|].
  pose proof (some_values_naive reports H) as Hn.
  destruct (Dedupe.some_values (map Report.timestamp reports)) as [|t l].
  { cbn [Dedupe.min_time Dedupe.max_time Py.bind]. eexists; reflexivity. }
  inversion Hn as [|? ? Ht Hl]; subst.
  unfold Dedupe.min_time, Dedupe.max_time.
  destruct (min_from_naive l t Ht Hl) as [m1 ->].
  destruct (max_from_naive l t Ht Hl) as [m2 ->].
  cbn [Py.bind]. eexists; reflexivity.
Qed.

Lemma or_half_positive (x : option R) : Notions.not_negative x -> 0 < Ingest.or_half x.
Proof.
  unfold Notions.not_negative, Ingest.or_half.
  destruct x as [v|]; [|intros _; lra].
  intros Hv. destruct (Req_dec_T v 0); lra.
Qed.

Lemma fusion_dict_weights_positive (rows : list Models.RawReport) :
  rows <> [] ->
  (forall r, In r rows -> Notions.not_negative (Models.credibility r)) ->
  0 < Dedupe.sum_R (map Fusion.severity_weight (map Ingest.fusion_dict rows)).
Proof.
  intros Hne H. induction rows as [|r rows IH]; [congruence|].
  cbn [map Dedupe.sum_R].
  assert (Hr : 0 < Fusion.severity_weight (Ingest.fusion_dict r)).
  { unfold Fusion.severity_weight. cbn [Ingest.fusion_dict Report.credibility].
    apply Rmult_lt_0_compat; [apply source_weight_pos|].
    apply or_half_positive, H. left. reflexivity. }
  destruct rows as [|r' rows']; [simpl; lra|].
  assert (0 < Dedupe.sum_R (map Fusion.severity_weight
                                (map Ingest.fusion_dict (r' :: rows')))).
  { apply IH; [discriminate|]. intros x Hx. apply H. right. exact Hx. }
  lra.
Qed.

(** X24.  A fusion pass over a group that has a processed report always returns a
    fusion result, and writes its event, when the stored credibilities of the
    group are missing or not negative and its timestamps carry no time zone:
    a stored credibility of 0 is read as 0.5, so the weights of the severity
    never sum to zero. *)
Theorem fusion_pass_returns_a_result
        (float_repr : R -> string) (isoformat : DT.datetime -> string)
        (now : Z) (group_id : option Z) (d : Models.db) :
  filter (Ingest.in_group group_id) (Models.raw_reports d) <> [] ->
  (forall r, In r (filter (Ingest.in_group group_id) (Models.raw_reports d)) ->
     Notions.not_negative (Models.credibility r) /\
     MoreNotions.naive_timestamp (Models.ts r)) ->
  exists d' fusion_result event_id action,
    Ingest._process_group_fusion float_repr isoformat now group_id d
    = (d', Ingest.Fused fusion_result event_id action) /\
    (action = "updated" \/ action = "created") /\
    exists e, In e (Models.hazard_events d') /\ Models.event_id e = event_id /\
              Models.confidence e = Some (Fusion.confidence fusion_result).
Proof.
  intros Hne Hrows.
  set (rows := filter (Ingest.in_group group_id) (Models.raw_reports d)) in *.
  destruct (get_group_statistics_naive (map Ingest.fusion_dict rows)) as [stats Hstats].
  { intros r Hr. apply in_map_iff in Hr. destruct Hr as (x & <- & Hx).
    cbn [Ingest.fusion_dict Report.timestamp]. apply Hrows, Hx. }
  destruct (fuse_reports_ok float_repr isoformat (map Ingest.fusion_dict rows) stats)
    as (c & s & _ & _ & Hfuse).
  { destruct rows; [congruence|discriminate]. }
  { pose proof (fusion_dict_weights_positive rows Hne
                  (fun r Hr => proj1 (Hrows r Hr))). lra. }
  match type of Hfuse with _ = Py.Ok ?x => remember x as fr eqn:Hfr end.
  rewrite (process_group_fusion_value float_repr isoformat now group_id d stats fr
                                      Hne Hstats Hfuse).
  destruct (Ingest.first_match group_id (Models.hazard_events d)) as [existing|] eqn:Em.
  - do 4 eexists. split; [reflexivity|]. split; [left; reflexivity|].
    exists (Ingest.update_event now fr existing).
    cbn [Models.hazard_events]. split; [|split; reflexivity].
    apply replace_event_present. exists existing. split; [|reflexivity].
    unfold Ingest.first_match in Em. apply find_some in Em. tauto.
  - do 4 eexists. split; [reflexivity|]. split; [right; reflexivity|].
    eexists. cbn [Models.hazard_events].
    split; [apply in_or_app; right; left; reflexivity|split; reflexivity].
Qed.

Lemma fusion_pass_returns_a_result_witness :
  exists d' fusion_result event_id action,
    Ingest._process_group_fusion Samples.float_repr Samples.isoformat 0 (Some 1%Z)
                                 Samples.two_groups_db
    = (d', Ingest.Fused fusion_result event_id action) /\
    (action = "updated" \/ action = "created") /\
    exists e, In e (Models.hazard_events d') /\ Models.event_id e = event_id /\
              Models.confidence e = Some (Fusion.confidence fusion_result).
Proof.
  apply (fusion_pass_returns_a_result Samples.float_repr Samples.isoformat 0
                                      (Some 1%Z) Samples.two_groups_db).
  - discriminate.
  - intros r [<-|[]]. split; [|reflexivity].
    cbn [Notions.not_negative Models.credibility Samples.row]. lra.
Defined.

(** ** The pipeline: one report *)

Lemma process_group_fusion_reports
      (float_repr : R -> string) (isoformat : DT.datetime -> string)
      (now : Z) (group_id : option Z) (d : Models.db) :
  Models.raw_reports (fst (Ingest._process_group_fusion float_repr isoformat
                                                        now group_id d))
  = Models.raw_reports d.
Proof.
  destruct (process_group_fusion_cases float_repr isoformat now group_id d)
    as [[kind ->]|(stats & fr & _ & _ & _ & ->)]; [reflexivity|].
  destruct (Ingest.first_match group_id (Models.hazard_events d)); reflexivity.
Qed.

Lemma classify_and_group_inv (float_str : R -> string) (now : Z) (d d' : Models.db)
      (report : Models.RawReport) (is_emergency : bool) (group_id : option Z) :
  Ingest.classify_and_group float_str now d report is_emergency = Py.Ok (d', group_id) ->
  exists nlp_type nlp_conf credibility,
    0.075 <= nlp_conf <= 0.95 /\
    0.185 <= credibility <= 0.9 /\
    d' = Models.mkdb
           (Ingest.replace_report
              (Ingest.set_group
                 (Ingest.set_classification report nlp_type nlp_conf credibility)
                 group_id)
              (Models.raw_reports d))
           (Models.hazard_events d).
Proof.
  unfold Ingest.classify_and_group.
  destruct (Credibility.calculate_credibility _ _ _ _ _ _ _ _ _ _)
    as [credibility_result|] eqn:Ecred; cbn [Py.bind]; [|discriminate].
  apply calculate_credibility_bounds in Ecred. destruct Ecred as (H1 & H2 & _).
  specialize (H2 eq_refl).
  set (cred := Credibility.score credibility_result) in *.
  unfold Ingest.classify.
  destruct (is_emergency || String.eqb (Models.source report) "lora_sos");
    [cbn [Ingest.attr_hazard_type Ingest.emergency_override Py.bind]; discriminate|].
  cbn [Ingest.attr_hazard_type Ingest.attr_confidence Py.bind].
  set (nlp := NLP.classify_text _ _ _ _).
  assert (Hconf : 0.075 <= NLP.confidence nlp <= 0.95)
    by apply classify_text_confidence_bounds.
  destruct (Dedupe.find_duplicates _ _) as [dr|]; cbn [Py.bind]; [|discriminate].
  intros H. injection H as <- <-.
  exists (NLP.hazard_type nlp), (NLP.confidence nlp), cred.
  split; [exact Hconf|]. split; [lra|reflexivity].
Qed.

Lemma find_replace_report (rid : Z) (r r' : Models.RawReport)
      (reports : list Models.RawReport) :
  find (fun x => Z.eqb (Models.id x) rid) reports = Some r ->
  Models.id r' = rid ->
  find (fun x => Z.eqb (Models.id x) rid) (Ingest.replace_report r' reports) = Some r'.
Proof.
  intros Hf Hid. subst rid. induction reports as [|x reports IH]; [discriminate|].
  unfold Ingest.replace_report in *. cbn [find map] in *.
  destruct (Z.eqb (Models.id x) (Models.id r')) eqn:E.
  - rewrite Z.eqb_refl. reflexivity.
  - rewrite E. apply IH, Hf.
Qed.

Lemma process_single_report_cases
      (float_repr : R -> string) (isoformat : DT.datetime -> string)
      (float_str : R -> string) (now report_id : Z) (d : Models.db)
      (is_emergency : bool) :
  let result :=
    Ingest.process_single_report float_repr isoformat float_str now report_id d
                                 is_emergency in
  (result = (d, false)) \/
  (result = (d, true) /\
   exists report,
     find (fun r => Z.eqb (Models.id r) report_id) (Models.raw_reports d) = Some report /\
     Models.processed report = true) \/
  (snd result = true /\
   exists report nlp_type nlp_conf credibility group_id,
     find (fun r => Z.eqb (Models.id r) report_id) (Models.raw_reports d) = Some report /\
     Models.processed report = false /\
     0.075 <= nlp_conf <= 0.95 /\
     0.185 <= credibility <= 0.9 /\
     Models.raw_reports (fst result)
     = Ingest.replace_report
         (Ingest.set_group
            (Ingest.set_classification report nlp_type nlp_conf credibility) group_id)
         (Models.raw_reports d) /\
     fst result
     = fst (Ingest._process_group_fusion
              float_repr isoformat now group_id
              (Models.mkdb
                 (Ingest.replace_report
                    (Ingest.set_group
                       (Ingest.set_classification report nlp_type nlp_conf credibility)
                       group_id)
                    (Models.raw_reports d))
                 (Models.hazard_events d)))).
Proof.
  cbv zeta. unfold Ingest.process_single_report.
  destruct (find _ (Models.raw_reports d)) as [report|] eqn:Ef; [|left; reflexivity].
  destruct (Models.processed report) eqn:Ep.
  { right. left. split; [reflexivity|]. exists report. auto. }
  destruct (Ingest.classify_and_group float_str now d report is_emergency)
    as [[d' g]|] eqn:Ec; [|left; reflexivity].
  right. right.
  apply classify_and_group_inv in Ec.
  destruct Ec as (k & c & cred & Hc & Hcred & ->).
  destruct (Ingest._process_group_fusion _ _ now g _) as [d'' o] eqn:Eg.
  cbn [fst snd]. split; [reflexivity|].
  exists report, k, c, cred, g. split; [reflexivity|]. split; [exact Ep|].
  split; [exact Hc|]. split; [exact Hcred|].
  pose proof (process_group_fusion_reports
                float_repr isoformat now g
                (Models.mkdb
                   (Ingest.replace_report
                      (Ingest.set_group (Ingest.set_classification report k c cred) g)
                      (Models.raw_reports d))
                   (Models.hazard_events d))) as Hr.
  rewrite Eg in Hr |- *. cbn [fst Models.raw_reports] in Hr |- *.
  split; [exact Hr|reflexivity].
Qed.

(** The timestamp that the pipeline hands to the scorer. *)
Lemma pipeline_timestamp_in_range (ts : option DT.datetime) :
  Spec.utc_in_range ts = true ->
  Spec.utc_in_range
    match ts with
    | Some t => Some (if DT.is_naive t then DT.replace_utc t else t)
    | None => None
    end = true.
Proof.
  destruct ts as [t|]; [|reflexivity].
  unfold Spec.utc_in_range, DT.is_naive, DT.is_utc, DT.replace_utc.
  destruct t as [w [off|]]; cbn [DT.tzoffset DT.wall]; [auto|reflexivity].
Qed.

(** Steps 1 to 3 succeed for a report that is not a beacon report, whose
    timestamp the scorer can bring to UTC and can be subtracted from those
    of the processed rows, when each of these rows has a group; the report
    then gets a group. *)
Lemma classify_and_group_ok (float_str : R -> string) (now : Z) (d : Models.db)
      (report : Models.RawReport) :
  Models.source report <> "lora_sos" ->
  Spec.utc_in_range (Models.ts report) = true ->
  (forall other, In other (Models.raw_reports d) ->
     Models.processed other = true -> Models.id other <> Models.id report ->
     Spec.same_awareness (Models.ts report) (Models.ts other) = true /\
     Models.group_id other <> None) ->
  exists d' g,
    Ingest.classify_and_group float_str now d report false = Py.Ok (d', Some g).
Proof.
  intros Hsrc Hts Hothers.
  unfold Ingest.classify_and_group, Ingest.classify.
  destruct (score_temporal_consistency_ok now _ (pipeline_timestamp_in_range _ Hts))
    as [temporal Ht].
  destruct (calculate_credibility_value
              float_str now (Models.source report) (Models.text report)
              (Models.lat report) (Models.lon report) _ (Models.media_path report)
              None None temporal Ht) as (credibility_result & -> & _).
  cbn [Py.bind].
  destruct (String.eqb_spec (Models.source report) "lora_sos") as [E|_];
    [contradiction|].
  cbn [orb Ingest.attr_hazard_type Ingest.attr_confidence Py.bind].
  assert (Hex : forall e,
             In e (Ingest._get_reports_for_dedup
                     d (Models.id (Ingest.set_classification
                                     report
                                     (NLP.hazard_type
                                        (NLP.classify_text
                                           (Models.text report) (Models.source report)
                                           (Models.has_media report
                                            || Ingest.has_path (Models.media_path report))
                                           (Models.media_verified report)))
                                     (NLP.confidence
                                        (NLP.classify_text
                                           (Models.text report) (Models.source report)
                                           (Models.has_media report
                                            || Ingest.has_path (Models.media_path report))
                                           (Models.media_verified report)))
                                     (Credibility.score credibility_result)))) ->
             Spec.same_awareness (Models.ts report) (Report.timestamp e) = true /\
             Spec.has_group e = true).
  { intros e He. unfold Ingest._get_reports_for_dedup in He.
    apply in_map_iff in He. destruct He as (other & <- & Hother).
    apply filter_In in Hother. destruct Hother as [Hin Hcond].
    apply andb_true_iff in Hcond. destruct Hcond as [Hproc Hne].
    apply negb_true_iff, Z.eqb_neq in Hne.
    cbn [Ingest.set_classification Models.id] in Hne.
    destruct (Hothers other Hin Hproc Hne) as [Haw Hgrp].
    split; [exact Haw|].
    unfold Spec.has_group, Dedupe.group_of.
    cbn [Ingest.dedup_dict Report.group_id].
    destruct (Models.group_id other); [reflexivity|congruence]. }
  match goal with
  | |- context [Dedupe.find_duplicates ?a ?b] =>
      destruct (find_duplicates_ok a b) as [dr Hdr];
      [intros e He; exact (proj1 (Hex e He))
      |intros e He; exact (proj2 (Hex e He))
      |destruct (find_duplicates_group a b dr Hdr) as [g Hg];
       [intros e He; exact (proj2 (Hex e He))|]]
  end.
  rewrite Hdr. cbn [Py.bind]. rewrite Hg. eexists. exists g. reflexivity.
Qed.

Lemma process_single_report_succeeds
      (float_repr : R -> string) (isoformat : DT.datetime -> string)
      (float_str : R -> string) (now report_id : Z) (d : Models.db)
      (report : Models.RawReport) :
  find (fun r => Z.eqb (Models.id r) report_id) (Models.raw_reports d) = Some report ->
  Models.processed report = false ->
  Models.source report <> "lora_sos" ->
  Spec.utc_in_range (Models.ts report) = true ->
  (forall other, In other (Models.raw_reports d) ->
     Models.processed other = true -> Models.id other <> report_id ->
     Spec.same_awareness (Models.ts report) (Models.ts other) = true /\
     Models.group_id other <> None) ->
  exists d' g,
    Ingest.classify_and_group float_str now d report false = Py.Ok (d', Some g) /\
    Ingest.process_single_report float_repr isoformat float_str now report_id d false
    = (fst (Ingest._process_group_fusion float_repr isoformat now (Some g) d'), true).
Proof.
  intros Hf Hp Hsrc Hts Hothers.
  assert (Hid : Models.id report = report_id).
  { apply find_some in Hf. destruct Hf as [_ E]. apply Z.eqb_eq in E. exact E. }
  destruct (classify_and_group_ok float_str now d report Hsrc Hts) as (d' & g & Hok).
  { rewrite Hid. exact Hothers. }
  exists d', g. split; [exact Hok|].
  unfold Ingest.process_single_report. rewrite Hf, Hp, Hok.
  destruct (Ingest._process_group_fusion _ _ now (Some g) d'). reflexivity.
Qed.

(** X25.  Processing is idempotent: once a report has been processed with
    success, processing it again, at any later time and with or without the
    emergency flag, returns success and leaves the store as it is; the row of
    the report is marked as processed. *)
Theorem processing_a_report_again_changes_nothing
        (float_repr : R -> string) (isoformat : DT.datetime -> string)
        (float_str : R -> string) (now report_id : Z) (d d' : Models.db)
        (is_emergency : bool) :
  Ingest.process_single_report float_repr isoformat float_str now report_id d
                               is_emergency = (d', true) ->
  (exists report,
     find (fun r => Z.eqb (Models.id r) report_id) (Models.raw_reports d') = Some report /\
     Models.processed report = true) /\
  forall now' is_emergency',
    Ingest.process_single_report float_repr isoformat float_str now' report_id d'
                                 is_emergency' = (d', true).
Proof.
  intros H.
  assert (Hfound : exists report,
             find (fun r => Z.eqb (Models.id r) report_id) (Models.raw_reports d')
             = Some report /\ Models.processed report = true).
  { destruct (process_single_report_cases float_repr isoformat float_str now report_id
                                          d is_emergency)
      as [E|[[E Hex]|[_ (report & k & c & cred & g & Hf & _ & _ & _ & Hr & _)]]];
      cbv zeta in *.
    - rewrite E in H. discriminate.
    - rewrite E in H. injection H as <-. exact Hex.
    - rewrite H in Hr. cbn [fst] in Hr. rewrite Hr.
      exists (Ingest.set_group (Ingest.set_classification report k c cred) g).
      split; [|reflexivity].
      apply (find_replace_report report_id report); [exact Hf|].
      cbn [Ingest.set_group Ingest.set_classification Models.id].
      apply find_some in Hf. destruct Hf as [_ Hid]. apply Z.eqb_eq in Hid. exact Hid. }
  split; [exact Hfound|].
  intros now' e'. destruct Hfound as (report & Hf & Hp).
  unfold Ingest.process_single_report. rewrite Hf, Hp. reflexivity.
Qed.

Lemma processing_a_report_again_changes_nothing_witness :
  exists d',
    Ingest.process_single_report Samples.float_repr Samples.isoformat Samples.float_str
                                 0 11 PipelineSamples.pending_db false
    = (d', true) /\
    forall now' is_emergency',
      Ingest.process_single_report Samples.float_repr Samples.isoformat
                                   Samples.float_str now' 11 d' is_emergency'
      = (d', true).
Proof.
  destruct (process_single_report_succeeds
              Samples.float_repr Samples.isoformat Samples.float_str 0 11
              PipelineSamples.pending_db PipelineSamples.pending_row
              eq_refl eq_refl) as (d1 & g & _ & E).
  - discriminate.
  - reflexivity.
  - intros other [<-|[]] Hproc. discriminate Hproc.
  - eexists. split; [exact E|].
    exact (proj2 (processing_a_report_again_changes_nothing
                    Samples.float_repr Samples.isoformat Samples.float_str
                    0 11 PipelineSamples.pending_db _ false E)).
Defined.

Lemma set_group_same_submission (report : Models.RawReport) (k : string) (c cred : R)
      (g : option Z) :
  Frame.same_submission
    report (Ingest.set_group (Ingest.set_classification report k c cred) g).
Proof. repeat split. Qed.



Lemma NoDup_map_eq {A B : Type} (f : A -> B) (l : list A) (x y : A) :
  NoDup (map f l) -> In x l -> In y l -> f x = f y -> x = y.
Proof.
  induction l as [|a l IH]; intros Hnd Hx Hy E; [contradiction|].
  cbn [map] in Hnd. inversion Hnd as [|? ? Hnot Hnd']; subst.
  destruct Hx as [->|Hx], Hy as [->|Hy]; auto.
  - exfalso. apply Hnot. rewrite E. apply in_map, Hy.
  - exfalso. apply Hnot. rewrite <- E. apply in_map, Hx.
Qed.

Lemma Forall2_map_self {A : Type} (P : A -> A -> Prop) (f : A -> A) (l : list A) :
  (forall x, In x l -> P x (f x)) -> Forall2 P l (map f l).
Proof.
  induction l as [|a l IH]; intros H; [constructor|].
  cbn [map]. constructor; [apply H; left; reflexivity|].
  apply IH. intros x Hx. apply H. right. exact Hx.
Qed.

Lemma same_submission_refl (r : Models.RawReport) : Frame.same_submission r r.
Proof. repeat split. Qed.

Lemma process_single_report_frame
      (float_repr : R -> string) (isoformat : DT.datetime -> string)
      (float_str : R -> string) (now report_id : Z) (d : Models.db)
      (is_emergency : bool) :
  Notions.distinct_ids d ->
  let result :=
    Ingest.process_single_report float_repr isoformat float_str now report_id d
                                 is_emergency in
  Forall2 (Frame.touched report_id (snd result))
          (Models.raw_reports d) (Models.raw_reports (fst result)) /\
  (snd result = false -> fst result = d).
Proof.
  intros Hnd. cbv zeta.
  assert (Hrefl : forall (ok : bool),
             (ok = true ->
              exists report,
                find (fun r => Z.eqb (Models.id r) report_id) (Models.raw_reports d)
                = Some report /\ Models.processed report = true) ->
             Forall2 (Frame.touched report_id ok)
                     (Models.raw_reports d) (Models.raw_reports d)).
  { intros ok Hok. rewrite <- (map_id (Models.raw_reports d)) at 2.
    apply Forall2_map_self. intros x Hx.
    split; [apply same_submission_refl|]. split; [reflexivity|]. split; [reflexivity|].
    intros E Hid. destruct (Hok E) as (report & Hf & Hp).
    apply find_some in Hf. destruct Hf as [Hin Hrid]. apply Z.eqb_eq in Hrid.
    rewrite (NoDup_map_eq Models.id _ x report Hnd Hx Hin); [exact Hp|congruence]. }
  destruct (process_single_report_cases float_repr isoformat float_str now report_id
                                        d is_emergency)
    as [E|[[E Hex]|[Hok (report & k & c & cred & g & Hf & Hp & _ & _ & Hrows & _)]]];
    cbv zeta in *.
  - rewrite E. cbn [fst snd]. split; [|reflexivity].
    apply Hrefl. discriminate.
  - rewrite E. cbn [fst snd]. split; [|discriminate].
    apply Hrefl. intros _. exact Hex.
  - split; [|rewrite Hok; discriminate].
    rewrite Hrows. unfold Ingest.replace_report. apply Forall2_map_self.
    intros x Hx.
    apply find_some in Hf. destruct Hf as [Hin Hrid]. apply Z.eqb_eq in Hrid.
    cbn [Ingest.set_group Ingest.set_classification Models.id].
    destruct (Z.eqb (Models.id x) (Models.id report)) eqn:E.
    + apply Z.eqb_eq in E.
      rewrite (NoDup_map_eq Models.id _ x report Hnd Hx Hin E).
      split; [apply set_group_same_submission|].
      split; [intros Hne; contradiction|].
      split; [intros Hpx; congruence|reflexivity].
    + apply Z.eqb_neq in E.
      split; [apply same_submission_refl|]. split; [reflexivity|].
      split; [reflexivity|]. intros _ Hid. congruence.
Qed.

(** X27.  In a store whose keys are distinct, processing a report leaves every
    row at its place with what the reporter sent; it changes at most the row
    with the given key and never a row that is already processed, and when it
    fails the whole store is as it was. *)
Theorem processing_touches_one_report
        (float_repr : R -> string) (isoformat : DT.datetime -> string)
        (float_str : R -> string) (now report_id : Z) (d : Models.db)
        (is_emergency : bool) :
  Notions.distinct_ids d ->
  let result :=
    Ingest.process_single_report float_repr isoformat float_str now report_id d
                                 is_emergency in
  Forall2 (Frame.touched report_id (snd result))
          (Models.raw_reports d) (Models.raw_reports (fst result)) /\
  (snd result = false -> fst result = d).
Proof.
  exact (process_single_report_frame float_repr isoformat float_str now report_id d
                                     is_emergency).
Qed.

Lemma mixed_db_distinct_ids : Notions.distinct_ids PipelineSamples.mixed_db.
Proof.
  unfold Notions.distinct_ids. cbn [PipelineSamples.mixed_db Models.raw_reports map].
  constructor; [cbn [In]; intros [H|[]]; discriminate H|].
  constructor; [intros []|constructor].
Qed.

Lemma processing_touches_one_report_witness :
  let result :=
    Ingest.process_single_report Samples.float_repr Samples.isoformat Samples.float_str
                                 0 11 PipelineSamples.mixed_db false in
  Forall2 (Frame.touched 11 (snd result))
          (Models.raw_reports PipelineSamples.mixed_db)
          (Models.raw_reports (fst result)) /\
  (snd result = false -> fst result = PipelineSamples.mixed_db).
Proof.
  exact (processing_touches_one_report
           Samples.float_repr Samples.isoformat Samples.float_str 0 11
           PipelineSamples.mixed_db false mixed_db_distinct_ids).
Defined.

(** ** The pipeline: the batch run and the counters *)

Lemma touched_ids (rid : Z) (ok : bool) (l l' : list Models.RawReport) :
  Forall2 (Frame.touched rid ok) l l' -> map Models.id l' = map Models.id l.
Proof.
  induction 1 as [|r r' l l' Hr _ IH]; [reflexivity|].
  cbn [map]. rewrite IH. f_equal. apply Hr.
Qed.

Lemma touched_other (rid : Z) (ok : bool) (l l' : list Models.RawReport)
      (r : Models.RawReport) :
  Forall2 (Frame.touched rid ok) l l' -> In r l -> Models.id r <> rid -> In r l'.
Proof.
  induction 1 as [|x x' l l' Hx _ IH]; intros Hin Hne; [contradiction|].
  destruct Hin as [->|Hin]; [|right; apply IH; assumption].
  left. destruct Hx as (_ & Hother & _). apply Hother, Hne.
Qed.

Lemma touched_same (rid : Z) (ok : bool) (l l' : list Models.RawReport) :
  Forall2 (Frame.touched rid ok) l l' ->
  (forall x, In x l -> Models.id x <> rid) -> l' = l.
Proof.
  induction 1 as [|x x' l l' Hx _ IH]; intros Hne; [reflexivity|].
  destruct Hx as (_ & Hother & _).
  rewrite (Hother (Hne x (or_introl eq_refl))), IH; [reflexivity|].
  intros y Hy. apply Hne. right. exact Hy.
Qed.

Lemma touched_count (rid : Z) (l l' : list Models.RawReport) :
  Forall2 (Frame.touched rid true) l l' ->
  NoDup (map Models.id l) ->
  (exists r, In r l /\ Models.id r = rid /\ Models.processed r = false) ->
  S (List.length (filter (fun r => negb (Models.processed r)) l'))
  = List.length (filter (fun r => negb (Models.processed r)) l).
Proof.
  induction 1 as [|x x' l l' Hx Hrest IH]; intros Hnd (r & Hin & Hid & Hp);
    [contradiction|].
  cbn [map] in Hnd. inversion Hnd as [|? ? Hnot Hnd']; subst.
  destruct Hx as (_ & Hother & _ & Hdone). cbn [filter].
  destruct (Z.eq_dec (Models.id x) (Models.id r)) as [E|E].
  - assert (x = r).
    { destruct Hin as [Hin|Hin]; [exact Hin|].
      exfalso. apply Hnot. rewrite E. apply in_map, Hin. }
    subst x. rewrite (Hdone eq_refl eq_refl), Hp. cbn [negb List.length].
    rewrite (touched_same _ _ _ _ Hrest); [reflexivity|].
    intros y Hy Hyid. apply Hnot. rewrite <- Hyid. apply in_map, Hy.
  - rewrite (Hother E).
    assert (Hin' : In r l) by (destruct Hin as [->|Hin]; [congruence|exact Hin]).
    specialize (IH Hnd' (ex_intro _ r (conj Hin' (conj eq_refl Hp)))).
    destruct (negb (Models.processed x)); cbn [List.length]; lia.
Qed.

Lemma touched_weaken (rid : Z) (ok : bool) (l l' : list Models.RawReport) :
  Forall2 (Frame.touched rid ok) l l' ->
  Forall2 (fun r r' => Frame.same_submission r r' /\
                       (Models.processed r = true -> r' = r)) l l'.
Proof.
  induction 1 as [|x x' l l' Hx _ IH]; constructor; [|exact IH].
  destruct Hx as (H1 & _ & H3 & _). auto.
Qed.

Lemma kept_trans (l1 l2 l3 : list Models.RawReport) :
  Forall2 (fun r r' => Frame.same_submission r r' /\
                       (Models.processed r = true -> r' = r)) l1 l2 ->
  Forall2 (fun r r' => Frame.same_submission r r' /\
                       (Models.processed r = true -> r' = r)) l2 l3 ->
  Forall2 (fun r r' => Frame.same_submission r r' /\
                       (Models.processed r = true -> r' = r)) l1 l3.
Proof.
  intros H12. revert l3. induction H12 as [|a b l1 l2 [Hs Hp] _ IH]; intros l3 H23.
  - inversion H23. constructor.
  - inversion H23 as [|? c ? l3' [Hs' Hp'] Hrest]; subst. constructor; [|apply IH, Hrest].
    split.
    + unfold Frame.same_submission in *. intuition congruence.
    + intros Ha. pose proof (Hp Ha) as E. subst b. apply Hp', Ha.
Qed.

Lemma batch_loop
      (float_repr : R -> string) (isoformat : DT.datetime -> string)
      (float_str : R -> string) (clock : Z -> Z) (todo : list Z) :
  forall d s,
  Notions.distinct_ids d ->
  NoDup todo ->
  (forall rid, In rid todo ->
     exists r, In r (Models.raw_reports d) /\ Models.id r = rid /\
               Models.processed r = false) ->
  let result :=
    fold_left (Batch.batch_step float_repr isoformat float_str clock) todo (d, s) in
  Batch.total (snd result) = Batch.total s /\
  (Batch.processed (snd result) + Batch.failed (snd result)
   = Batch.processed s + Batch.failed s + Z.of_nat (List.length todo))%Z /\
  (Batch.processed s <= Batch.processed (snd result))%Z /\
  (Batch.failed s <= Batch.failed (snd result))%Z /\
  (Z.of_nat (Frame.unprocessed_count (fst result))
   + (Batch.processed (snd result) - Batch.processed s)
   = Z.of_nat (Frame.unprocessed_count d))%Z /\
  Forall2 (fun r r' => Frame.same_submission r r' /\
                       (Models.processed r = true -> r' = r))
          (Models.raw_reports d) (Models.raw_reports (fst result)).
Proof.
  induction todo as [|rid rest IH]; intros d s Hnd Htodo Hwait; cbv zeta.
  - cbn [fold_left fst snd List.length]. repeat split; try lia.
    rewrite <- (map_id (Models.raw_reports d)) at 2.
    apply Forall2_map_self. intros x _. split; [apply same_submission_refl|reflexivity].
  - cbn [fold_left].
    pose proof (process_single_report_frame float_repr isoformat float_str
                  (clock rid) rid d false Hnd) as Hframe.
    cbv zeta in Hframe.
    assert (Hstep :
              Batch.batch_step float_repr isoformat float_str clock (d, s) rid
              = (fst (Ingest.process_single_report float_repr isoformat float_str
                                                   (clock rid) rid d false),
                 if snd (Ingest.process_single_report float_repr isoformat float_str
                                                      (clock rid) rid d false)
                 then Batch.mkstats (Batch.processed s + 1) (Batch.failed s)
                                    (Batch.total s)
                 else Batch.mkstats (Batch.processed s) (Batch.failed s + 1)
                                    (Batch.total s))).
    { unfold Batch.batch_step.
      destruct (Ingest.process_single_report float_repr isoformat float_str
                                             (clock rid) rid d false). reflexivity. }
    rewrite Hstep. clear Hstep.
    destruct (Ingest.process_single_report float_repr isoformat float_str
                                           (clock rid) rid d false) as [d1 ok].
    cbn [fst snd] in Hframe |- *. destruct Hframe as [Htouched Hfail].
    inversion Htodo as [|? ? Hnotin Hrest]; subst.
    assert (Hnd1 : Notions.distinct_ids d1).
    { unfold Notions.distinct_ids in *. rewrite (touched_ids _ _ _ _ Htouched).
      exact Hnd. }
    assert (Hwait1 : forall rid', In rid' rest ->
               exists r, In r (Models.raw_reports d1) /\ Models.id r = rid' /\
                         Models.processed r = false).
    { intros rid' Hin. destruct (Hwait rid' (or_intror Hin)) as (r & Hr & Hid & Hp).
      exists r. split; [|auto].
      apply (touched_other _ _ _ _ _ Htouched Hr).
      intros E. apply Hnotin. congruence. }
    assert (Hcount : (Z.of_nat (Frame.unprocessed_count d1)
                      + (if ok then 1 else 0)
                      = Z.of_nat (Frame.unprocessed_count d))%Z).
    { destruct ok.
      - unfold Frame.unprocessed_count.
        rewrite <- (touched_count rid _ _ Htouched Hnd (Hwait rid (or_introl eq_refl))).
        lia.
      - rewrite (Hfail eq_refl). lia. }
    match goal with
    | |- context [fold_left _ rest (d1, ?s1)] =>
        specialize (IH d1 s1 Hnd1 Hrest Hwait1); cbv zeta in IH;
        destruct (fold_left (Batch.batch_step float_repr isoformat float_str clock)
                            rest (d1, s1)) as [df sf]
    end.
    cbn [fst snd] in *.
    destruct IH as (I1 & I2 & I3 & I4 & I5 & I6).
    apply touched_weaken in Htouched.
    pose proof (kept_trans _ _ _ Htouched I6) as Hkept.
    destruct ok; cbn [Batch.total Batch.processed Batch.failed] in *;
      repeat split; try lia; try exact Hkept;
      cbn [List.length]; lia.
Qed.

Lemma filter_partition_length {A : Type} (p : A -> bool) (l : list A) :
  List.length l
  = (List.length (filter p l) + List.length (filter (fun x => negb (p x)) l))%nat.
Proof.
  induction l as [|a l IH]; [reflexivity|]. cbn [filter List.length].
  destruct (p a); cbn [negb List.length]; lia.
Qed.

Lemma unprocessed_ids (l : list Models.RawReport) :
  NoDup (map Models.id l) ->
  NoDup (map Models.id (filter (fun r => negb (Models.processed r)) l)).
Proof.
  induction l as [|a l IH]; intros Hnd; [constructor|].
  cbn [map] in Hnd. inversion Hnd as [|? ? Hnot Hnd']; subst. cbn [filter].
  destruct (negb (Models.processed a)); [|apply IH, Hnd'].
  cbn [map]. constructor; [|apply IH, Hnd'].
  intros Hin. apply Hnot. apply in_map_iff in Hin. destruct Hin as (x & Hx & Hin).
  apply filter_In in Hin. rewrite <- Hx. apply in_map, Hin.
Qed.

Lemma process_all_unprocessed_reports_spec
      (float_repr : R -> string) (isoformat : DT.datetime -> string)
      (float_str : R -> string) (clock : Z -> Z) (d : Models.db) :
  Notions.distinct_ids d ->
  let result :=
    Batch.process_all_unprocessed_reports float_repr isoformat float_str clock d in
  Batch.total (snd result) = Z.of_nat (Frame.unprocessed_count d) /\
  (Batch.processed (snd result) + Batch.failed (snd result)
   = Batch.total (snd result))%Z /\
  (0 <= Batch.processed (snd result))%Z /\
  (0 <= Batch.failed (snd result))%Z /\
  Z.of_nat (Frame.unprocessed_count (fst result)) = Batch.failed (snd result) /\
  Batch.unprocessed_reports (Batch.get_processing_stats (fst result))
  = Batch.failed (snd result) /\
  Forall2 (fun r r' => Frame.same_submission r r' /\
                       (Models.processed r = true -> r' = r))
          (Models.raw_reports d) (Models.raw_reports (fst result)).
Proof.
  intros Hnd. cbv zeta. unfold Batch.process_all_unprocessed_reports.
  set (waiting := filter (fun r => negb (Models.processed r)) (Models.raw_reports d)).
  destruct (batch_loop float_repr isoformat float_str clock (map Models.id waiting)
                       d (Batch.mkstats 0 0 (Z.of_nat (List.length waiting))) Hnd)
    as (H1 & H2 & H3 & H4 & H5 & H6).
  { apply unprocessed_ids, Hnd. }
  { intros rid Hin. apply in_map_iff in Hin. destruct Hin as (r & Hid & Hr).
    apply filter_In in Hr. destruct Hr as [Hr Hp]. apply negb_true_iff in Hp.
    exists r. auto. }
  cbv zeta in *.
  destruct (fold_left _ _ _) as [df sf]. cbn [fst snd] in *.
  cbn [Batch.total Batch.processed Batch.failed] in *.
  rewrite length_map in H2.
  assert (Hu : Frame.unprocessed_count d = List.length waiting) by reflexivity.
  rewrite Hu in *.
  split; [exact H1|]. split; [lia|]. split; [lia|]. split; [lia|].
  assert (Hleft : Z.of_nat (Frame.unprocessed_count df) = Batch.failed sf) by lia.
  split; [exact Hleft|]. split; [|exact H6].
  unfold Batch.get_processing_stats. cbn [Batch.unprocessed_reports].
  rewrite <- Hleft. unfold Frame.unprocessed_count.
  rewrite (filter_partition_length Models.processed (Models.raw_reports df)). lia.
Qed.

(** X28.  In a store whose keys are distinct, the batch run tries every waiting
    report once: the total is the number of waiting reports, and the
    processed and the failed ones add up to it.  The reports still waiting
    after the run are exactly the failed ones, and this is the number of
    unprocessed reports that the counters then show.  Every row keeps what
    the reporter sent, and the rows that were already processed are not
    changed. *)
Theorem batch_run_accounts_for_every_waiting_report
        (float_repr : R -> string) (isoformat : DT.datetime -> string)
        (float_str : R -> string) (clock : Z -> Z) (d : Models.db) :
  Notions.distinct_ids d ->
  let result :=
    Batch.process_all_unprocessed_reports float_repr isoformat float_str clock d in
  Batch.total (snd result) = Z.of_nat (Frame.unprocessed_count d) /\
  (Batch.processed (snd result) + Batch.failed (snd result)
   = Batch.total (snd result))%Z /\
  (0 <= Batch.processed (snd result))%Z /\
  (0 <= Batch.failed (snd result))%Z /\
  Z.of_nat (Frame.unprocessed_count (fst result)) = Batch.failed (snd result) /\
  Batch.unprocessed_reports (Batch.get_processing_stats (fst result))
  = Batch.failed (snd result) /\
  Forall2 (fun r r' => Frame.same_submission r r' /\
                       (Models.processed r = true -> r' = r))
          (Models.raw_reports d) (Models.raw_reports (fst result)).
Proof.
  exact (process_all_unprocessed_reports_spec float_repr isoformat float_str clock d).
Qed.

Lemma batch_run_accounts_for_every_waiting_report_witness :
  let result :=
    Batch.process_all_unprocessed_reports
      Samples.float_repr Samples.isoformat Samples.float_str (fun _ => 0%Z)
      PipelineSamples.mixed_db in
  Batch.total (snd result) = 2%Z /\
  (Batch.processed (snd result) + Batch.failed (snd result) = 2)%Z /\
  Z.of_nat (Frame.unprocessed_count (fst result)) = Batch.failed (snd result).
Proof.
  destruct (batch_run_accounts_for_every_waiting_report
              Samples.float_repr Samples.isoformat Samples.float_str (fun _ => 0%Z)
              PipelineSamples.mixed_db mixed_db_distinct_ids)
    as (H1 & H2 & _ & _ & H5 & _).
  cbv zeta. rewrite H2, H1. repeat split. exact H5.
Defined.

(** ** Events that the lookup of fusion cannot find *)

Lemma like_char_bracket (c : ascii) :
  Ingest.like_char "[" c = true -> c = "["%char.
Proof.
  destruct c as [b0 b1 b2 b3 b4 b5 b6 b7].
  destruct b0, b1, b2, b3, b4, b5, b6, b7; vm_compute; intros H;
    solve [reflexivity | discriminate H].
Qed.

Lemma like_prefix_bracket (p s : string) :
  Ingest.like_prefix (p ++ "[") s = true -> In "["%char (Notions.chars s).
Proof.
  revert s. induction p as [|a p IH]; intros s; destruct s as [|c s];
    cbn [String.append Ingest.like_prefix]; try discriminate.
  - intros H. apply andb_true_iff in H. destruct H as [H _].
    apply like_char_bracket in H. subst c. left. reflexivity.
  - intros H. apply andb_true_iff in H. destruct H as [_ H].
    right. apply IH, H.
Qed.

Lemma like_contains_bracket (p s : string) :
  Ingest.like_contains (p ++ "[") s = true -> In "["%char (Notions.chars s).
Proof.
  induction s as [|c s IH]; cbn [Ingest.like_contains].
  - rewrite orb_false_r. apply like_prefix_bracket.
  - intros H. apply orb_true_iff in H. destruct H as [H|H].
    + apply like_prefix_bracket in H. exact H.
    + right. apply IH, H.
Qed.

Lemma no_bracket_no_match (group_id : option Z) (e : Models.HazardEvent) :
  ~ In "["%char (Notions.chars (Models.evidence_json e)) ->
  Ingest.matches_group group_id e = false.
Proof.
  intros Hno. unfold Ingest.matches_group.
  destruct (Ingest.like_contains _ (Models.evidence_json e)) eqn:E; [|reflexivity].
  exfalso. apply Hno.
  apply (like_contains_bracket (String Json.dquote "report_ids" ++ String Json.dquote ": ")).
  exact E.
Qed.

Lemma chars_app (s1 s2 : string) :
  Notions.chars (s1 ++ s2) = (Notions.chars s1 ++ Notions.chars s2)%list.
Proof.
  unfold Notions.chars. induction s1 as [|c s1 IH]; [reflexivity|].
  cbn [String.append list_ascii_of_string app]. f_equal. exact IH.
Qed.

Lemma sos_evidence_no_bracket (device_id message : string) :
  ~ In "["%char (Notions.chars device_id) ->
  ~ In "["%char (Notions.chars message) ->
  ~ In "["%char (Notions.chars (Batch.sos_evidence device_id message)).
Proof.
  intros Hd Hm. unfold Batch.sos_evidence, Batch.in_quotes.
  repeat (rewrite ?chars_app;
          cbn [Notions.chars list_ascii_of_string String.append app]).
  rewrite ?chars_app.
  intros H.
  repeat (apply in_app_or in H || cbn [In] in H;
          destruct H as [H|H]; try discriminate H; try contradiction).
Qed.

Lemma unmatched_event_kept
      (float_repr : R -> string) (isoformat : DT.datetime -> string)
      (now : Z) (group_id : option Z) (d : Models.db) (e : Models.HazardEvent) :
  In e (Models.hazard_events d) ->
  (forall g, Ingest.matches_group g e = false) ->
  (forall e', In e' (Models.hazard_events d) ->
              Models.event_id e' = Models.event_id e -> e' = e) ->
  let d' := fst (Ingest._process_group_fusion float_repr isoformat now group_id d) in
  In e (Models.hazard_events d') /\
  (forall e', In e' (Models.hazard_events d') ->
              Models.event_id e' = Models.event_id e -> e' = e).
Proof.
  intros Hin Hno Huniq. cbv zeta.
  destruct (process_group_fusion_cases float_repr isoformat now group_id d)
    as [[kind ->]|(stats & fr & _ & _ & _ & ->)]; [cbn [fst]; auto|].
  destruct (Ingest.first_match group_id (Models.hazard_events d)) as [existing|] eqn:Em;
    cbn [fst Models.hazard_events].
  - unfold Ingest.first_match in Em. apply find_some in Em. destruct Em as [Hex Hmatch].
    assert (Hne : Models.event_id existing <> Models.event_id e).
    { intros E. rewrite (Huniq existing Hex E) in Hmatch.
      rewrite (Hno group_id) in Hmatch. discriminate. }
    split.
    + unfold Ingest.replace_event. apply in_map_iff. exists e. split; [|exact Hin].
      cbn [Ingest.update_event Models.event_id].
      destruct (Z.eqb_spec (Models.event_id e) (Models.event_id existing));
        [congruence|reflexivity].
    + intros e' He' Hid. unfold Ingest.replace_event in He'.
      apply in_map_iff in He'. destruct He' as (x & Hx & Hxin).
      cbn [Ingest.update_event Models.event_id] in Hx.
      destruct (Z.eqb_spec (Models.event_id x) (Models.event_id existing)).
      * subst e'. cbn [Ingest.update_event Models.event_id] in Hid. congruence.
      * subst e'. apply Huniq; assumption.
  - split; [apply in_or_app; left; exact Hin|].
    intros e' He' Hid. apply in_app_or in He'. destruct He' as [He'|[<-|[]]].
    + apply Huniq; assumption.
    + exfalso. cbn [Ingest.new_event Models.event_id] in Hid.
      apply (next_event_id_fresh (Models.hazard_events d)).
      rewrite Hid. apply in_map, Hin.
Qed.

Lemma unmatched_event_kept_by_processing
      (float_repr : R -> string) (isoformat : DT.datetime -> string)
      (float_str : R -> string) (now report_id : Z) (d : Models.db)
      (is_emergency : bool) (e : Models.HazardEvent) :
  In e (Models.hazard_events d) ->
  (forall g, Ingest.matches_group g e = false) ->
  (forall e', In e' (Models.hazard_events d) ->
              Models.event_id e' = Models.event_id e -> e' = e) ->
  let d' := fst (Ingest.process_single_report float_repr isoformat float_str now
                                              report_id d is_emergency) in
  In e (Models.hazard_events d') /\
  (forall e', In e' (Models.hazard_events d') ->
              Models.event_id e' = Models.event_id e -> e' = e).
Proof.
  intros Hin Hno Huniq. cbv zeta.
  destruct (process_single_report_cases float_repr isoformat float_str now report_id
                                        d is_emergency)
    as [E|[[E _]|[_ (report & k & c & cred & g & _ & _ & _ & _ & _ & E)]]];
    cbv zeta in E; rewrite E; [cbn [fst]; auto|cbn [fst]; auto|].
  apply (unmatched_event_kept float_repr isoformat now g); assumption.
Qed.

Lemma process_new_lora_sos_spec
      (float_repr : R -> string) (isoformat : DT.datetime -> string)
      (float_str : R -> string)
      (now : Z) (device_id : string) (lat lon : R) (message : string)
      (timestamp : option Z) (d : Models.db) :
  Notions.keys_below_limit d ->
  ~ In "["%char (Notions.chars device_id) ->
  ~ In "["%char (Notions.chars message) ->
  let result := Batch.process_new_lora_sos now device_id lat lon message timestamp d in
  let event :=
    Batch.emergency_event now (snd result) device_id lat lon message timestamp in
  Models.raw_reports (fst result) = Models.raw_reports d /\
  Models.hazard_events (fst result) = (Models.hazard_events d ++ [event])%list /\
  (forall e, In e (Models.hazard_events d) -> (Models.event_id e < snd result)%Z) /\
  (snd result <= Ingest.max_rowid)%Z /\
  Batch.emergency_events (Batch.get_processing_stats (fst result))
  = (Batch.emergency_events (Batch.get_processing_stats d) + 1)%Z /\
  (forall now' group_id,
     In event (Models.hazard_events
                 (fst (Ingest._process_group_fusion float_repr isoformat now' group_id
                                                    (fst result))))) /\
  (forall now' report_id is_emergency,
     In event (Models.hazard_events
                 (fst (Ingest.process_single_report
                         float_repr isoformat float_str now' report_id (fst result)
                         is_emergency)))).
Proof.
  intros Hlimit Hd Hm. cbv zeta.
  pose proof (next_event_id_in_range d Hlimit) as Hkey.
  unfold Batch.process_new_lora_sos. cbn [fst snd].
  set (event := Batch.emergency_event now _ device_id lat lon message timestamp).
  cbn [Models.raw_reports Models.hazard_events].
  assert (Hfresh : forall e, In e (Models.hazard_events d) ->
            (Models.event_id e < Ingest.next_event_id (Models.hazard_events d))%Z).
  { intros e He. unfold Ingest.next_event_id.
    pose proof (max_default0_ge _ _ (in_map Models.event_id _ _ He)). lia. }
  assert (Hin : In event (Models.hazard_events d ++ [event]))
    by (apply in_or_app; right; left; reflexivity).
  assert (Hnm : forall g, Ingest.matches_group g event = false).
  { intros g. apply no_bracket_no_match.
    apply sos_evidence_no_bracket; assumption. }
  assert (Huniq : forall e', In e' (Models.hazard_events d ++ [event]) ->
            Models.event_id e' = Models.event_id event -> e' = event).
  { intros e' He' Hid. apply in_app_or in He'. destruct He' as [He'|[<-|[]]];
      [|reflexivity].
    specialize (Hfresh e' He'). cbn [event Batch.emergency_event Models.event_id] in Hid.
    lia. }
  split; [reflexivity|]. split; [reflexivity|]. split; [exact Hfresh|].
  split; [exact Hkey|]. split.
  { unfold Batch.get_processing_stats. cbn [Batch.emergency_events Models.hazard_events].
    rewrite filter_app, length_app.
    cbn [filter event Batch.emergency_event Models.status String.eqb Ascii.eqb
         Bool.eqb List.length]. lia. }
  split.
  - intros now' g.
    apply (unmatched_event_kept float_repr isoformat now' g
             (Models.mkdb (Models.raw_reports d) (Models.hazard_events d ++ [event]))
             event Hin Hnm Huniq).
  - intros now' rid em.
    apply (unmatched_event_kept_by_processing
             float_repr isoformat float_str now' rid
             (Models.mkdb (Models.raw_reports d) (Models.hazard_events d ++ [event]))
             em event Hin Hnm Huniq).
Qed.

(** X29.  In a store whose event keys are below the greatest key of the table,
    the fast path of a beacon signal adds one emergency event at the end of
    the table of events, with a key greater than all the others and itself a
    key of the table, and leaves the reports alone; the counter of emergency
    events goes up by one.  When the name of the device and the message have
    no opening bracket, no later fusion pass and no later processing of a
    report rewrites that event. *)
Theorem beacon_event_is_added_and_kept
        (float_repr : R -> string) (isoformat : DT.datetime -> string)
        (float_str : R -> string)
        (now : Z) (device_id : string) (lat lon : R) (message : string)
        (timestamp : option Z) (d : Models.db) :
  Notions.keys_below_limit d ->
  ~ In "["%char (Notions.chars device_id) ->
  ~ In "["%char (Notions.chars message) ->
  let result := Batch.process_new_lora_sos now device_id lat lon message timestamp d in
  let event :=
    Batch.emergency_event now (snd result) device_id lat lon message timestamp in
  Models.raw_reports (fst result) = Models.raw_reports d /\
  Models.hazard_events (fst result) = (Models.hazard_events d ++ [event])%list /\
  (forall e, In e (Models.hazard_events d) -> (Models.event_id e < snd result)%Z) /\
  (snd result <= Ingest.max_rowid)%Z /\
  Batch.emergency_events (Batch.get_processing_stats (fst result))
  = (Batch.emergency_events (Batch.get_processing_stats d) + 1)%Z /\
  (forall now' group_id,
     In event (Models.hazard_events
                 (fst (Ingest._process_group_fusion float_repr isoformat now' group_id
                                                    (fst result))))) /\
  (forall now' report_id is_emergency,
     In event (Models.hazard_events
                 (fst (Ingest.process_single_report
                         float_repr isoformat float_str now' report_id (fst result)
                         is_emergency)))).
Proof.
  exact (process_new_lora_sos_spec float_repr isoformat float_str now device_id lat lon
                                   message timestamp d).
Qed.

Lemma beacon_event_is_added_and_kept_witness :
  let result :=
    Batch.process_new_lora_sos 0 "device-12" 11.7 79.7 "SOS" None Samples.first_db in
  let event := Batch.emergency_event 0 (snd result) "device-12" 11.7 79.7 "SOS" None in
  Models.hazard_events (fst result) = [event] /\
  (forall now' group_id,
     In event (Models.hazard_events
                 (fst (Ingest._process_group_fusion
                         Samples.float_repr Samples.isoformat now' group_id
                         (fst result))))).
Proof.
  destruct (beacon_event_is_added_and_kept
              Samples.float_repr Samples.isoformat Samples.float_str
              0 "device-12" 11.7 79.7 "SOS" None Samples.first_db)
    as (_ & H2 & _ & _ & _ & H5 & _).
  - intros e [].
  - cbn [Notions.chars list_ascii_of_string In].
    intros H; decompose [or] H; try discriminate; assumption.
  - cbn [Notions.chars list_ascii_of_string In].
    intros H; decompose [or] H; try discriminate; assumption.
  - cbv zeta. split; [exact H2|exact H5].
Defined.

(** ** The administrator hook *)

Lemma replace_event_Forall2 (e' : Models.HazardEvent) (events : list Models.HazardEvent)
      (P : Models.HazardEvent -> Models.HazardEvent -> Prop) :
  (forall e, In e events -> Models.event_id e = Models.event_id e' -> P e e') ->
  (forall e, In e events -> Models.event_id e <> Models.event_id e' -> P e e) ->
  Forall2 P events (Ingest.replace_event e' events).
Proof.
  intros Hsame Hother. unfold Ingest.replace_event.
  induction events as [|e events IH]; [constructor|]. cbn [map]. constructor.
  - destruct (Z.eqb_spec (Models.event_id e) (Models.event_id e')).
    + apply Hsame; [left; reflexivity|assumption].
    + apply Hother; [left; reflexivity|assumption].
  - apply IH; intros x Hx; [apply Hsame|apply Hother]; right; exact Hx.
Qed.

Lemma set_status_validated (now hazard_id : Z) (status : string)
      (hazard : Models.HazardEvent) :
  Models.event_id hazard = hazard_id ->
  Validation.validated
    hazard_id status hazard
    (if String.eqb status "approved"
     then App.set_status now status
            (Some (Rmin (Ingest.or_half (Models.confidence hazard) + 0.2) 1.0)) hazard
     else if String.eqb status "rejected"
     then App.set_status now status
            (Some (Rmax (Ingest.or_half (Models.confidence hazard) - 0.3) 0.0)) hazard
     else App.set_status now status None hazard).
Proof.
  intros Hid. unfold Validation.validated.
  assert (Hc : forall c, 0 <= c <= 1 \/ c = 0.5 ->
             0 <= Rmin (c + 0.2) 1.0 <= 1 /\ 0 <= Rmax (c - 0.3) 0.0 <= 1).
  { intros c Hc. split; minmax; lra. }
  assert (Hh : Notions.in_unit_interval (Models.confidence hazard) ->
               0 <= Ingest.or_half (Models.confidence hazard) <= 1 \/
               Ingest.or_half (Models.confidence hazard) = 0.5).
  { unfold Notions.in_unit_interval, Ingest.or_half.
    destruct (Models.confidence hazard) as [c|]; [|auto].
    destruct (Req_dec_T c 0); auto. }
  destruct (String.eqb status "approved"); [|destruct (String.eqb status "rejected")];
    cbn [App.set_status Models.event_id Models.hazard_type Models.severity
         Models.centroid_lat Models.centroid_lon Models.evidence_json
         Models.status Models.confidence Notions.in_unit_interval];
    (split; [reflexivity|]); (split; [reflexivity|]); (split; [reflexivity|]);
    (split; [reflexivity|]); (split; [reflexivity|]); (split; [reflexivity|]);
    (split; [intros Hne; contradiction|]); (split; [reflexivity|]).
  - intros H. apply Hc, Hh, H.
  - intros H. apply Hc, Hh, H.
  - destruct (Models.confidence hazard); auto.
Qed.

Lemma validated_refl (hazard_id : Z) (status : string) (e : Models.HazardEvent) :
  Models.event_id e <> hazard_id -> Validation.validated hazard_id status e e.
Proof. intros Hne. unfold Validation.validated. repeat split; auto. contradiction. Qed.

Lemma validate_hazard_spec (now hazard_id : Z) (validation_status : option string)
      (d : Models.db) :
  NoDup (map Models.event_id (Models.hazard_events d)) ->
  ((forall e, In e (Models.hazard_events d) -> Models.event_id e <> hazard_id) ->
   App.validate_hazard now hazard_id validation_status d
   = Py.Raise (Py.HTTPException 500)) /\
  (forall e, In e (Models.hazard_events d) -> Models.event_id e = hazard_id ->
   exists d',
     App.validate_hazard now hazard_id validation_status d = Py.Ok d' /\
     Models.raw_reports d' = Models.raw_reports d /\
     Forall2 (Validation.validated hazard_id
                (Validation.requested_status validation_status))
             (Models.hazard_events d) (Models.hazard_events d')).
Proof.
  intros Hnd. unfold App.validate_hazard.
  destruct (find _ (Models.hazard_events d)) as [hazard|] eqn:Ef.
  - apply find_some in Ef. destruct Ef as [Hin Hid]. apply Z.eqb_eq in Hid.
    split; [intros Hno; exfalso; exact (Hno hazard Hin Hid)|].
    intros e He Heid. eexists. split; [reflexivity|].
    cbn [Models.raw_reports Models.hazard_events]. split; [reflexivity|].
    fold (Validation.requested_status validation_status).
    set (status := Validation.requested_status validation_status).
    pose proof (set_status_validated now hazard_id status hazard Hid) as Hv.
    set (updated := if String.eqb status "approved" then _ else _) in *.
    assert (Hu : Models.event_id updated = hazard_id).
    { destruct Hv as (Hv & _). congruence. }
    apply replace_event_Forall2.
    + intros x Hx Hxid.
      assert (x = hazard); [|subst x; exact Hv].
      apply (NoDup_map_eq Models.event_id _ x hazard Hnd Hx Hin). congruence.
    + intros x Hx Hne. apply validated_refl. congruence.
  - split; [reflexivity|].
    intros e He Heid. exfalso.
    apply (find_none _ _ Ef) in He. apply Z.eqb_neq in He. contradiction.
Qed.

(** X30.  The administrator hook changes one event.  Asked about a key that no
    event has, it answers with the status code 500 (its own 404 is caught by
    its general handler).  Asked about the key of an event, in a table whose
    keys are distinct, it leaves the reports and every other event as they
    are, gives the event the requested status, keeps its kind, severity,
    centroid and evidence, and keeps a confidence that was between 0 and 1
    between 0 and 1. *)
Theorem validation_changes_one_event
        (now hazard_id : Z) (validation_status : option string) (d : Models.db) :
  NoDup (map Models.event_id (Models.hazard_events d)) ->
  ((forall e, In e (Models.hazard_events d) -> Models.event_id e <> hazard_id) ->
   App.validate_hazard now hazard_id validation_status d
   = Py.Raise (Py.HTTPException 500)) /\
  (forall e, In e (Models.hazard_events d) -> Models.event_id e = hazard_id ->
   exists d',
     App.validate_hazard now hazard_id validation_status d = Py.Ok d' /\
     Models.raw_reports d' = Models.raw_reports d /\
     Forall2 (Validation.validated hazard_id
                (Validation.requested_status validation_status))
             (Models.hazard_events d) (Models.hazard_events d')).
Proof. exact (validate_hazard_spec now hazard_id validation_status d). Qed.

Lemma validation_changes_one_event_witness :
  App.validate_hazard 0 2 (Some "approved") EventSamples.pending_event_db
  = Py.Raise (Py.HTTPException 500) /\
  exists d',
    App.validate_hazard 0 1 (Some "approved") EventSamples.pending_event_db
    = Py.Ok d' /\
    Forall2 (Validation.validated 1 "approved")
            (Models.hazard_events EventSamples.pending_event_db)
            (Models.hazard_events d').
Proof.
  assert (Hnd : NoDup (map Models.event_id
                           (Models.hazard_events EventSamples.pending_event_db))).
  { constructor; [intros []|constructor]. }
  split.
  - apply (proj1 (validation_changes_one_event
                    0 2 (Some "approved") EventSamples.pending_event_db Hnd)).
    intros e [<-|[]]. discriminate.
  - destruct (proj2 (validation_changes_one_event
                       0 1 (Some "approved") EventSamples.pending_event_db Hnd)
                    EventSamples.pending_event (or_introl eq_refl) eq_refl)
      as (d' & H1 & _ & H3).
    exists d'. split; [exact H1|exact H3].
Defined.
